(** * cmkcli: the site-table scraper and the problem/acknowledgement pipeline

    A shallow embedding of the parts of [cmkcli.py] that decide what the
    tool prints: the [WatoSitesHtmlParser] callbacks, the problem and
    acknowledgement table builders, comment lookup, the interactive
    prompts, the downtime and acknowledgement requests, the checks before
    a host is added and the refresh commands.

    Python values are modelled directly: [str] as [string], a JSON row as
    [list string], [None] as [option], a raised exception as the [Raise]
    branch of [Py.result].  Library calls whose code is not part of the
    program ([textwrap.fill], [colored.fg], [colored.attr], [int] on user
    input) are parameters of the sections that use them. *)

From Stdlib Require Import String Ascii List ZArith Lia Bool DecimalString.
From Stdlib Require OrdersEx Sorted.
Import ListNotations.
Open Scope string_scope.
Open Scope list_scope.

(** ** Python runtime fragments *)

Module Py.

Inductive exn : Type :=
| IndexError
| ValueError
| RecursionError.

Inductive result (A : Type) : Type :=
| Ok (a : A)
| Raise (e : exn).
Arguments Ok {A} a.
Arguments Raise {A} e.

Definition bind {A B} (m : result A) (k : A -> result B) : result B :=
  match m with
  | Ok a => k a
  | Raise e => Raise e
  end.

(** [l[i]] position: indices in [-len, len) are valid, negative ones
    count from the end. *)
Definition norm_index {A} (l : list A) (i : Z) : option nat :=
  let n := Z.of_nat (length l) in
  if ((0 <=? i) && (i <? n))%Z then Some (Z.to_nat i)
  else if ((- n <=? i) && (i <? 0))%Z then Some (Z.to_nat (i + n))
  else None.

(** [l[i]] *)
Definition getitem {A} (l : list A) (i : Z) : result A :=
  match norm_index l i with
  | Some k =>
      match nth_error l k with
      | Some x => Ok x
      | None => Raise IndexError
      end
  | None => Raise IndexError
  end.

Fixpoint set_nth {A} (l : list A) (k : nat) (x : A) : list A :=
  match l, k with
  | [], _ => []
  | _ :: t, O => x :: t
  | h :: t, S k' => h :: set_nth t k' x
  end.

(** [l[i].append(x)] on a list of lists: the row object stored at
    position [i] is extended in place. *)
Definition append_at {A} (l : list (list A)) (i : Z) (x : A)
  : result (list (list A)) :=
  match norm_index l i with
  | Some k =>
      match nth_error l k with
      | Some row => Ok (set_nth l k (row ++ [x]))
      | None => Raise IndexError
      end
  | None => Raise IndexError
  end.

(** [l.pop()]: the list without its last element. *)
Definition pop {A} (l : list A) : result (list A) :=
  match l with
  | [] => Raise IndexError
  | _ => Ok (removelast l)
  end.

(** [l.pop(0)]: the list without its first element. *)
Definition pop0 {A} (l : list A) : result (list A) :=
  match l with
  | [] => Raise IndexError
  | _ :: t => Ok t
  end.

(** [del l[k]] for a non-negative constant [k]. *)
Fixpoint del {A} (l : list A) (k : nat) : result (list A) :=
  match l, k with
  | [], _ => Raise IndexError
  | _ :: t, O => Ok t
  | h :: t, S k' => bind (del t k') (fun t' => Ok (h :: t'))
  end.

(** Truth value of a [str]. *)
Definition truthy (s : string) : bool := negb (s =? "").

(** Truth value of a value that is [None] or a [str]. *)
Definition truthy_opt (o : option string) : bool :=
  match o with
  | None => false
  | Some s => truthy s
  end.

(** [needle in hay] on strings. *)
Fixpoint contains (needle hay : string) : bool :=
  if prefix needle hay then true
  else match hay with
       | EmptyString => false
       | String _ rest => contains needle rest
       end.

End Py.

Notation "x <- m ;; k" := (Py.bind m (fun x => k))
  (at level 61, m at next level, right associativity).

(** ** WatoSitesHtmlParser *)

Module Scraper.
Import Py.

(** The callbacks [HTMLParser.feed] makes, in document order. *)
Inductive event : Type :=
| StartTag (tag : string) (attrs : list (string * option string))
| EndTag (tag : string)
| Data (data : string).

Record parser : Type := mkParser {
  output : list (list string);
  row_index : Z;
  column_index : Z;
  header_found : bool
}.

(** [__init__] *)
Definition init : parser :=
  {| output := []; row_index := -1; column_index := 0;
     header_found := false |}.

Definition handle_starttag (p : parser) (tag : string)
           (attrs : list (string * option string)) : parser :=
  if negb (header_found p) then p
  else
    let p1 :=
      if tag =? "tr" then
        {| output := output p ++ [[]];
           row_index := row_index p + 1;
           column_index := 0;
           header_found := header_found p |}
      else p in
    if tag =? "td" then
      {| output := output p1;
         row_index := row_index p1;
         column_index := column_index p1 + 1;
         header_found := header_found p1 |}
    else p1.

Definition handle_endtag (p : parser) (tag : string) : parser :=
  if tag =? "table" then
    if negb (header_found p) then
      {| output := output p;
         row_index := row_index p;
         column_index := column_index p;
         header_found := true |}
    else p
  else p.

Definition append_data (p : parser) (data : string) : result parser :=
  out <- append_at (output p) (row_index p) data ;;
  Ok {| output := out;
        row_index := row_index p;
        column_index := column_index p;
        header_found := header_found p |}.

Definition handle_data (p : parser) (data : string) : result parser :=
  if (column_index p =? 2)%Z then append_data p data
  else if (column_index p =? 3)%Z then append_data p data
  else if (column_index p =? 4)%Z then append_data p data
  else Ok p.

Definition step (p : parser) (e : event) : result parser :=
  match e with
  | StartTag tag attrs => Ok (handle_starttag p tag attrs)
  | EndTag tag => Ok (handle_endtag p tag)
  | Data data => handle_data p data
  end.

(** [feed]: the callbacks run in order; an exception stops the run. *)
Fixpoint feed (p : parser) (evs : list event) : result parser :=
  match evs with
  | [] => Ok p
  | e :: rest => p' <- step p e ;; feed p' rest
  end.

(** [get_sites] *)
Definition get_sites (p : parser) : result (list (list string)) :=
  o1 <- pop (output p) ;;
  o2 <- pop0 o1 ;;
  Ok o2.

(** [CheckMk.get_sites]: a fresh parser, fed the page, then asked. *)
Definition scrape (page : list event) : result (list (list string)) :=
  p <- feed init page ;; get_sites p.

(** *** Pages made of tables

    A cell is the list of text nodes it holds (none for an empty cell,
    several when markup splits the text); a row is its cells; a table
    is its rows. *)
Definition cell := list string.
Definition row := list cell.
Definition table := list row.

Definition render_cell (c : cell) : list event :=
  StartTag "td" [] :: map Data c ++ [EndTag "td"].

Definition render_row (r : row) : list event :=
  StartTag "tr" [] :: flat_map render_cell r ++ [EndTag "tr"].

Definition render_table (t : table) : list event :=
  StartTag "table" [] :: flat_map render_row t ++ [EndTag "table"].

(** A header table with arbitrary content, then the data table. *)
Definition render_page (chrome : list event) (t : table) : list event :=
  (StartTag "table" [] :: chrome ++ [EndTag "table"]) ++ render_table t.

(** All rows but the first and the last. *)
Definition interior {A} (l : list A) : list A := tl (removelast l).

(** Text content of a cell: its text nodes joined. *)
Definition cell_text (c : cell) : string := String.concat "" c.

(** Columns 2, 3 and 4 of a row. *)
Definition columns_2_4 (r : row) : list cell := firstn 3 (skipn 1 r).

(** What the claim expects of a row: one string per column. *)
Definition row_contents (r : row) : list string :=
  map cell_text (columns_2_4 r).

(** What the callbacks collect for a row: one string per text node. *)
Definition row_text_nodes (r : row) : list string :=
  concat (columns_2_4 r).

Definition single_node (c : cell) : Prop := exists s, c = [s].

(** The test of [handle_data] on the column counter. *)
Definition collects (column : Z) : bool :=
  ((column =? 2) || (column =? 3) || (column =? 4))%Z.

(** Text nodes kept from the cells that follow column [column]. *)
Fixpoint kept (column : Z) (cells : list cell) : list string :=
  match cells with
  | [] => []
  | c :: rest =>
      (if collects (column + 1) then c else []) ++ kept (column + 1) rest
  end.

(** The parser once the header table is closed: [out] holds the rows
    started so far and [row_index] points at the last of them. *)
Definition collecting (out : list (list string)) (column : Z) : parser :=
  {| output := out;
     row_index := Z.of_nat (length out) - 1;
     column_index := column;
     header_found := true |}.

End Scraper.

(** ** Problem and acknowledgement tables *)

Module Formatter.
Import Py.

(** A [for] loop over rows that appends at most one item per row and
    stops at the first exception. *)
Fixpoint collect {A B} (f : A -> result (option B)) (l : list A)
  : result (list B) :=
  match l with
  | [] => Ok []
  | x :: rest =>
      y <- f x ;;
      ys <- collect f rest ;;
      Ok (match y with
          | Some b => b :: ys
          | None => ys
          end)
  end.

(** [s] without the leading [p], when [s] starts with [p]. *)
Fixpoint strip_prefix (p s : string) : option string :=
  match p, s with
  | EmptyString, _ => Some s
  | String a p', String b s' =>
      if Ascii.eqb a b then strip_prefix p' s' else None
  | String _ _, EmptyString => None
  end.

(** [re.sub('^(a1|a2|...)suffix', '', s)]: the pattern is anchored at the
    start of the string, so at most one match is replaced; alternatives
    are tried left to right. *)
Fixpoint sub_leading (alternatives : list string) (suffix s : string)
  : string :=
  match alternatives with
  | [] => s
  | a :: rest =>
      match strip_prefix (a ++ suffix)%string s with
      | Some r => r
      | None => sub_leading rest suffix s
      end
  end.

(** [re.sub('^(CRIT|WARN|UNKNOWN) - ', '', detail)] *)
Definition sub_severity_prefix (detail : string) : string :=
  sub_leading ["CRIT"; "WARN"; "UNKNOWN"] " - " detail.

(** Rows of the comment list built by [get_comments]. *)
Record comment : Type := mkComment {
  comment_author : string;
  comment_time : string;
  comment_host : string;
  service_description : string;
  comment_comment : string
}.

Definition nagios_process : string := "(Nagios Process)".

(** [i[3] == service] for a [service] that is [None] or a [str]. *)
Definition eq_service (cell : string) (service : option string) : bool :=
  match service with
  | Some s => cell =? s
  | None => false
  end.

(** [get_comment] *)
Fixpoint get_comment (comments : list comment) (host : string)
         (service : option string) : option (string * string) :=
  match comments with
  | [] => None
  | i :: rest =>
      if truthy host && negb (truthy_opt service)
         && (comment_host i =? host)
      then Some (comment_author i, comment_comment i)
      else if truthy host && truthy_opt service
              && (comment_host i =? host)
              && eq_service (service_description i) service
      then Some (comment_author i, comment_comment i)
      else get_comment rest host service
  end.

(** A comment is about the queried host and, when a service is queried,
    about that service. *)
Definition matches_query (host : string) (service : option string)
           (c : comment) : Prop :=
  comment_host c = host
  /\ match service with
     | Some s => service_description c = s
     | None => True
     end.

Section WithLibraries.

(** [textwrap.fill(text, width)] *)
Variable fill : string -> nat -> string.
(** [colored.fg(name)] and [colored.attr(name)] *)
Variable fg : string -> string.
Variable attr : string -> string.
(** [self.print_colour] *)
Variable print_colour : bool.

Definition paint (code s : string) : string :=
  if print_colour then (code ++ s ++ attr "reset")%string else s.

Definition str_red (s : string) : string := paint (fg "red") s.
Definition str_yellow (s : string) : string := paint (fg "yellow") s.
Definition str_blue (s : string) : string := paint (fg "blue") s.
Definition str_green (s : string) : string := paint (fg "green") s.
Definition str_orange (s : string) : string :=
  paint (fg "dark_orange") s.
Definition str_bold (s : string) : string := paint (attr "bold") s.

(** The flags decoded from the icons cell. *)
Definition ack_flags (icons : string) : string :=
  let ack := "" in
  let ack :=
    if contains "ack" icons then (ack ++ "(acknowledged) ")%string
    else ack in
  let ack :=
    if contains "downtime" icons then (ack ++ "(downtime)")%string
    else ack in
  str_blue ack.

(** Severity cell of a service row. *)
Definition service_state (s : string) : string :=
  if s =? "CRIT" then str_red s
  else if s =? "WARN" then str_yellow s
  else if s =? "UNKN" then str_orange s
  else s.

(** Severity cell of a host row. *)
Definition host_state (s : string) : string :=
  if s =? "DOWN" then str_red s
  else if s =? "UNKN" then str_orange s
  else s.

(** Body of the loop of [get_service_problems_table]. *)
Definition service_problem_row (i : list string)
  : result (option (list string)) :=
  i0 <- getitem i 0 ;;
  let state := service_state i0 in
  host <- getitem i 1 ;;
  service <- getitem i 2 ;;
  let service := fill service 70 in
  icons <- getitem i 3 ;;
  let ack := ack_flags icons in
  detail <- getitem i 4 ;;
  let detail := sub_severity_prefix detail in
  let detail := fill detail 100 in
  state_age <- getitem i 5 ;;
  Ok (Some [state; host; service; detail; state_age; ack]).

(** [get_service_problems_table], from the JSON rows of the
    [svcproblems] view. *)
Definition get_service_problems_table (r : list (list string))
  : result (list (list string)) :=
  service_problems <- pop0 r ;;
  collect service_problem_row service_problems.

(** Body of the loop of [get_comments]. *)
Definition comment_row (i : list string) : result (option comment) :=
  i0 <- getitem i 0 ;;
  if negb (i0 =? nagios_process) then
    i1 <- getitem i 1 ;;
    i5 <- getitem i 5 ;;
    i6 <- getitem i 6 ;;
    i4 <- getitem i 4 ;;
    Ok (Some {| comment_author := i0;
                comment_time := i1;
                comment_host := i5;
                service_description := i6;
                comment_comment := fill i4 100 |})
  else Ok None.

(** [get_comments], from the JSON rows of the [comments] view. *)
Definition get_comments (r : list (list string))
  : result (list comment) :=
  r <- pop0 r ;;
  collect comment_row r.

(** The author and comment cells chosen after [get_comment]. *)
Definition author_and_comment (found : option (string * string))
  : string * string :=
  match found with
  | Some (author, text) => (author, fill text 60)
  | None => ("", "")
  end.

(** Body of the loop of [get_acknowledged_hosts]. *)
Definition acknowledged_host_row (comments : list comment)
           (i : list string) : result (option (list string)) :=
  icons <- getitem i 2 ;;
  if contains "ack" icons then
    i0 <- getitem i 0 ;;
    let (author, comment) :=
      author_and_comment (get_comment comments i0 None) in
    i3 <- getitem i 3 ;;
    let state := host_state i3 in
    let host := i0 in
    address <- getitem i 1 ;;
    i4 <- getitem i 4 ;;
    let detail := fill i4 60 in
    Ok (Some [state; host; address; detail; author; comment])
  else Ok None.

(** [get_acknowledged_hosts], from the JSON rows of the
    [hostproblems] view and of the [comments] view. *)
Definition get_acknowledged_hosts (host_problems : list (list string))
           (comments_json : list (list string))
  : result (list (list string)) :=
  comments <- get_comments comments_json ;;
  collect (acknowledged_host_row comments) host_problems.

(** Body of the loop of [get_acknowledged_services]. *)
Definition acknowledged_service_row (comments : list comment)
           (i : list string) : result (option (list string)) :=
  icons <- getitem i 3 ;;
  if contains "ack" icons then
    i1 <- getitem i 1 ;;
    i2 <- getitem i 2 ;;
    let (author, comment) :=
      author_and_comment (get_comment comments i1 (Some i2)) in
    i0 <- getitem i 0 ;;
    let state := service_state i0 in
    let host := i1 in
    let service := i2 in
    i4 <- getitem i 4 ;;
    let detail := fill i4 60 in
    since <- getitem i 5 ;;
    Ok (Some [state; host; service; detail; since; author; comment])
  else Ok None.

(** [get_acknowledged_services] *)
Definition get_acknowledged_services
           (service_problems : list (list string))
           (comments_json : list (list string))
  : result (list (list string)) :=
  comments <- get_comments comments_json ;;
  collect (acknowledged_service_row comments) service_problems.

End WithLibraries.

End Formatter.

(** ** Interactive prompts *)

Module Prompt.
Import Py.

(** What the terminal delivers to one [input()] call: a line, or an
    interrupt ([KeyboardInterrupt]).  A terminal with nothing left
    delivers end of file ([EOFError]). *)
Inductive user_input : Type :=
| Line (s : string)
| Interrupt.

(** What a prompt function writes: the prompt of [input()], or a line
    written by [print()]. *)
Inductive written : Type :=
| Asked (prompt : string)
| Printed (line : string).

Record run (A : Type) : Type := mkRun {
  value : A;
  trace : list written;
  pending : list user_input
}.
Arguments mkRun {A} value trace pending.
Arguments value {A} r.
Arguments trace {A} r.
Arguments pending {A} r.

(** [str(n)] for an [int]. *)
Definition str_of_int (n : Z) : string :=
  DecimalString.NilZero.string_of_int (Z.to_int n).

(** Code points below 256 for which [str.isspace] holds. *)
Definition is_space (c : ascii) : bool :=
  let n := nat_of_ascii c in
  ((9 <=? n) && (n <=? 13) || (28 <=? n) && (n <=? 32)
   || (n =? 133) || (n =? 160))%nat.

Fixpoint lstrip (s : string) : string :=
  match s with
  | EmptyString => EmptyString
  | String c rest => if is_space c then lstrip rest else s
  end.

Fixpoint rstrip (s : string) : string :=
  match s with
  | EmptyString => EmptyString
  | String c rest =>
      let rest' := rstrip rest in
      if is_space c && (rest' =? "") then EmptyString
      else String c rest'
  end.

(** [s.strip()] *)
Definition strip (s : string) : string := rstrip (lstrip s).

(** [re.sub(';', ':', s)] *)
Fixpoint sub_semicolon (s : string) : string :=
  match s with
  | EmptyString => EmptyString
  | String c rest =>
      String (if Ascii.eqb c ";" then ":"%char else c) (sub_semicolon rest)
  end.

(** [s.lower()] on the letters A to Z. *)
Definition lower_char (c : ascii) : ascii :=
  let n := nat_of_ascii c in
  if ((65 <=? n) && (n <=? 90))%nat then ascii_of_nat (n + 32) else c.

Fixpoint lower (s : string) : string :=
  match s with
  | EmptyString => EmptyString
  | String c rest => String (lower_char c) (lower rest)
  end.

(** The three prompts below ask again by calling themselves, and the
    interpreter bounds how deep calls nest.  For them [depth] is the
    number of calls that still fit on the stack, the one being made
    included: a call made when none fits raises [RecursionError] before
    it writes or reads anything, and the exception passes through every
    caller.  For the functions that call them [depth] is the number of
    calls that still fit below the function itself. *)

(** [yes_no]: [Some true], [Some false], or [None] after an interrupt. *)
Fixpoint yes_no (depth : nat) (question : string)
         (tty : list user_input) : run (result (option bool)) :=
  match depth with
  | O => mkRun (Raise RecursionError) [] tty
  | S depth' =>
      let ask := Asked (question ++ " [Y/n] ")%string in
      match tty with
      | [] => mkRun (Ok None) [ask; Printed ""] []
      | Interrupt :: tty' => mkRun (Ok None) [ask; Printed ""] tty'
      | Line s :: tty' =>
          let a := strip (lower s) in
          if (substring 0 1 a =? "y") || (a =? "") then
            mkRun (Ok (Some true)) [ask] tty'
          else if substring 0 1 a =? "n" then
            mkRun (Ok (Some false)) [ask] tty'
          else
            let r := yes_no depth' question tty' in
            mkRun (value r) (ask :: trace r) (pending r)
      end
  end.

Definition comment_prompt : string :=
  "enter a comment for the acknowledgement: ".

(** [get_acknowledge_comment] *)
Fixpoint get_acknowledge_comment (depth : nat) (tty : list user_input)
  : run (result (option string)) :=
  match depth with
  | O => mkRun (Raise RecursionError) [] tty
  | S depth' =>
      let ask := Asked comment_prompt in
      match tty with
      | [] => mkRun (Ok None) [ask; Printed ""] []
      | Interrupt :: tty' => mkRun (Ok None) [ask; Printed ""] tty'
      | Line s :: tty' =>
          let comment := strip s in
          if negb (comment =? "") then
            mkRun (Ok (Some (sub_semicolon comment))) [ask] tty'
          else
            let r := get_acknowledge_comment depth' tty' in
            mkRun (value r) (ask :: trace r) (pending r)
      end
  end.

(** The call [acknowledge_problem(host, service, comment)] that sends
    the acknowledgement. *)
Record acknowledgement : Type := mkAck {
  ack_host : string;
  ack_service : option string;
  ack_comment : string
}.

(** [prompt_acknowledge_problem]: the acknowledgement it sends, if any,
    or the exception that ends it, and the input it leaves unread.  The
    summary written by [print_acknowledgement] is not part of the
    result. *)
Definition prompt_acknowledge_problem (depth : nat) (state host : string)
           (service : option string) (detail : string)
           (tty : list user_input)
  : result (option acknowledgement) * list user_input :=
  let c := get_acknowledge_comment depth tty in
  match value c with
  | Raise e => (Raise e, pending c)
  | Ok None => (Ok None, pending c)
  | Ok (Some comment) =>
      if negb (truthy comment) then (Ok None, pending c)
      else
        let question :=
          if truthy_opt service
          then "do you wish to acknowledge this service problem?"
          else "do you wish to acknowledge this host problem?" in
        let a := yes_no depth question (pending c) in
        match value a with
        | Raise e => (Raise e, pending a)
        | Ok (Some true) =>
            (Ok (Some (mkAck host service comment)), pending a)
        | Ok _ => (Ok None, pending a)
        end
  end.

(** [s.rjust(width)] *)
Definition rjust (s : string) (width : nat) : string :=
  (string_of_list_ascii (repeat " "%char (width - String.length s))
   ++ s)%string.

(** ['[ ' + str(i + 1).rjust(3) + ' ]'] *)
Definition row_label (i : Z) : string :=
  ("[ " ++ rjust (str_of_int (i + 1)) 3 ++ " ]")%string.

(** The loops of [acknowledge] that drop the acknowledged column of
    each row and put the running number in front. *)
Fixpoint number_rows (column : nat) (i : Z) (rows : list (list string))
  : result (list (list string) * Z) :=
  match rows with
  | [] => Ok ([], i)
  | row :: rest =>
      row' <- del row column ;;
      let row' := row_label i :: row' in
      rest' <- number_rows column (i + 1) rest ;;
      Ok (row' :: fst rest', snd rest')
  end.

(** A row without its column [column], behind the label of position
    [i]: what the loop of [number_rows] makes of a row that is long
    enough. *)
Definition numbered_row (column : nat) (i : Z) (row : list string)
  : list string :=
  row_label i :: firstn column row ++ skipn (S column) row.

Fixpoint numbered (column : nat) (i : Z) (rows : list (list string))
  : list (list string) :=
  match rows with
  | [] => []
  | row :: rest => numbered_row column i row :: numbered column (i + 1) rest
  end.

(** The prompt of [get_problem_id]. *)
Definition problem_id_prompt (ack : bool) (total_problems : Z) : string :=
  let prefix := if negb ack then "un-" else "" in
  ("select a host or service problem to " ++ prefix
   ++ "acknowledge [ 1 - " ++ str_of_int total_problems ++ " ]: ")%string.

Section WithInt.

(** [int(s)] on a line typed by the user: the integer, or [None] when
    it raises [ValueError]. *)
Variable int : string -> option Z.

(** [get_problem_id] *)
Fixpoint get_problem_id (depth : nat) (ack : bool) (total_problems : Z)
         (tty : list user_input) : run (result (option Z)) :=
  match depth with
  | O => mkRun (Raise RecursionError) [] tty
  | S depth' =>
      let ask := Asked (problem_id_prompt ack total_problems) in
      match tty with
      | [] => mkRun (Ok None) [ask; Printed ""] []
      | Interrupt :: tty' => mkRun (Ok None) [ask; Printed ""] tty'
      | Line s :: tty' =>
          match int s with
          | None =>
              let r := get_problem_id depth' ack total_problems tty' in
              mkRun (value r) (ask :: trace r) (pending r)
          | Some problem_id =>
              if ((1 <=? problem_id) && (problem_id <=? total_problems))%Z
              then mkRun (Ok (Some problem_id)) [ask] tty'
              else
                let r := get_problem_id depth' ack total_problems tty' in
                mkRun (value r) (ask :: trace r) (pending r)
          end
      end
  end.

(** An entry [get_problem_id] does not accept: a line that is not an
    integer, or an integer outside [1, total_problems]. *)
Definition rejected (total_problems : Z) (u : user_input) : Prop :=
  exists s, u = Line s
            /\ (int s = None
                \/ exists k, int s = Some k
                             /\ (k < 1 \/ total_problems < k)%Z).

(** How [acknowledge] ends. *)
Inductive outcome : Type :=
| Exit (status : Z)
| NoAction
| HostChosen (state host detail : string)
             (sent : option acknowledgement)
| ServiceChosen (state host service detail : string)
                (sent : option acknowledgement).

(** [acknowledge], given the tables [get_host_problems_table] and
    [get_service_problems_table] return.  Printing the two tables is
    left out; everything that decides the row is kept.
    [prompt_acknowledge_problem] takes one of the [depth] calls that fit
    below [acknowledge] and leaves the others to the prompts it makes. *)
Definition acknowledge (depth : nat)
           (host_problems service_problems : list (list string))
           (tty : list user_input) : result outcome :=
  let total_problems :=
    (Z.of_nat (length host_problems)
     + Z.of_nat (length service_problems))%Z in
  if (total_problems =? 0)%Z then Ok (Exit 0)
  else
    let i := 0%Z in
    hp <- (if (0 <? Z.of_nat (length host_problems))%Z
           then number_rows 4 i host_problems
           else Ok (host_problems, i)) ;;
    let host_problems := fst hp in
    let i := snd hp in
    sp <- (if (0 <? Z.of_nat (length service_problems))%Z
           then number_rows 5 i service_problems
           else Ok (service_problems, i)) ;;
    let service_problems := fst sp in
    let r := get_problem_id depth true total_problems tty in
    selected <- value r ;;
    match selected with
    | None => Ok NoAction
    | Some problem_id =>
        if (problem_id =? 0)%Z then Ok NoAction
        else if (problem_id <=? Z.of_nat (length host_problems))%Z then
          row <- getitem host_problems (problem_id - 1) ;;
          state <- getitem row 1 ;;
          host <- getitem row 2 ;;
          detail <- getitem row 4 ;;
          sent <- fst (prompt_acknowledge_problem
                         (Nat.pred depth) state host None detail
                         (pending r)) ;;
          Ok (HostChosen state host detail sent)
        else
          let k :=
            (problem_id - Z.of_nat (length host_problems) - 1)%Z in
          row <- getitem service_problems k ;;
          state <- getitem row 1 ;;
          host <- getitem row 2 ;;
          service <- getitem row 3 ;;
          detail <- getitem row 4 ;;
          sent <- fst (prompt_acknowledge_problem
                         (Nat.pred depth) state host (Some service) detail
                         (pending r)) ;;
          Ok (ServiceChosen state host service detail sent)
    end.

End WithInt.

End Prompt.

(** ** Downtime requests *)

Module Downtime.
Import Py.

Definition success_marker : string := "MESSAGE: Successfully sent".

Section WithServer.

(** [colored.fg], [colored.attr] and [self.print_colour] *)
Variable fg : string -> string.
Variable attr : string -> string.
Variable print_colour : bool.
(** [urllib.parse.quote(s, safe='')] *)
Variable quote : string -> string.
(** The text of the response to [request_view(url)]. *)
Variable request_view : string -> string.

Let str_green := Formatter.str_green fg attr print_colour.
Let str_red := Formatter.str_red fg attr print_colour.

Definition downtime_base_url (hostname comment : string) : string :=
  ("&output_format=JSON&_do_confirm=yes&_transid=-1&_do_actions=yes&host="
   ++ quote hostname ++ "&site=&_down_comment=" ++ quote comment)%string.

(** [downtime_add_minutes]: the lines it prints. *)
Definition downtime_add_minutes (hostname : string)
           (service : option string) (comment : string) (minutes : Z)
  : list string :=
  let url := downtime_base_url hostname comment in
  let url :=
    (url ++ "&_down_from_now=From+now+for&_down_minutes="
     ++ Prompt.str_of_int minutes)%string in
  let s := match service with Some s => s | None => "" end in
  let url :=
    if truthy_opt service
    then (url ++ "&view_name=service&service=" ++ quote s)%string
    else (url ++ "&view_name=hoststatus")%string in
  let r_text := request_view url in
  if contains success_marker r_text then
    if truthy_opt service then
      [("service " ++ str_green s ++ " on host " ++ str_green hostname
        ++ " successfully placed in downtime for "
        ++ Prompt.str_of_int minutes ++ " minutes")%string]
    else
      [("host " ++ str_green hostname
        ++ " successfully placed in downtime for "
        ++ Prompt.str_of_int minutes ++ " minutes")%string]
  else [].

(** [downtime_remove]: the lines it prints. *)
Definition downtime_remove (hostname : string)
           (service : option string) : list string :=
  let url :=
    ("&output_format=JSON&_do_confirm=yes&_transid=-1&_do_actions=yes&host="
     ++ quote hostname ++ "&site=&_remove_downtimes=Remove")%string in
  let s := match service with Some s => s | None => "" end in
  let url :=
    if truthy_opt service
    then (url ++ "&view_name=downtimes_of_service&service="
          ++ quote s)%string
    else (url ++ "&view_name=downtimes_of_host")%string in
  let r_text := request_view url in
  if contains success_marker r_text then
    if truthy_opt service then
      [("service " ++ str_green s ++ " on host " ++ str_green hostname
        ++ " successfully removed from downtime")%string]
    else
      [("host " ++ str_green hostname
        ++ " successfully removed from downtime ")%string]
  else
    if truthy_opt service then
      [("could not remove downtime on service " ++ str_red s
        ++ " on host " ++ str_red hostname
        ++ ". it probably was not in downtime to begin with.")%string]
    else
      [("could not remove downtime on host " ++ str_red hostname
        ++ ". it probably was not in downtime to begin with.")%string].

End WithServer.

End Downtime.

(** ** Pages with text between the tags, and the site check *)

Module Sites.
Import Py Scraper.

(** What [feed] keeps true of the parser: [row_index] points at the last
    row started, the column counter is not negative, and nothing has been
    collected before the header table closed. *)
Definition consistent (p : parser) : Prop :=
  row_index p = (Z.of_nat (length (output p)) - 1)%Z
  /\ (0 <= column_index p)%Z
  /\ (header_found p = false -> output p = [] /\ column_index p = 0%Z).

(** Markup written with a text node (a line break, say) after every tag
    of a row. *)
Definition render_cell_gap (gap : string) (c : cell) : list event :=
  render_cell c ++ [Data gap].

Definition render_row_gap (gap : string) (r : row) : list event :=
  StartTag "tr" [] :: Data gap
  :: flat_map (render_cell_gap gap) r ++ [EndTag "tr"; Data gap].

Definition render_table_gap (gap : string) (t : table) : list event :=
  StartTag "table" [] :: Data gap
  :: flat_map (render_row_gap gap) t ++ [EndTag "table"; Data gap].

Definition render_page_gap (gap : string) (chrome : list event)
           (t : table) : list event :=
  (StartTag "table" [] :: chrome ++ [EndTag "table"; Data gap])
  ++ render_table_gap gap t.

(** Text nodes kept from the cells that follow column [column] when each
    cell is followed by the text node [gap]. *)
Fixpoint kept_gap (gap : string) (column : Z) (cells : list cell)
  : list string :=
  match cells with
  | [] => []
  | c :: rest =>
      (if collects (column + 1) then c ++ [gap] else [])
      ++ kept_gap gap (column + 1) rest
  end.

(** What the callbacks collect for a row of such markup: the text nodes
    of columns 2 to 4, each cell followed by the text after its closing
    tag, and the text after the row's closing tag when the row ends in
    one of those columns. *)
Definition row_text_nodes_gap (gap : string) (r : row) : list string :=
  concat (map (fun c => c ++ [gap]) (columns_2_4 r))
  ++ (if collects (Z.of_nat (length r)) then [gap] else []).

(** The loop of [check_site_exists] over the rows [get_sites] returned. *)
Fixpoint site_listed (sites : list (list string)) (site : string)
  : result bool :=
  match sites with
  | [] => Ok false
  | i :: rest =>
      i0 <- getitem i 0 ;;
      if i0 =? site then Ok true else site_listed rest site
  end.

(** [check_site_exists], on the page [request_wato('&mode=sites')]
    answers with. *)
Definition check_site_exists (page : list event) (site : string)
  : result bool :=
  sites <- scrape page ;;
  site_listed sites site.

End Sites.

(** ** Confirmation and removal of acknowledgements *)

Module Confirm.
Import Py Prompt.

(** How [yes_no] reads one line: yes, no, or not an answer. *)
Definition answer (line : string) : option bool :=
  let a := strip (lower line) in
  if (substring 0 1 a =? "y") || (a =? "") then Some true
  else if substring 0 1 a =? "n" then Some false
  else None.

(** The loops of [unacknowledge] that put the running number in front of
    each row. *)
Fixpoint label_rows (i : Z) (rows : list (list string))
  : list (list string) * Z :=
  match rows with
  | [] => ([], i)
  | row :: rest =>
      let row' := row_label i :: row in
      let rest' := label_rows (i + 1) rest in
      (row' :: fst rest', snd rest')
  end.

(** How [unacknowledge] ends: the process exits, nothing is selected,
    the user does not confirm, or [unacknowledge_problem(host, service)]
    is called. *)
Inductive outcome : Type :=
| Exit (status : Z)
| NoAction
| Declined
| Unacknowledged (host : string) (service : option string).

Section WithInt.

Variable int : string -> option Z.

(** [unacknowledge], given the tables [get_acknowledged_hosts] and
    [get_acknowledged_services] return.  Printing is left out. *)
Definition unacknowledge (depth : nat)
           (acknowledged_host_problems acknowledged_service_problems
            : list (list string))
           (tty : list user_input) : result outcome :=
  let total_problems :=
    (Z.of_nat (length acknowledged_host_problems)
     + Z.of_nat (length acknowledged_service_problems))%Z in
  if (total_problems =? 0)%Z then Ok (Exit 0)
  else
    let i := 0%Z in
    let hp :=
      if (0 <? Z.of_nat (length acknowledged_host_problems))%Z
      then label_rows i acknowledged_host_problems
      else (acknowledged_host_problems, i) in
    let acknowledged_host_problems := fst hp in
    let i := snd hp in
    let sp :=
      if (0 <? Z.of_nat (length acknowledged_service_problems))%Z
      then label_rows i acknowledged_service_problems
      else (acknowledged_service_problems, i) in
    let acknowledged_service_problems := fst sp in
    let r := get_problem_id int depth false total_problems tty in
    selected <- value r ;;
    match selected with
    | None => Ok NoAction
    | Some problem_id =>
        if (problem_id =? 0)%Z then Ok NoAction
        else if (problem_id
                 <=? Z.of_nat (length acknowledged_host_problems))%Z then
          row <- getitem acknowledged_host_problems (problem_id - 1) ;;
          state <- getitem row 1 ;;
          host <- getitem row 2 ;;
          detail <- getitem row 4 ;;
          confirmed <- value (yes_no
                                depth
                                "do you wish to un-acknowledge this host problem?"
                                (pending r)) ;;
          match confirmed with
          | Some true =>
              host <- getitem row 2 ;;
              Ok (Unacknowledged host None)
          | _ => Ok Declined
          end
        else
          let k :=
            (problem_id
             - Z.of_nat (length acknowledged_host_problems) - 1)%Z in
          row <- getitem acknowledged_service_problems k ;;
          state <- getitem row 1 ;;
          host <- getitem row 2 ;;
          service <- getitem row 3 ;;
          detail <- getitem row 4 ;;
          confirmed <- value (yes_no
                                depth
                                "do you wish to un-acknowledge this service problem?"
                                (pending r)) ;;
          match confirmed with
          | Some true =>
              host <- getitem row 2 ;;
              service <- getitem row 3 ;;
              Ok (Unacknowledged host (Some service))
          | _ => Ok Declined
          end
    end.

End WithInt.

End Confirm.

(** ** Printed listings *)

Module Listing.
Import Py Formatter.

(** A [for] loop that changes every row in place and stops at the first
    exception. *)
Fixpoint each {A B} (f : A -> result B) (l : list A) : result (list B) :=
  match l with
  | [] => Ok []
  | x :: rest =>
      y <- f x ;;
      ys <- each f rest ;;
      Ok (y :: ys)
  end.

(** The loop of [downtime_list] that sends a row to the host table when
    its service cell is empty and to the service table otherwise. *)
Fixpoint split_downtimes (r : list (list string))
  : result (list (list string) * list (list string)) :=
  match r with
  | [] => Ok ([], [])
  | i :: rest =>
      i1 <- getitem i 1 ;;
      hs <- split_downtimes rest ;;
      Ok (if i1 =? "" then (i :: fst hs, snd hs)
          else (fst hs, i :: snd hs))
  end.

(** The five [del] statements applied to the host headers and to every
    host row. *)
Definition host_columns (row : list string) : result (list string) :=
  row <- del row 1 ;;
  row <- del row 1 ;;
  row <- del row 5 ;;
  row <- del row 5 ;;
  del row 5.

(** The four [del] statements applied to the service headers and to
    every service row. *)
Definition service_columns (row : list string) : result (list string) :=
  row <- del row 2 ;;
  row <- del row 6 ;;
  row <- del row 6 ;;
  del row 6.

(** The cells of a row of ten or more that [host_columns] keeps:
    positions 0, 3, 4, 5, 6 and whatever follows position 9. *)
Definition host_kept (row : list string) : list string :=
  firstn 1 row ++ firstn 4 (skipn 3 row) ++ skipn 10 row.

(** The cells that [service_columns] keeps: positions 0, 1, 3, 4, 5, 6
    and whatever follows position 9. *)
Definition service_kept (row : list string) : list string :=
  firstn 2 row ++ firstn 4 (skipn 3 row) ++ skipn 10 row.

(** A row of the [downtimes] view is about a host when its service cell
    is empty. *)
Definition about_host (row : list string) : bool := nth 1 row "" =? "".

Section WithLibraries.

Variable fill : string -> nat -> string.
Variable fg : string -> string.
Variable attr : string -> string.
Variable print_colour : bool.
(** [tabulate(rows, headers=headers)] *)
Variable tabulate : list (list string) -> list string -> string.

Let str_bold := Formatter.str_bold attr print_colour.

(** The lines printed for one table: blank, title, blank, table. *)
Definition titled (title : string) (rows : list (list string))
           (headers : list string) : list string :=
  [""; str_bold title; ""; tabulate rows headers].

(** [downtime_list]: the lines it prints, given the JSON rows of the
    [downtimes] view. *)
Definition downtime_list (hosts services : bool)
           (r : list (list string)) : result (list string) :=
  downtimes_headers <- getitem r 0 ;;
  r <- pop0 r ;;
  if (length r =? 0)%nat
  then Ok ["there are no hosts or services in downtime"]
  else
    let downtimes_headers := map str_bold downtimes_headers in
    hs <- split_downtimes r ;;
    host_downtimes_headers <- host_columns downtimes_headers ;;
    host_downtimes <- each host_columns (fst hs) ;;
    service_downtimes_headers <- service_columns downtimes_headers ;;
    service_downtimes <- each service_columns (snd hs) ;;
    Ok ((if hosts && negb services || negb hosts && negb services
            || hosts && services
         then if (0 <? length host_downtimes)%nat
              then titled "host downtimes" host_downtimes
                          host_downtimes_headers
              else []
         else [])
        ++ (if services && negb hosts || negb hosts && negb services
               || hosts && services
            then if (0 <? length service_downtimes)%nat
                 then titled "service downtimes" service_downtimes
                             service_downtimes_headers
                 else []
            else [])
        ++ [""]).

(** [service_problem_table_headers] *)
Definition service_problem_table_headers : list string :=
  map str_bold
      ["state"; "host"; "service"; "detail"; "state age"; "acknowledged"].

(** [list_service_problems_table]: the lines it prints and the table it
    returns. *)
Definition list_service_problems_table (ignore_status : bool)
           (r : list (list string))
  : result (list string * list (list string)) :=
  service_problems_table <-
    get_service_problems_table fill fg attr print_colour r ;;
  let headers := service_problem_table_headers in
  hr <- (if negb ignore_status then
           headers <- del headers 5 ;;
           rows <- each (fun row => del row 5) service_problems_table ;;
           Ok (headers, rows)
         else Ok (headers, service_problems_table)) ;;
  let headers := fst hr in
  let service_problems_table := snd hr in
  Ok ((if (0 <? length service_problems_table)%nat
       then titled "service problems" service_problems_table headers
       else []),
      service_problems_table).

(** The detail text of a row, as [list_service_problems] prints it. *)
Definition service_problem_line (i : list string) : result string :=
  i0 <- getitem i 0 ;;
  let state := service_state fg attr print_colour i0 in
  host <- getitem i 1 ;;
  service <- getitem i 2 ;;
  icons <- getitem i 3 ;;
  let ack := ack_flags fg attr print_colour icons in
  detail <- getitem i 4 ;;
  let detail := sub_severity_prefix detail in
  state_age <- getitem i 5 ;;
  Ok (state ++ " - " ++ host ++ " - " ++ service ++ " - " ++ detail
      ++ " - " ++ state_age ++ " " ++ ack)%string.

(** [list_service_problems]: the lines printed.  Each line is printed
    before the next row is read, so the lines of the rows before a bad
    row are out when the exception is raised. *)
Fixpoint print_service_problems (rows : list (list string))
  : list string * option exn :=
  match rows with
  | [] => ([], None)
  | i :: rest =>
      match service_problem_line i with
      | Ok line =>
          let r := print_service_problems rest in
          (line :: fst r, snd r)
      | Raise e => ([], Some e)
      end
  end.

Definition list_service_problems (r : list (list string))
  : list string * option exn :=
  match pop0 r with
  | Ok rows => print_service_problems rows
  | Raise e => ([], Some e)
  end.

End WithLibraries.

End Listing.

(** ** Requests: acknowledgements, problem listings, bulk downtimes *)

Module Requests.
Import Py Downtime.

(** The pattern [downtime_bulk_add] and the other bulk commands match
    host names against. *)
Definition match_string (lazy : bool) (hostname : string) : string :=
  if lazy then hostname else ("*" ++ hostname ++ "*")%string.

(** [str(comment)] for a comment that is [None] or a [str]. *)
Definition str_of_comment (comment : option string) : string :=
  match comment with
  | Some c => c
  | None => "None"
  end.

(** [value == s] for a value that is [None] or a [str]. *)
Definition eq_opt (value : option string) (s : string) : bool :=
  match value with
  | Some x => x =? s
  | None => false
  end.

(** The line break inside a printed message. *)
Definition nl : string := String (ascii_of_nat 10) "".

(** Truth value of [minutes], which is [None] or an [int]. *)
Definition truthy_minutes (minutes : option Z) : bool :=
  match minutes with
  | Some n => negb (n =? 0)%Z
  | None => false
  end.

Section WithServer.

Variable fg : string -> string.
Variable attr : string -> string.
Variable print_colour : bool.
(** [urllib.parse.quote(s)] and [urllib.parse.quote(s, safe='')] *)
Variable quote : string -> string.
Variable quote_all : string -> string.
(** The text of the response to [request_view(url)]. *)
Variable request_view : string -> string.
(** [get_username()] *)
Variable username : string.
(** [fnmatch.fnmatchcase(name, pattern)] *)
Variable fnmatchcase : string -> string -> bool.
(** Dates: [str(d)], [str(d.date())] and [d.strftime(format)]. *)
Variable datetime : Type.
Variable str_of_datetime : datetime -> string.
Variable date_of : datetime -> string.
Variable strftime : datetime -> string -> string.

Let str_green := Formatter.str_green fg attr print_colour.
Let str_red := Formatter.str_red fg attr print_colour.
Let downtime_add_minutes :=
  Downtime.downtime_add_minutes fg attr print_colour quote_all request_view.

(** [get_problems]: the line it may print and the query it sends to
    [request_view], given what [get_folders] returns. *)
Definition get_problems (folders : list string) (ignore_status : bool)
           (problem_type folder : option string)
  : list string * string :=
  let url := "&output_format=json&filled_in=filter" in
  let url :=
    if negb (truthy_opt problem_type)
       || eq_opt problem_type "service"
    then
      let url := (url ++ "&view_name=svcproblems")%string in
      if ignore_status
      then (url ++ "&is_service_acknowledged=-1&is_in_downtime=-1")%string
      else (url ++ "&is_service_acknowledged=0&is_in_downtime=0")%string
    else if eq_opt problem_type "host" then
      let url := (url ++ "&view_name=hostproblems")%string in
      if ignore_status
      then (url ++ "&filled_in=filter&is_host_acknowledged=-1"
            ++ "&is_host_scheduled_downtime_depth=-1")%string
      else (url ++ "&filled_in=filter&is_host_acknowledged=0"
            ++ "&is_host_scheduled_downtime_depth=0")%string
    else url in
  match folder with
  | Some f =>
      if truthy f then
        ((if negb (existsb (String.eqb f) folders)
          then [("the folder " ++ str_red f ++ " does not exist." ++ nl
                 ++ "specify the full path of the folder. "
                 ++ "see the 'folders' command for a list")%string]
          else []),
         (url ++ "&wato_folder=" ++ f)%string)
      else ([], url)
  | None => ([], url)
  end.

(** The query [acknowledge_problem] sends. *)
Definition acknowledge_url (host : string) (service : option string)
           (comment : string) : string :=
  let user_comment := (username ++ ": " ++ comment)%string in
  let s := match service with Some s => s | None => "" end in
  let common :=
    ("&output_format=json&filled_in=confirm&_acknowledge=Acknowledge"
     ++ "&_transid=-1&site=&_do_actions=yes&_ack_notify=on&host="
     ++ quote host ++ "&_ack_comment=" ++ quote user_comment
     ++ "&_do_confirm=Yes")%string in
  let url := common in
  let url :=
    if truthy_opt service
    then (url ++ "&view_name=service&service=" ++ quote s)%string
    else (url ++ "&view_name=hoststatus")%string in
  (url ++ common)%string.

(** [acknowledge_problem]: the lines it prints. *)
Definition acknowledge_problem (host : string) (service : option string)
           (comment : string) : list string :=
  let s := match service with Some s => s | None => "" end in
  let r_text := request_view (acknowledge_url host service comment) in
  if contains success_marker r_text then
    if truthy_opt service then
      [("service problem " ++ str_green s ++ " on host " ++ str_green host
        ++ " was acknowledged.")%string]
    else
      [("host problem on " ++ str_green host
        ++ " was acknowledged.")%string]
  else
    if truthy_opt service then
      [("unable to acknowledge service problem " ++ str_red s
        ++ " on host " ++ str_red host ++ nl
        ++ "you probably specified a host or service which does not exist"
       )%string]
    else
      [("unable to acknowledge host problem on " ++ str_red host
        ++ "." ++ nl
        ++ "you probably specified a host which does not exist")%string].

(** The query [unacknowledge_problem] sends. *)
Definition unacknowledge_url (host : string) (service : option string)
  : string :=
  let s := match service with Some s => s | None => "" end in
  let url :=
    if truthy_opt service
    then ("&view_name=service&service=" ++ quote s)%string
    else "&view_name=hoststatus" in
  (url ++ "&output_format=json&filled_in=confirm"
   ++ "&_remove_ack=Remove+Acknowledgement&_transid=-1&site="
   ++ "&_do_actions=yes&_ack_notify=on&host=" ++ quote host
   ++ "&_do_confirm=Yes")%string.

(** [unacknowledge_problem]: the lines it prints. *)
Definition unacknowledge_problem (host : string)
           (service : option string) : list string :=
  let s := match service with Some s => s | None => "" end in
  let r_text := request_view (unacknowledge_url host service) in
  if contains success_marker r_text then
    if truthy_opt service then
      [("service problem " ++ str_green s ++ " on host " ++ str_green host
        ++ " was un-acknowledged.")%string]
    else
      [("host problem on " ++ str_green host
        ++ " was un-acknowledged.")%string]
  else
    if truthy_opt service then
      [("unable to un-acknowledge service problem " ++ str_red s
        ++ " on host " ++ str_red host ++ nl
        ++ "you probably specified a host or service which does not exist"
       )%string]
    else
      [("unable to un-acknowledge host problem on " ++ str_red host
        ++ "." ++ nl
        ++ "you probably specified a host which does not exist")%string].

(** [downtime_add_period]: the lines it prints. *)
Definition downtime_add_period (hostname : string)
           (service : option string) (comment : string)
           (period : datetime * datetime) : list string :=
  let url := downtime_base_url quote_all hostname comment in
  let url :=
    (url ++ "&_down_custom=Custom+time+range&_down_from_date="
     ++ date_of (fst period) ++ "&_down_from_time="
     ++ quote_all (strftime (fst period) "%H:%M")
     ++ "&_down_to_date=" ++ date_of (snd period) ++ "&_down_to_time="
     ++ quote_all (strftime (snd period) "%H:%M"))%string in
  let s := match service with Some s => s | None => "" end in
  let url :=
    if truthy_opt service
    then (url ++ "&view_name=service&service=" ++ quote_all s)%string
    else (url ++ "&view_name=hoststatus")%string in
  let r_text := request_view url in
  if contains success_marker r_text then
    let downtime_date_format := "%Y-%m-%d %H:%M" in
    let downtime_period :=
      ("from " ++ strftime (fst period) downtime_date_format ++ " to "
       ++ strftime (snd period) downtime_date_format)%string in
    if truthy_opt service then
      [("service " ++ str_green s ++ " on host " ++ str_green hostname
        ++ " successfully placed in downtime " ++ downtime_period)%string]
    else
      [("host " ++ str_green hostname
        ++ " successfully placed in downtime " ++ downtime_period)%string]
  else [].

(** [downtime_bulk_add]: the lines it prints, given the host names
    [get_hosts] returns. *)
Definition downtime_bulk_add (hosts : list string) (hostname : string)
           (service : option string) (lazy : bool)
           (comment : option string) (minutes : option Z)
           (period : option (datetime * datetime))
  : result (list string) :=
  let pattern := match_string lazy hostname in
  let user := username in
  let comment :=
    if truthy_minutes minutes && negb (truthy_opt comment)
    then Some ("downtime for "
               ++ Prompt.str_of_int
                    (match minutes with Some n => n | None => 0%Z end)
               ++ " minutes")%string
    else comment in
  let comment :=
    match period with
    | Some p =>
        if negb (truthy_opt comment)
        then Some ("downtime from " ++ str_of_datetime (fst p) ++ " to "
                   ++ str_of_datetime (snd p))%string
        else comment
    | None => comment
    end in
  let user_comment := (user ++ ": " ++ str_of_comment comment)%string in
  match period with
  | Some p =>
      if truthy_minutes minutes then Raise ValueError
      else
        Ok (flat_map
              (fun i =>
                 if fnmatchcase i pattern
                 then downtime_add_period i service user_comment p
                 else [])
              hosts)
  | None =>
      Ok (flat_map
            (fun i =>
               if fnmatchcase i pattern
               then
                 match minutes with
                 | Some n =>
                     if negb (n =? 0)%Z
                     then downtime_add_minutes i service user_comment n
                     else []
                 | None => []
                 end
               else [])
            hosts)
  end.

End WithServer.

End Requests.

(** ** Checks before a host is added *)

Module Preflight.
Import Py Scraper Sites Requests.

(** How [add_host_preflight_check] ends: it returns, or [sys.exit]
    leaves with a status. *)
Inductive ending : Type :=
| Returned
| Exited (status : Z).

Section WithEnvironment.

Variable fg : string -> string.
Variable attr : string -> string.
Variable print_colour : bool.
(** The page [request_wato('&mode=sites')] answers with. *)
Variable page : list event.
(** What [get_folders] returns. *)
Variable folders : list string.
(** Whether [socket.gethostbyname(name)] returns rather than raising
    [socket.gaierror]. *)
Variable resolves : string -> bool.
(** Whether [re.match(IP_REGEXP, ip)] matches. *)
Variable is_ip : string -> bool.

Let str_green := Formatter.str_green fg attr print_colour.
Let str_red := Formatter.str_red fg attr print_colour.

(** [add_host_preflight_check]: the lines it prints and how it ends. *)
Definition add_host_preflight_check (hostname : string)
           (folder : option string) (folder_create : bool)
           (site : string) (ip : option string) (ignore_dns : bool)
  : result (list string * ending) :=
  let ip_text := match ip with Some s => s | None => "" end in
  let folder_text := match folder with Some f => f | None => "" end in
  found <- check_site_exists page site ;;
  if negb found then
    Ok ([("error: the Check_MK site " ++ str_red site ++ " does not exist"
          ++ nl ++ "use the 'sites' command for a list.")%string],
        Exited 1)
  else if negb (truthy_opt ip) && negb ignore_dns
          && negb (resolves hostname) then
    Ok ([("error: unable to resolve hostname: " ++ str_red hostname ++ nl
          ++ "the hostname must be DNS resolvable, or the IP address "
          ++ "(or resolvable FQDN) must be specified using (-i|--ip)"
         )%string],
        Exited 1)
  else if truthy_opt ip && negb ignore_dns && negb (is_ip ip_text)
          && negb (resolves ip_text) then
    Ok ([("error: the IP parameter must be either an IP address or a "
          ++ "resolvable FQDN, but " ++ str_red ip_text
          ++ " does not appear to be either of these…")%string],
        Exited 1)
  else if truthy_opt folder then
    if negb (existsb (String.eqb folder_text) folders) then
      if folder_create then
        Ok ([("the folder " ++ str_green folder_text
              ++ " does not exist. it will be created.")%string],
            Returned)
      else
        Ok ([("error: the folder " ++ str_red folder_text
              ++ " does not exist" ++ nl
              ++ "use the 'folders' command for a list.")%string],
            Exited 1)
    else Ok ([], Returned)
  else Ok ([], Returned).

End WithEnvironment.

End Preflight.

(** ** Refreshing the check configuration of hosts *)

Module Refresh.
Import Py Prompt Requests Preflight.

(** What the refresh commands do, in order: write to the terminal, call
    [self.refresh(host)], call [self.activate()]. *)
Inductive action : Type :=
| Wrote (w : written)
| Refreshed (host : string)
| Activated.

(** The hosts [self.refresh] is called on, in order. *)
Fixpoint refreshes (acts : list action) : list string :=
  match acts with
  | [] => []
  | Refreshed host :: rest => host :: refreshes rest
  | _ :: rest => refreshes rest
  end.

(** [refresh_hosts.add(host)] on a [set], kept as a list without
    repetitions. *)
Definition set_add (host : string) (refresh_hosts : list string)
  : list string :=
  if existsb (String.eqb host) refresh_hosts then refresh_hosts
  else host :: refresh_hosts.

(** [sorted(refresh_hosts)]: ascending in the order of [str], which
    compares code points. *)
Fixpoint insert (host : string) (l : list string) : list string :=
  match l with
  | [] => [host]
  | y :: rest =>
      match OrdersEx.String_as_OT.compare host y with
      | Gt => y :: insert host rest
      | _ => host :: l
      end
  end.

Fixpoint sorted (l : list string) : list string :=
  match l with
  | [] => []
  | host :: rest => insert host (sorted rest)
  end.

(** The text a [.] of the pattern can run over: up to the first line
    break. *)
Fixpoint first_line (s : string) : string :=
  match s with
  | EmptyString => EmptyString
  | String c rest =>
      if Ascii.eqb c (ascii_of_nat 10) then EmptyString
      else String c (first_line rest)
  end.

(** [re.match('.*unmonitored.*', s)]: the match starts at the beginning
    and [.] takes no line break, so the word has to be in the first
    line. *)
Definition matches_unmonitored (s : string) : bool :=
  contains "unmonitored" (first_line s).

(** The loop of [unknown_refresh] over the service problems. *)
Fixpoint unknown_hosts (problems : list (list string))
         (refresh_hosts : list string) : result (list string) :=
  match problems with
  | [] => Ok refresh_hosts
  | alert :: rest =>
      state <- getitem alert 0 ;;
      if state =? "UNKN" then
        host <- getitem alert 1 ;;
        unknown_hosts rest (set_add host refresh_hosts)
      else unknown_hosts rest refresh_hosts
  end.

(** The loop of [unmonitored_refresh] over the service problems. *)
Fixpoint unmonitored_hosts (problems : list (list string))
         (refresh_hosts : list string) : result (list string) :=
  match problems with
  | [] => Ok refresh_hosts
  | alert :: rest =>
      service <- getitem alert 2 ;;
      if service =? "Check_MK inventory" then
        detail <- getitem alert 4 ;;
        if matches_unmonitored detail then
          host <- getitem alert 1 ;;
          unmonitored_hosts rest (set_add host refresh_hosts)
        else unmonitored_hosts rest refresh_hosts
      else unmonitored_hosts rest refresh_hosts
  end.

Definition refresh_bulk_question : string :=
  "do you wish to proceed with the configuration refresh of these hosts?".

Definition refresh_question : string :=
  "do you wish to proceed with the refresh of these hosts?".

Section WithLibraries.

Variable fg : string -> string.
Variable attr : string -> string.
Variable print_colour : bool.
(** [fnmatch.fnmatchcase(name, pattern)] *)
Variable fnmatchcase : string -> string -> bool.

Let str_green := Formatter.str_green fg attr print_colour.

(** The end the three refresh commands share: the hosts are shown and
    the question asked when [confirm] is set, then every host is
    refreshed and the changes are activated when [activate] is set.
    What was done comes with how it ended: by returning, or with the
    exception [yes_no] raised.  [depth] calls fit on the stack below the
    command. *)
Definition confirm_refresh (depth : nat) (question : string)
           (refresh_hosts : list string) (confirm activate : bool)
           (tty : list user_input) : list action * result ending :=
  let go :=
    map Refreshed refresh_hosts ++ (if activate then [Activated] else []) in
  if confirm then
    let a := yes_no depth question tty in
    let shown :=
      [Wrote (Printed "")]
      ++ map (fun i => Wrote (Printed (str_green i))) refresh_hosts
      ++ [Wrote (Printed "")]
      ++ map Wrote (trace a) in
    match value a with
    | Raise e => (shown, Raise e)
    | Ok (Some true) => (shown ++ go, Ok Returned)
    | Ok _ => (shown, Ok Returned)
    end
  else (go, Ok Returned).

(** [refresh_bulk], given the host names [get_hosts] returns. *)
Definition refresh_bulk (depth : nat) (hosts : list string)
           (hostname : string) (confirm activate lazy : bool)
           (tty : list user_input) : list action * result ending :=
  let refresh_hosts :=
    filter (fun i => fnmatchcase i (match_string lazy hostname)) hosts in
  if (length refresh_hosts =? 0)%nat then
    ([Wrote (Printed ("no hosts found matching " ++ hostname)%string)],
     Ok (Exited 0))
  else
    confirm_refresh depth refresh_bulk_question refresh_hosts confirm
                    activate tty.

(** [unknown_refresh], given the rows [get_service_problems] returns. *)
Definition unknown_refresh (depth : nat) (problems : list (list string))
           (confirm activate : bool) (tty : list user_input)
  : list action * result ending :=
  match unknown_hosts problems [] with
  | Raise e => ([], Raise e)
  | Ok refresh_hosts =>
      if (length refresh_hosts =? 0)%nat then
        ([Wrote
            (Printed
               "there are currently no services in the 'Unknown' state")],
         Ok Returned)
      else
        let refresh_hosts := sorted refresh_hosts in
        confirm_refresh depth refresh_question refresh_hosts confirm
                        activate tty
  end.

(** [unmonitored_refresh], given the rows [get_service_problems]
    returns. *)
Definition unmonitored_refresh (depth : nat)
           (problems : list (list string)) (confirm activate : bool)
           (tty : list user_input) : list action * result ending :=
  match unmonitored_hosts problems [] with
  | Raise e => ([], Raise e)
  | Ok refresh_hosts =>
      if (length refresh_hosts =? 0)%nat then
        ([Wrote
            (Printed
               "there are currently no hosts with un-monitored services")],
         Ok Returned)
      else
        let refresh_hosts := sorted refresh_hosts in
        confirm_refresh depth refresh_question refresh_hosts confirm
                        activate tty
  end.

End WithLibraries.

End Refresh.

(** ** The host problem table *)

Module Hosts.
Import Py Formatter Listing.

(** A cell of the host problem table: text, or a count left as an
    [int]. *)
Inductive cell : Type :=
| Text (s : string)
| Number (n : Z).

(** What [del row[4]] leaves of a row: all but the acknowledgement
    column. *)
Definition without_acknowledged {A} (row : list A) : list A :=
  firstn 4 row ++ skipn 5 row.

Section WithLibraries.

Variable fill : string -> nat -> string.
Variable fg : string -> string.
Variable attr : string -> string.
Variable print_colour : bool.
(** [int(s)] on a cell of the response: the integer, or [None] when it
    raises [ValueError]. *)
Variable int : string -> option Z.
(** [tabulate(rows, headers=headers)] *)
Variable tabulate : list (list cell) -> list string -> string.

Let str_red := Formatter.str_red fg attr print_colour.
Let str_yellow := Formatter.str_yellow fg attr print_colour.
Let str_green := Formatter.str_green fg attr print_colour.
Let str_orange := Formatter.str_orange fg attr print_colour.
Let str_bold := Formatter.str_bold attr print_colour.
Let host_state := Formatter.host_state fg attr print_colour.
Let ack_flags := Formatter.ack_flags fg attr print_colour.

Definition to_int (s : string) : result Z :=
  match int s with
  | Some n => Ok n
  | None => Raise ValueError
  end.

(** A count above zero is replaced by its coloured text. *)
Definition count_cell (colour : string -> string) (n : Z) : cell :=
  if (0 <? n)%Z then Text (colour (Prompt.str_of_int n)) else Number n.

(** Body of the loop of [get_host_problems_table]. *)
Definition host_problem_row (i : list string) : result (list cell) :=
  host <- getitem i 0 ;;
  address <- getitem i 1 ;;
  icons <- getitem i 2 ;;
  i3 <- getitem i 3 ;;
  let state := host_state i3 in
  let ack := ack_flags icons in
  detail <- getitem i 4 ;;
  let detail := sub_severity_prefix detail in
  let detail := fill detail 100 in
  i5 <- getitem i 5 ;;
  srv_ok <- to_int i5 ;;
  i6 <- getitem i 6 ;;
  srv_warn <- to_int i6 ;;
  i7 <- getitem i 7 ;;
  srv_crit <- to_int i7 ;;
  i8 <- getitem i 8 ;;
  srv_unkn <- to_int i8 ;;
  i9 <- getitem i 9 ;;
  srv_pend <- to_int i9 ;;
  Ok [Text state; Text host; Text address; Text detail; Text ack;
      count_cell str_green srv_ok; count_cell str_yellow srv_warn;
      count_cell str_red srv_crit; count_cell str_orange srv_unkn;
      Number srv_pend].

(** [get_host_problems_table], from the JSON rows of the
    [hostproblems] view. *)
Definition get_host_problems_table (r : list (list string))
  : result (list (list cell)) :=
  host_problems <- pop0 r ;;
  each host_problem_row host_problems.

(** A row of the response the loop gets through: ten cells or more, the
    five counts readable as integers. *)
Definition readable (i : list string) : Prop :=
  (10 <= length i)%nat
  /\ forall k, (5 <= k < 10)%nat -> int (nth k i "") <> None.

(** [host_problem_table_headers] *)
Definition host_problem_table_headers : list string :=
  map str_bold
      ["state"; "host"; "address"; "detail"; "acknowledged"; "srv_ok";
       "srv_warn"; "srv_crit"; "srv_unkn"; "srv_pend"].

(** [list_host_problems_table]: the lines it prints and the table it
    returns. *)
Definition list_host_problems_table (ignore_status : bool)
           (r : list (list string))
  : result (list string * list (list cell)) :=
  host_problems_table <- get_host_problems_table r ;;
  let headers := host_problem_table_headers in
  hr <- (if negb ignore_status then
           headers <- del headers 4 ;;
           rows <- each (fun row => del row 4) host_problems_table ;;
           Ok (headers, rows)
         else Ok (headers, host_problems_table)) ;;
  let headers := fst hr in
  let host_problems_table := snd hr in
  Ok ((if (0 <? length host_problems_table)%nat
       then [""; str_bold "host problems"; "";
             tabulate host_problems_table headers]
       else []),
      host_problems_table).

End WithLibraries.

End Hosts.

(** ** Stand-ins for the libraries

    Concrete functions to run the definitions above on examples. *)

Module Sample.

(** [textwrap.fill] on a text that fits on one line and holds no white
    space to normalise: the text itself. *)
Definition fill (text : string) (width : nat) : string := text.

Definition esc : string := String (ascii_of_nat 27) "[".

(** [colored.fg]: the 256-colour escape sequence of the colour. *)
Definition fg (name : string) : string :=
  let code :=
    if name =? "red" then "1"
    else if name =? "green" then "2"
    else if name =? "yellow" then "3"
    else if name =? "blue" then "4"
    else if name =? "dark_orange" then "208"
    else "15" in
  (esc ++ "38;5;" ++ code ++ "m")%string.

(** [colored.attr] *)
Definition attr (name : string) : string :=
  if name =? "bold" then (esc ++ "1m")%string else (esc ++ "0m")%string.

(** [urllib.parse.quote] on text made of unreserved characters. *)
Definition quote (s : string) : string := s.

Fixpoint digits (s : string) (acc : Z) : option Z :=
  match s with
  | EmptyString => Some acc
  | String c rest =>
      let n := nat_of_ascii c in
      if ((48 <=? n) && (n <=? 57))%nat
      then digits rest (acc * 10 + Z.of_nat (n - 48))
      else None
  end.

(** [int] on a line: decimal digits with an optional sign, white space
    around them ignored. *)
Definition int (s : string) : option Z :=
  match Prompt.strip s with
  | EmptyString => None
  | String c rest =>
      if Ascii.eqb c "-" then
        if rest =? "" then None else option_map Z.opp (digits rest 0)
      else if Ascii.eqb c "+" then
        if rest =? "" then None else digits rest 0
      else digits (String c rest) 0
  end.

(** A response of the [comments] view and the comment it holds that
    was written by a person. *)
Definition comments_json : list (list string) :=
  [ ["comment_author"; "comment_time"; "comment_expires";
     "comment_entrytype"; "comment_comment"; "host";
     "service_description"];
    ["(Nagios Process)"; "2 h"; "-"; "flapping"; "flapping started";
     "web1"; ""];
    ["alice"; "1 h"; "-"; "ack"; "looking into it"; "web1"; ""] ].

Definition alice : Formatter.comment :=
  {| Formatter.comment_author := "alice";
     Formatter.comment_time := "1 h";
     Formatter.comment_host := "web1";
     Formatter.service_description := "";
     Formatter.comment_comment := "looking into it" |}.

(** The scenario row of a [svcproblems] response. *)
Definition service_row : list string :=
  ["CRIT"; "host1"; "svcA"; "ack"; "detail1"; "5m"].

(** A [hostproblems] response whose icons column is titled
    [host_acknowledged]. *)
Definition host_problems_json : list (list string) :=
  [ ["host"; "host_address"; "host_acknowledged"; "host_state";
     "host_plugin_output"; "num_services_ok"; "num_services_warn";
     "num_services_crit"; "num_services_unknown"; "num_services_pending"];
    ["web1"; "10.0.0.5"; "ack"; "DOWN"; "no route to host";
     "0"; "0"; "0"; "0"; "0"] ].

(** A [svcproblems] response whose icons column is titled
    [service_acknowledged]. *)
Definition service_problems_json : list (list string) :=
  [ ["service_state"; "host"; "service_description";
     "service_acknowledged"; "svc_plugin_output"; "svc_state_age"];
    ["WARN"; "web1"; "Disk"; "ack"; "85 percent used"; "3 h"] ].

(** Tables as [get_host_problems_table] and [get_service_problems_table]
    return them: one host problem and two service problems. *)
Definition host_table : list (list string) :=
  [ ["DOWN"; "web1"; "10.0.0.5"; "no route to host"; ""; "0"; "0"; "0";
     "0"; "0"] ].

Definition service_table : list (list string) :=
  [ ["CRIT"; "db1"; "Disk"; "95 percent used"; "2 h"; ""];
    ["WARN"; "db2"; "Load"; "load 7.5"; "10 m"; ""] ].

(** [tabulate]: headers and rows, cells two spaces apart, one line each. *)
Definition tabulate (rows : list (list string)) (headers : list string)
  : string :=
  String.concat (String (ascii_of_nat 10) "")
                (map (String.concat "  ") (headers :: rows)).

(** A response of the [downtimes] view: one host downtime and one
    service downtime. *)
Definition downtimes_header : list string :=
  ["host"; "service_description"; "downtime_origin"; "downtime_author";
   "downtime_entry_time"; "downtime_start_time"; "downtime_end_time";
   "downtime_fixed"; "downtime_duration"; "downtime_recurring"].

Definition downtimes_rows : list (list string) :=
  [ ["web1"; ""; "command"; "alice"; "1 h"; "now"; "in 30 m"; "fixed";
     ""; "-"];
    ["db1"; "Disk"; "command"; "bob"; "2 h"; "now"; "in 1 h"; "fixed";
     ""; "-"] ].

(** [fnmatch.fnmatchcase] for the two shapes of pattern the bulk
    commands build from a plain name: [*text*] and [text]. *)
Definition fnmatchcase (name pattern : string) : bool :=
  let n := String.length pattern in
  if (prefix "*" pattern && (2 <=? n)%nat
      && (substring (n - 1) 1 pattern =? "*"))%bool
  then Py.contains (substring 1 (n - 2) pattern) name
  else name =? pattern.

End Sample.

(** * Properties *)

(** ** Indexing and deleting *)

Module PyFacts.
Import Py.

Lemma getitem_at {A} (l : list A) (i : Z) (x : A) :
  (0 <= i)%Z -> nth_error l (Z.to_nat i) = Some x -> getitem l i = Ok x.
Proof.
  intros Hi Hn. unfold getitem, norm_index.
  assert (Hlt : (Z.to_nat i < length l)%nat)
    by (apply nth_error_Some; congruence).
  replace ((0 <=? i)%Z) with true by (symmetry; apply Z.leb_le; lia).
  replace ((i <? Z.of_nat (length l))%Z) with true
    by (symmetry; apply Z.ltb_lt; lia).
  simpl. now rewrite Hn.
Qed.

Lemma del_ok {A} (l : list A) :
  forall k, (k < length l)%nat ->
            del l k = Ok (firstn k l ++ skipn (S k) l).
Proof.
  induction l as [|h t IH]; intros k Hk; simpl in Hk; [lia|].
  destruct k as [|k]; [reflexivity|].
  cbn [del]. rewrite IH by lia. reflexivity.
Qed.

End PyFacts.

(** ** The scraper *)

Module ScraperFacts.
Import Py Scraper.

Lemma feed_app (a b : list event) :
  forall p, feed p (a ++ b) = (p' <- feed p a ;; feed p' b).
Proof.
  induction a as [|e a IH]; intros p; simpl.
  - reflexivity.
  - destruct (step p e) as [p'|x]; simpl; [apply IH | reflexivity].
Qed.

Lemma end_tag_not_table (tag : string) :
  EndTag tag <> EndTag "table" -> (tag =? "table") = false.
Proof.
  intros H. apply String.eqb_neq. intros ->. now apply H.
Qed.

(** Before the first [</table>] no callback changes the parser. *)
Lemma feed_before_header (evs : list event) :
  forall p,
    header_found p = false -> column_index p = 0%Z ->
    ~ In (EndTag "table") evs ->
    feed p evs = Ok p.
Proof.
  induction evs as [|e evs IH]; intros p Hh Hc Hno; simpl.
  - reflexivity.
  - assert (Hs : step p e = Ok p).
    { destruct e as [tag attrs|tag|data]; simpl.
      + unfold handle_starttag. now rewrite Hh.
      + unfold handle_endtag. rewrite end_tag_not_table; [reflexivity|].
        intros E. apply Hno. left. exact E.
      + unfold handle_data. now rewrite Hc. }
    rewrite Hs. simpl. apply IH; auto.
    intros Hin. apply Hno. now right.
Qed.

Lemma norm_index_last {A} (out : list A) (x : A) :
  norm_index (out ++ [x]) (Z.of_nat (length out)) = Some (length out).
Proof.
  unfold norm_index. rewrite length_app. simpl.
  replace ((0 <=? Z.of_nat (length out))%Z) with true
    by (symmetry; apply Z.leb_le; lia).
  replace ((Z.of_nat (length out) <? Z.of_nat (length out + 1))%Z) with true
    by (symmetry; apply Z.ltb_lt; lia).
  simpl. now rewrite Nat2Z.id.
Qed.

Lemma set_nth_last {A} (out : list A) (x y : A) :
  set_nth (out ++ [x]) (length out) y = out ++ [y].
Proof.
  induction out as [|h out IH]; simpl; [reflexivity | now rewrite IH].
Qed.

Lemma append_at_last {A} (out : list (list A)) (acc : list A) (x : A) :
  append_at (out ++ [acc]) (Z.of_nat (length out)) x
  = Ok (out ++ [acc ++ [x]]).
Proof.
  unfold append_at. rewrite norm_index_last.
  rewrite nth_error_app2 by lia. rewrite Nat.sub_diag. simpl.
  now rewrite set_nth_last.
Qed.

Lemma collecting_last (out : list (list string)) (acc : list string)
      (column : Z) :
  collecting (out ++ [acc]) column
  = {| output := out ++ [acc];
       row_index := Z.of_nat (length out);
       column_index := column;
       header_found := true |}.
Proof.
  unfold collecting. f_equal. rewrite length_app. simpl. lia.
Qed.

Lemma handle_data_collecting out acc column data :
  handle_data (collecting (out ++ [acc]) column) data
  = Ok (collecting
          (out ++ [acc ++ (if collects column then [data] else [])])
          column).
Proof.
  rewrite !collecting_last. unfold handle_data, collects, append_data.
  simpl.
  destruct (column =? 2)%Z; [|destruct (column =? 3)%Z;
                               [|destruct (column =? 4)%Z]];
    simpl; rewrite ?append_at_last, ?app_nil_r; reflexivity.
Qed.

(** Text nodes met while the counter stands at [column]. *)
Lemma feed_text_nodes (texts : list string) :
  forall out acc column,
    feed (collecting (out ++ [acc]) column) (map Data texts)
    = Ok (collecting
            (out ++ [acc ++ (if collects column then texts else [])])
            column).
Proof.
  induction texts as [|t texts IH]; intros out acc column; simpl.
  - destruct (collects column); now rewrite app_nil_r.
  - rewrite handle_data_collecting. simpl. rewrite IH.
    destruct (collects column); simpl;
      rewrite <- ?app_assoc, ?app_nil_r; reflexivity.
Qed.

Lemma start_td_collecting out column :
  handle_starttag (collecting out column) "td" []
  = collecting out (column + 1).
Proof. reflexivity. Qed.

Lemma start_tr_collecting out column :
  handle_starttag (collecting out column) "tr" []
  = collecting (out ++ [[]]) 0.
Proof.
  unfold handle_starttag, collecting. simpl. f_equal.
  rewrite length_app. simpl. lia.
Qed.

(** The cells of one row, met while the counter stands at [column]. *)
Lemma feed_cells (cells : list cell) :
  forall out acc column,
    feed (collecting (out ++ [acc]) column) (flat_map render_cell cells)
    = Ok (collecting (out ++ [acc ++ kept column cells])
                     (column + Z.of_nat (length cells))).
Proof.
  induction cells as [|c cells IH]; intros out acc column.
  - simpl. rewrite app_nil_r. do 2 f_equal. lia.
  - cbn [flat_map]. rewrite feed_app.
    unfold render_cell at 1. cbn [feed step bind].
    rewrite start_td_collecting, feed_app, feed_text_nodes.
    cbn [feed step bind handle_endtag String.eqb Ascii.eqb Bool.eqb].
    rewrite IH. cbn [kept length]. rewrite <- app_assoc.
    do 2 f_equal. lia.
Qed.

Lemma kept_past_4 (cells : list cell) :
  forall column, (4 <= column)%Z -> kept column cells = [].
Proof.
  induction cells as [|c cells IH]; intros column H; simpl.
  - reflexivity.
  - rewrite IH by lia. unfold collects.
    replace ((column + 1 =? 2)%Z) with false by (symmetry; lia).
    replace ((column + 1 =? 3)%Z) with false by (symmetry; lia).
    replace ((column + 1 =? 4)%Z) with false by (symmetry; lia).
    reflexivity.
Qed.

(** Counting from the start of a row, the text kept is that of columns
    2, 3 and 4. *)
Lemma kept_row (r : row) : kept 0 r = row_text_nodes r.
Proof.
  unfold row_text_nodes, columns_2_4.
  destruct r as [|c1 [|c2 [|c3 [|c4 r]]]]; cbn; rewrite ?app_nil_r;
    try reflexivity.
  rewrite (kept_past_4 r 4) by lia. now rewrite app_nil_r.
Qed.

Lemma feed_row (r : row) out column :
  feed (collecting out column) (render_row r)
  = Ok (collecting (out ++ [row_text_nodes r]) (Z.of_nat (length r))).
Proof.
  unfold render_row. cbn [feed step bind].
  rewrite start_tr_collecting, feed_app, feed_cells.
  cbn [feed step bind handle_endtag String.eqb Ascii.eqb Bool.eqb].
  now rewrite kept_row.
Qed.

Lemma feed_rows (t : table) :
  forall out column,
  exists column',
    feed (collecting out column) (flat_map render_row t)
    = Ok (collecting (out ++ map row_text_nodes t) column').
Proof.
  induction t as [|r t IH]; intros out column.
  - exists column. simpl. now rewrite app_nil_r.
  - cbn [flat_map]. rewrite feed_app, feed_row. cbn [bind].
    destruct (IH (out ++ [row_text_nodes r]) (Z.of_nat (length r)))
      as [c' E].
    exists c'. rewrite E. cbn [map]. now rewrite <- app_assoc.
Qed.

(** After a whole page the parser holds one entry per row of the data
    table, in document order. *)
Lemma feed_page (chrome : list event) (t : table) :
  ~ In (EndTag "table") chrome ->
  exists column,
    feed init (render_page chrome t)
    = Ok (collecting (map row_text_nodes t) column).
Proof.
  intros Hno. unfold render_page.
  rewrite feed_app. cbn [feed step bind app].
  rewrite feed_app.
  rewrite (feed_before_header chrome) by (auto; reflexivity).
  cbn [feed step bind].
  change (handle_endtag (handle_starttag init "table" []) "table")
    with (collecting [] 0).
  unfold render_table. cbn [feed step bind].
  change (handle_starttag (collecting [] 0) "table" [])
    with (collecting [] 0).
  rewrite feed_app.
  destruct (feed_rows t [] 0%Z) as [c E]. rewrite E. cbn [bind app].
  exists c. reflexivity.
Qed.

Lemma removelast_map {A B} (f : A -> B) (l : list A) :
  removelast (map f l) = map f (removelast l).
Proof.
  induction l as [|x [|y l] IH]; simpl in *; try reflexivity.
  now rewrite IH.
Qed.

Lemma interior_map {A B} (f : A -> B) (l : list A) :
  interior (map f l) = map f (interior l).
Proof.
  unfold interior. rewrite removelast_map. now destruct (removelast l).
Qed.

Lemma get_sites_collecting (out : list (list string)) column :
  (2 <= length out)%nat ->
  get_sites (collecting out column) = Ok (interior out).
Proof.
  intros H. unfold get_sites, interior. simpl.
  destruct out as [|a [|b out]]; simpl in H; try lia.
  reflexivity.
Qed.

Lemma get_sites_short (out : list (list string)) column :
  (length out < 2)%nat ->
  get_sites (collecting out column) = Raise IndexError.
Proof.
  intros H. destruct out as [|a [|b out]]; simpl in H; try lia;
    reflexivity.
Qed.

(** A data table with fewer than two rows makes [get_sites] raise. *)
Lemma scrape_short_table (chrome : list event) (t : table) :
  ~ In (EndTag "table") chrome -> (length t < 2)%nat ->
  scrape (render_page chrome t) = Raise IndexError.
Proof.
  intros Hno Hlen. unfold scrape.
  destruct (feed_page chrome t Hno) as [c E]. rewrite E. cbn [bind].
  apply get_sites_short. now rewrite length_map.
Qed.

Lemma single_nodes_contents (r : row) :
  Forall single_node (columns_2_4 r) ->
  row_text_nodes r = row_contents r.
Proof.
  unfold row_text_nodes, row_contents.
  induction 1 as [|c cs [s ->] _ IH]; simpl.
  - reflexivity.
  - rewrite IH. reflexivity.
Qed.

(** C1 as stated fails: an empty cell in column 3 contributes no entry,
    so the row comes back with two strings where the claim expects the
    three column contents. *)
Lemma scrape_empty_cell_counterexample :
  let t := [ [["id"]; ["site"]; ["alias"]; ["socket"]];
             [["1"]; ["prod"]; []; ["tcp:10.0.0.1:6557"]];
             [["footer"]] ] in
  scrape (render_page [Data "menu"] t)
    = Ok [["prod"; "tcp:10.0.0.1:6557"]]
  /\ map row_contents (interior t)
    = [["prod"; ""; "tcp:10.0.0.1:6557"]]
  /\ scrape (render_page [Data "menu"] t)
    <> Ok (map row_contents (interior t)).
Proof.
  cbv zeta. split; [reflexivity | split; [reflexivity | discriminate]].
Qed.

(** C1, amended: for a page made of a header table and a data table
    with at least two rows, the scraper returns the interior rows of the
    data table, each as the text nodes of its columns 2, 3 and 4 in
    document order; when each of those cells holds exactly one text
    node this is the text content of columns 2, 3 and 4. *)
Theorem scrape_interior_rows (chrome : list event) (t : table) :
  ~ In (EndTag "table") chrome ->
  (2 <= length t)%nat ->
  scrape (render_page chrome t) = Ok (map row_text_nodes (interior t))
  /\ (Forall (fun r => Forall single_node (columns_2_4 r)) (interior t) ->
      scrape (render_page chrome t) = Ok (map row_contents (interior t))).
Proof.
  intros Hno Hlen.
  assert (E : scrape (render_page chrome t)
              = Ok (map row_text_nodes (interior t))).
  { unfold scrape. destruct (feed_page chrome t Hno) as [c E].
    rewrite E. cbn [bind]. rewrite get_sites_collecting.
    - now rewrite interior_map.
    - now rewrite length_map. }
  split; [exact E|].
  intros Hs. rewrite E. f_equal. apply map_ext_in.
  intros r Hin. apply single_nodes_contents.
  rewrite Forall_forall in Hs. now apply Hs.
Qed.

Lemma scrape_interior_rows_witness :
  let chrome := [StartTag "tr" []; StartTag "th" []; Data "Sites";
                 EndTag "th"; EndTag "tr"] in
  let t := [ [["id"]; ["site"]; ["alias"]; ["socket"]; ["x"]];
             [["1"]; ["prod"]; ["Production"]; ["tcp:10.0.0.1:6557"];
              ["y"]];
             [["footer"]] ] in
  scrape (render_page chrome t)
  = Ok [["prod"; "Production"; "tcp:10.0.0.1:6557"]].
Proof.
  intros chrome t.
  refine (proj1 (scrape_interior_rows chrome t _ _)).
  - simpl. intros [H|[H|[H|[H|[H|[]]]]]]; discriminate H.
  - simpl. lia.
Defined.

(** C2: a page with no closing table tag leaves the parser as it was
    created, with no rows, and [get_sites] then raises [IndexError] at
    its first [pop] instead of returning an empty list. *)
Theorem scrape_without_table_close (page : list event) :
  ~ In (EndTag "table") page ->
  feed init page = Ok init /\ scrape page = Raise IndexError.
Proof.
  intros Hno.
  assert (E : feed init page = Ok init)
    by (apply feed_before_header; auto).
  split; [exact E|]. unfold scrape. now rewrite E.
Qed.

Lemma scrape_without_table_close_witness :
  scrape [StartTag "html" []; StartTag "body" []; Data "Login";
          StartTag "table" []; StartTag "tr" []; StartTag "td" [];
          Data "Username"; EndTag "td"; EndTag "tr";
          EndTag "body"; EndTag "html"]
  = Raise IndexError.
Proof.
  refine (proj2 (scrape_without_table_close _ _)).
  simpl. intuition discriminate.
Defined.

End ScraperFacts.

(** ** The formatter *)

Module FormatterFacts.
Import Py Formatter PyFacts.

Lemma strip_prefix_append (p s : string) :
  strip_prefix p (p ++ s)%string = Some s.
Proof.
  induction p as [|a p IH]; simpl.
  - reflexivity.
  - now rewrite Ascii.eqb_refl.
Qed.

Lemma strip_prefix_none (p s : string) :
  strip_prefix p s = None <-> prefix p s = false.
Proof.
  revert s. induction p as [|a p IH]; intros s; simpl.
  - destruct s; simpl; split; intros H; discriminate H.
  - destruct s as [|b s]; simpl; [tauto|].
    destruct (Ascii.eqb_spec a b) as [E|N];
      destruct (ascii_dec a b) as [E'|N']; try contradiction.
    + apply IH.
    + tauto.
Qed.

(** C6: a leading [CRIT - ], [WARN - ] or [UNKNOWN - ] is removed once,
    and a detail text that starts with none of them is returned
    unchanged. *)
Theorem sub_severity_prefix_strips (s : string) :
  sub_severity_prefix ("CRIT - " ++ s) = s
  /\ sub_severity_prefix ("WARN - " ++ s) = s
  /\ sub_severity_prefix ("UNKNOWN - " ++ s) = s
  /\ (prefix "CRIT - " s = false ->
      prefix "WARN - " s = false ->
      prefix "UNKNOWN - " s = false ->
      sub_severity_prefix s = s).
Proof.
  repeat split; try reflexivity.
  intros H1 H2 H3. unfold sub_severity_prefix, sub_leading.
  apply strip_prefix_none in H1, H2, H3.
  cbn [append] in *. now rewrite H1, H2, H3.
Qed.

Lemma sub_severity_prefix_strips_witness :
  sub_severity_prefix "CRIT - foo" = "foo"
  /\ sub_severity_prefix "WARN - bar" = "bar"
  /\ sub_severity_prefix "UNKNOWN - baz" = "baz"
  /\ sub_severity_prefix "OK - CRIT - fine" = "OK - CRIT - fine".
Proof.
  split; [exact (proj1 (sub_severity_prefix_strips "foo"))|].
  split; [exact (proj1 (proj2 (sub_severity_prefix_strips "bar")))|].
  split;
    [exact (proj1 (proj2 (proj2 (sub_severity_prefix_strips "baz"))))|].
  apply (proj2 (proj2 (proj2 (sub_severity_prefix_strips
                                "OK - CRIT - fine"))));
    reflexivity.
Defined.

(** Only one prefix is removed. *)
Example sub_severity_prefix_once :
  sub_severity_prefix "CRIT - WARN - disk full" = "WARN - disk full".
Proof. reflexivity. Qed.

Lemma truthy_nonempty (s : string) : s <> "" -> truthy s = true.
Proof.
  intros H. unfold truthy. apply negb_true_iff. now apply String.eqb_neq.
Qed.

Lemma get_comment_skip (c : comment) (rest : list comment) host service :
  host <> "" -> service <> Some "" ->
  ~ matches_query host service c ->
  get_comment (c :: rest) host service = get_comment rest host service.
Proof.
  intros Hh Hs Hn. simpl. rewrite (truthy_nonempty host Hh).
  destruct service as [s|]; simpl.
  - rewrite truthy_nonempty by congruence. simpl.
    destruct (String.eqb_spec (comment_host c) host) as [E1|N1];
      [|reflexivity].
    destruct (String.eqb_spec (service_description c) s) as [E2|N2];
      [|reflexivity].
    exfalso. apply Hn. now split.
  - destruct (String.eqb_spec (comment_host c) host) as [E1|N1];
      [|reflexivity].
    exfalso. apply Hn. now split.
Qed.

Lemma get_comment_hit (c : comment) (rest : list comment) host service :
  host <> "" -> service <> Some "" ->
  matches_query host service c ->
  get_comment (c :: rest) host service
  = Some (comment_author c, comment_comment c).
Proof.
  intros Hh Hs [E1 E2]. simpl. rewrite (truthy_nonempty host Hh).
  rewrite E1, String.eqb_refl.
  destruct service as [s|]; simpl.
  - rewrite truthy_nonempty by congruence. simpl.
    now rewrite E2, String.eqb_refl.
  - reflexivity.
Qed.

Lemma get_comment_none (comments : list comment) host service :
  host <> "" -> service <> Some "" ->
  (forall c, In c comments -> ~ matches_query host service c) ->
  get_comment comments host service = None.
Proof.
  intros Hh Hs. induction comments as [|c rest IH]; intros Hno.
  - reflexivity.
  - rewrite get_comment_skip; auto.
    + apply IH. intros c' Hin. apply Hno. now right.
    + apply Hno. now left.
Qed.

Lemma get_comment_In (comments : list comment) host service a t :
  get_comment comments host service = Some (a, t) ->
  exists c, In c comments /\ comment_author c = a
            /\ comment_comment c = t.
Proof.
  induction comments as [|c rest IH]; simpl; intros H.
  - discriminate H.
  - destruct (truthy host && negb (truthy_opt service)
              && (comment_host c =? host)).
    + injection H as <- <-. exists c. auto.
    + destruct (truthy host && truthy_opt service
                && (comment_host c =? host)
                && eq_service (service_description c) service).
      * injection H as <- <-. exists c. auto.
      * destruct (IH H) as [c' [Hin Hc]]. exists c'. auto.
Qed.

Lemma collect_Forall {A B} (f : A -> result (option B)) (P : B -> Prop) :
  (forall x y, f x = Ok (Some y) -> P y) ->
  forall l ys, collect f l = Ok ys -> Forall P ys.
Proof.
  intros Hf. induction l as [|x l IH]; simpl; intros ys H.
  - injection H as <-. constructor.
  - destruct (f x) as [y|e] eqn:Ex; simpl in H; [|discriminate H].
    destruct (collect f l) as [zs|e]; simpl in H; [|discriminate H].
    injection H as <-. specialize (IH zs eq_refl).
    destruct y as [b|]; [constructor; eauto | exact IH].
Qed.

Lemma collect_total {A B} (f : A -> result (option B)) (l : list A) :
  (forall x, In x l -> exists y, f x = Ok y) ->
  exists ys, collect f l = Ok ys.
Proof.
  induction l as [|x l IH]; simpl; intros H.
  - now exists [].
  - destruct (H x (or_introl eq_refl)) as [y Ey]. rewrite Ey. simpl.
    destruct IH as [ys Eys]; [intros z Hz; apply H; now right|].
    rewrite Eys. simpl. eauto.
Qed.

Lemma prefix_append (n s : string) : prefix n (n ++ s)%string = true.
Proof.
  induction n as [|a n IH]; simpl.
  - now destruct s.
  - destruct (ascii_dec a a) as [_|F]; [exact IH | now elim F].
Qed.

Lemma contains_prefix (n hay : string) :
  prefix n hay = true -> contains n hay = true.
Proof. destruct hay; simpl; intros ->; reflexivity. Qed.

Lemma contains_infix (pre n post : string) :
  contains n (pre ++ n ++ post)%string = true.
Proof.
  induction pre as [|a pre IH]; simpl.
  - apply contains_prefix, prefix_append.
  - rewrite IH.
    match goal with
    | |- (if ?c then _ else _) = _ => destruct c
    end; reflexivity.
Qed.

Section WithLibraries.

Variable fill : string -> nat -> string.
Variable fg : string -> string.
Variable attr : string -> string.
Variable print_colour : bool.

Local Abbreviation str_red := (str_red fg attr print_colour).
Local Abbreviation str_blue := (str_blue fg attr print_colour).
Local Abbreviation host_state := (host_state fg attr print_colour).
Local Abbreviation service_state := (service_state fg attr print_colour).
Local Abbreviation get_comments := (get_comments fill).
Local Abbreviation author_and_comment := (author_and_comment fill).
Local Abbreviation acknowledged_host_row :=
  (acknowledged_host_row fill fg attr print_colour).
Local Abbreviation acknowledged_service_row :=
  (acknowledged_service_row fill fg attr print_colour).
Local Abbreviation get_acknowledged_hosts :=
  (get_acknowledged_hosts fill fg attr print_colour).
Local Abbreviation get_acknowledged_services :=
  (get_acknowledged_services fill fg attr print_colour).
Local Abbreviation get_service_problems_table :=
  (get_service_problems_table fill fg attr print_colour).

(** C5: for a query naming a host, alone or with a service, comment
    lookup returns the author and text of the first entry about that
    host (and service); entries listed after it are not looked at;
    when no entry matches nothing is returned and the acknowledged
    row gets an empty author and an empty comment. *)
Theorem get_comment_first_match (host : string)
        (service : option string) :
  host <> "" -> service <> Some "" ->
  (forall pre c post,
      (forall c', In c' pre -> ~ matches_query host service c') ->
      matches_query host service c ->
      get_comment (pre ++ c :: post) host service
      = Some (comment_author c, comment_comment c))
  /\ (forall comments,
         (forall c, In c comments -> ~ matches_query host service c) ->
         get_comment comments host service = None
         /\ author_and_comment (get_comment comments host service)
            = ("", "")
         /\ (forall address icons state detail rest,
                service = None ->
                contains "ack" icons = true ->
                acknowledged_host_row comments
                  (host :: address :: icons :: state :: detail :: rest)
                = Ok (Some [host_state state; host; address;
                            fill detail 60; ""; ""]))
         /\ (forall s icons state detail since rest,
                service = Some s ->
                contains "ack" icons = true ->
                acknowledged_service_row comments
                  (state :: host :: s :: icons :: detail :: since
                   :: rest)
                = Ok (Some [service_state state; host; s;
                            fill detail 60; since; ""; ""]))).
Proof.
  intros Hh Hs. split.
  - induction pre as [|p pre IH]; intros c post Hpre Hc; simpl app.
    + now apply get_comment_hit.
    + rewrite get_comment_skip; auto.
      * apply IH; auto. intros c' Hin. apply Hpre. now right.
      * apply Hpre. now left.
  - intros comments Hno.
    pose proof (get_comment_none comments host service Hh Hs Hno) as E.
    split; [exact E|]. split; [now rewrite E|]. split.
    + intros address icons state detail rest -> Hack.
      unfold Formatter.acknowledged_host_row.
      repeat (erewrite getitem_at by (first [lia | reflexivity]);
              cbn [bind]).
      rewrite Hack, E. reflexivity.
    + intros s icons state detail since rest -> Hack.
      unfold Formatter.acknowledged_service_row.
      repeat (erewrite getitem_at by (first [lia | reflexivity]);
              cbn [bind]).
      rewrite Hack, E. reflexivity.
Qed.

Lemma comment_row_author (i : list string) (c : comment) :
  comment_row fill i = Ok (Some c) ->
  comment_author c <> nagios_process.
Proof.
  unfold comment_row. intros H.
  destruct (getitem i 0) as [i0|e]; simpl in H; [|discriminate H].
  destruct (String.eqb_spec i0 nagios_process) as [E|N]; simpl in H;
    [discriminate H|].
  destruct (getitem i 1); simpl in H; [|discriminate H].
  destruct (getitem i 5); simpl in H; [|discriminate H].
  destruct (getitem i 6); simpl in H; [|discriminate H].
  destruct (getitem i 4); simpl in H; [|discriminate H].
  injection H as <-. exact N.
Qed.

(** C9: no comment returned by [get_comments] is authored by the
    Nagios process, so comment lookup on that list never returns such
    an author. *)
Theorem get_comments_no_nagios (r : list (list string))
        (comments : list comment) :
  get_comments r = Ok comments ->
  Forall (fun c => comment_author c <> nagios_process) comments
  /\ (forall host service author text,
         get_comment comments host service = Some (author, text) ->
         author <> nagios_process).
Proof.
  unfold Formatter.get_comments. intros H.
  destruct (pop0 r) as [rows|e]; simpl in H; [|discriminate H].
  assert (F : Forall (fun c => comment_author c <> nagios_process)
                     comments)
    by (eapply collect_Forall; [|exact H]; intros x y;
        apply comment_row_author).
  split; [exact F|].
  intros host service author text Hg.
  destruct (get_comment_In _ _ _ _ _ Hg) as [c [Hin [<- _]]].
  rewrite Forall_forall in F. now apply F.
Qed.

(** [get_comments] returns a list whenever the response has its header
    row and every other row has the seven columns of the view. *)
Lemma get_comments_total (header : list string)
      (rows : list (list string)) :
  Forall (fun i => (7 <= length i)%nat) rows ->
  exists comments, get_comments (header :: rows) = Ok comments.
Proof.
  intros H. unfold Formatter.get_comments. simpl.
  apply collect_total. intros i Hin.
  rewrite Forall_forall in H. specialize (H i Hin).
  destruct i as [|a [|b [|c [|d [|e [|f [|g i]]]]]]]; simpl in H;
    try lia.
  unfold comment_row.
  repeat (erewrite getitem_at by (first [lia | reflexivity]);
          cbn [bind]).
  destruct (negb (a =? nagios_process)); eauto.
Qed.

(** C7, amended: when the scenario row follows the header row that every
    response carries, the service table has exactly one row: severity
    [CRIT] passed through [str_red], the flag [(acknowledged)] in the
    acknowledgement cell, and the detail [detail1] as it came.  The
    severity cell comes first and the acknowledgement cell last. *)
Theorem service_problem_scenario (header : list string) :
  fill "svcA" 70 = "svcA" ->
  fill "detail1" 100 = "detail1" ->
  get_service_problems_table [header; Sample.service_row]
  = Ok [[str_red "CRIT"; "host1"; "svcA"; "detail1"; "5m";
         str_blue "(acknowledged) "]]
  /\ contains "(acknowledged)" (str_blue "(acknowledged) ") = true.
Proof.
  intros Hs Hd. split.
  - unfold Formatter.get_service_problems_table. cbn [pop0 bind collect].
    unfold Formatter.service_problem_row, Sample.service_row.
    repeat (erewrite getitem_at by (first [lia | reflexivity]);
            cbn [bind]).
    rewrite Hs.
    change (sub_severity_prefix "detail1") with "detail1".
    rewrite Hd. reflexivity.
  - unfold Formatter.str_blue, paint. destruct print_colour.
    + apply (contains_infix (fg "blue") "(acknowledged)"
                            (" " ++ attr "reset")%string).
    + reflexivity.
Qed.

(** C4 fails on the acknowledged listings: they loop over the response
    as it came, header row included.  With an icons column whose title
    holds [ack], the header row is listed as an acknowledged problem,
    while [get_service_problems_table] on the same response drops it. *)
Theorem acknowledged_listings_keep_header :
  get_acknowledged_hosts Sample.host_problems_json Sample.comments_json
  = Ok [ ["host_state"; "host"; "host_address";
          fill "host_plugin_output" 60; ""; ""];
         [str_red "DOWN"; "web1"; "10.0.0.5"; fill "no route to host" 60;
          "alice"; fill (fill "looking into it" 100) 60] ]
  /\ get_acknowledged_services Sample.service_problems_json
       Sample.comments_json
     = Ok [ ["service_state"; "host"; "service_description";
             fill "svc_plugin_output" 60; "svc_state_age"; ""; ""];
            [Formatter.str_yellow fg attr print_colour "WARN"; "web1";
             "Disk"; fill "85 percent used" 60; "3 h"; ""; ""] ]
  /\ get_service_problems_table Sample.service_problems_json
     = Ok [ [Formatter.str_yellow fg attr print_colour "WARN"; "web1";
             fill "Disk" 70; fill "85 percent used" 100; "3 h";
             str_blue "(acknowledged) "] ].
Proof.
  repeat split; reflexivity.
Qed.

End WithLibraries.

Lemma get_comments_no_nagios_witness :
  Formatter.get_comments Sample.fill Sample.comments_json
  = Ok [Sample.alice]
  /\ get_comment [Sample.alice] "web1" None
     = Some ("alice", "looking into it")
  /\ "alice" <> nagios_process.
Proof.
  split; [reflexivity|]. split; [reflexivity|].
  exact (proj2 (get_comments_no_nagios Sample.fill Sample.comments_json
                  [Sample.alice] eq_refl)
               "web1" None "alice" "looking into it" eq_refl).
Defined.

Lemma get_comment_first_match_witness :
  let first := {| comment_author := "alice"; comment_time := "1 h";
                  comment_host := "web1"; service_description := "";
                  comment_comment := "looking into it" |} in
  let later := {| comment_author := "bob"; comment_time := "2 h";
                  comment_host := "web1"; service_description := "";
                  comment_comment := "known issue" |} in
  let other := {| comment_author := "carol"; comment_time := "3 h";
                  comment_host := "db1"; service_description := "CPU";
                  comment_comment := "rebooting" |} in
  get_comment [other; first; later] "web1" None
  = Some ("alice", "looking into it").
Proof.
  intros first later other.
  refine (proj1 (get_comment_first_match Sample.fill Sample.fg
                   Sample.attr true "web1" None _ _)
                [other] first [later] _ _).
  - discriminate.
  - discriminate.
  - intros c' [<-|[]] [H _]. discriminate H.
  - split; [reflexivity | exact I].
Defined.

(** C7 as stated fails: a response that holds only the scenario row
    loses it to [pop(0)], which takes the first row for the header, and
    the table is empty. *)
Lemma service_listing_without_header_counterexample :
  Formatter.get_service_problems_table Sample.fill Sample.fg Sample.attr
    true [Sample.service_row]
  = Ok []
  /\ Formatter.get_service_problems_table Sample.fill Sample.fg
       Sample.attr true [Sample.service_row]
     <> Ok [[Formatter.str_red Sample.fg Sample.attr true "CRIT"; "host1";
             "svcA"; "detail1"; "5m";
             Formatter.str_blue Sample.fg Sample.attr true
               "(acknowledged) "]].
Proof.
  split; [reflexivity | discriminate].
Qed.

Lemma service_problem_scenario_witness :
  Formatter.get_service_problems_table Sample.fill Sample.fg Sample.attr
    true
    [ ["service_state"; "host"; "service_description"; "service_icons";
       "svc_plugin_output"; "svc_state_age"];
      Sample.service_row ]
  = Ok [[Formatter.str_red Sample.fg Sample.attr true "CRIT"; "host1";
         "svcA"; "detail1"; "5m";
         Formatter.str_blue Sample.fg Sample.attr true "(acknowledged) "]].
Proof.
  refine (proj1 (service_problem_scenario Sample.fill Sample.fg
                   Sample.attr true _ _ _)); reflexivity.
Defined.

End FormatterFacts.


(** ** The prompts *)

Module PromptFacts.
Import Py Prompt PyFacts.

Lemma number_rows_ok (column : nat) (rows : list (list string)) :
  forall i,
    Forall (fun r => (column < length r)%nat) rows ->
    number_rows column i rows
    = Ok (numbered column i rows, (i + Z.of_nat (length rows))%Z).
Proof.
  induction rows as [|row rest IH]; intros i H.
  - simpl. do 2 f_equal. lia.
  - inversion H as [|? ? Hrow Hrest]; subst.
    cbn [number_rows numbered]. rewrite del_ok by exact Hrow.
    cbn [bind]. rewrite IH by exact Hrest. cbn [bind fst snd].
    unfold numbered_row. do 2 f_equal. cbn [length]. lia.
Qed.

Lemma numbered_length (column : nat) (rows : list (list string)) :
  forall i, length (numbered column i rows) = length rows.
Proof.
  induction rows as [|row rest IH]; intros i; simpl; [|rewrite IH];
    reflexivity.
Qed.

Lemma numbered_nth (column : nat) (rows : list (list string)) :
  forall i j row,
    nth_error rows j = Some row ->
    nth_error (numbered column i rows) j
    = Some (numbered_row column (i + Z.of_nat j) row).
Proof.
  induction rows as [|r rest IH]; intros i j row H.
  - destruct j; discriminate H.
  - destruct j as [|j]; simpl in H.
    + injection H as ->. simpl. do 2 f_equal. lia.
    + cbn [numbered nth_error]. rewrite (IH (i + 1)%Z j row H).
      do 2 f_equal. lia.
Qed.

(** Cells 1, 2 and 4 of a numbered host row are the state, host and
    detail cells of the row it was made from. *)
Lemma numbered_host_row_cells (i : Z) (row : list string) :
  (5 <= length row)%nat ->
  getitem (numbered_row 4 i row) 1 = Ok (nth 0 row "")
  /\ getitem (numbered_row 4 i row) 2 = Ok (nth 1 row "")
  /\ getitem (numbered_row 4 i row) 4 = Ok (nth 3 row "").
Proof.
  intros H.
  destruct row as [|a [|b [|c [|d [|e tl]]]]]; simpl in H; try lia.
  repeat split; apply getitem_at; (lia || reflexivity).
Qed.

(** Cells 1 to 4 of a numbered service row are the state, host, service
    and detail cells of the row it was made from. *)
Lemma numbered_service_row_cells (i : Z) (row : list string) :
  (6 <= length row)%nat ->
  getitem (numbered_row 5 i row) 1 = Ok (nth 0 row "")
  /\ getitem (numbered_row 5 i row) 2 = Ok (nth 1 row "")
  /\ getitem (numbered_row 5 i row) 3 = Ok (nth 2 row "")
  /\ getitem (numbered_row 5 i row) 4 = Ok (nth 3 row "").
Proof.
  intros H.
  destruct row as [|a [|b [|c [|d [|e [|f tl]]]]]]; simpl in H; try lia.
  repeat split; apply getitem_at; (lia || reflexivity).
Qed.

Section WithInt.

Variable int : string -> option Z.

Local Abbreviation get_problem_id := (get_problem_id int).
Local Abbreviation rejected := (rejected int).
Local Abbreviation acknowledge := (acknowledge int).

Lemma get_problem_id_rejected depth ack total u rest :
  rejected total u ->
  get_problem_id (S depth) ack total (u :: rest)
  = mkRun (value (get_problem_id depth ack total rest))
          (Asked (problem_id_prompt ack total)
           :: trace (get_problem_id depth ack total rest))
          (pending (get_problem_id depth ack total rest)).
Proof.
  intros [s [-> [E|[k [E Hk]]]]]; cbn [Prompt.get_problem_id]; rewrite E.
  - reflexivity.
  - replace ((1 <=? k) && (k <=? total))%Z with false; [reflexivity|].
    symmetry. apply andb_false_iff.
    destruct Hk; [left; apply Z.leb_gt | right; apply Z.leb_gt]; lia.
Qed.

(** A run of rejected entries takes one call each. *)
Lemma get_problem_id_skip depth ack total bad rest :
  Forall (rejected total) bad ->
  value (get_problem_id (length bad + depth) ack total (bad ++ rest))
  = value (get_problem_id depth ack total rest)
  /\ pending (get_problem_id (length bad + depth) ack total (bad ++ rest))
     = pending (get_problem_id depth ack total rest)
  /\ trace (get_problem_id (length bad + depth) ack total (bad ++ rest))
     = repeat (Asked (problem_id_prompt ack total)) (length bad)
       ++ trace (get_problem_id depth ack total rest).
Proof.
  induction 1 as [|u bad Hu _ IH]; [now repeat split|].
  cbn [app length Nat.add].
  rewrite get_problem_id_rejected by exact Hu.
  cbn [value pending trace length repeat app].
  destruct IH as [IH1 [IH2 IH3]]. rewrite IH1, IH2, IH3. now repeat split.
Qed.

Lemma get_problem_id_accept depth ack total s k rest :
  int s = Some k -> (1 <= k <= total)%Z ->
  get_problem_id (S depth) ack total (Line s :: rest)
  = mkRun (Ok (Some k)) [Asked (problem_id_prompt ack total)] rest.
Proof.
  intros E Hk. cbn [Prompt.get_problem_id]. rewrite E.
  replace ((1 <=? k) && (k <=? total))%Z with true; [reflexivity|].
  symmetry. apply andb_true_iff. split; apply Z.leb_le; lia.
Qed.

(** As many rejected entries as calls fit end in [RecursionError]. *)
Lemma get_problem_id_overflow ack total :
  forall depth bad rest,
    Forall (rejected total) bad ->
    (depth <= length bad)%nat ->
    value (get_problem_id depth ack total (bad ++ rest))
    = Raise RecursionError.
Proof.
  induction depth as [|depth IH]; intros bad rest Hbad Hlen;
    [reflexivity|].
  destruct Hbad as [|u bad Hu Hbad]; simpl in Hlen; [lia|].
  cbn [app]. rewrite get_problem_id_rejected by exact Hu.
  cbn [value]. apply IH; [exact Hbad | lia].
Qed.

(** [acknowledge] once the rows are numbered: the entry typed picks a
    row of the numbered host table or of the numbered service table. *)
Lemma acknowledge_numbered (depth : nat)
      (hosts services : list (list string)) (tty : list user_input) :
  Forall (fun r => (5 <= length r)%nat) hosts ->
  Forall (fun r => (6 <= length r)%nat) services ->
  (1 <= Z.of_nat (length hosts) + Z.of_nat (length services))%Z ->
  acknowledge depth hosts services tty
  = let n := Z.of_nat (length hosts) in
    let r :=
      get_problem_id depth true (n + Z.of_nat (length services)) tty in
    selected <- value r ;;
    match selected with
    | None => Ok NoAction
    | Some problem_id =>
        if (problem_id =? 0)%Z then Ok NoAction
        else if (problem_id <=? n)%Z then
          row <- getitem (numbered 4 0 hosts) (problem_id - 1) ;;
          state <- getitem row 1 ;;
          host <- getitem row 2 ;;
          detail <- getitem row 4 ;;
          sent <- fst (prompt_acknowledge_problem
                         (Nat.pred depth) state host None detail
                         (pending r)) ;;
          Ok (HostChosen state host detail sent)
        else
          row <- getitem (numbered 5 n services) (problem_id - n - 1) ;;
          state <- getitem row 1 ;;
          host <- getitem row 2 ;;
          service <- getitem row 3 ;;
          detail <- getitem row 4 ;;
          sent <- fst (prompt_acknowledge_problem
                         (Nat.pred depth) state host (Some service) detail
                         (pending r)) ;;
          Ok (ServiceChosen state host service detail sent)
    end.
Proof.
  intros Hh Hs Htot. unfold Prompt.acknowledge.
  replace (Z.of_nat (length hosts) + Z.of_nat (length services) =? 0)%Z
    with false by (symmetry; apply Z.eqb_neq; lia).
  assert (Eh : (if (0 <? Z.of_nat (length hosts))%Z
                then number_rows 4 0 hosts else Ok (hosts, 0%Z))
               = Ok (numbered 4 0 hosts, Z.of_nat (length hosts))).
  { destruct hosts as [|h hosts]; [reflexivity|].
    replace (0 <? Z.of_nat (length (h :: hosts)))%Z with true
      by (symmetry; apply Z.ltb_lt; simpl; lia).
    rewrite number_rows_ok; [reflexivity|].
    eapply Forall_impl; [|exact Hh]. simpl. intros; lia. }
  rewrite Eh. cbn [bind fst snd].
  assert (Es : (if (0 <? Z.of_nat (length services))%Z
                then number_rows 5 (Z.of_nat (length hosts)) services
                else Ok (services, Z.of_nat (length hosts)))
               = Ok (numbered 5 (Z.of_nat (length hosts)) services,
                     (Z.of_nat (length hosts)
                      + Z.of_nat (length services))%Z)).
  { destruct services as [|v services].
    - simpl. do 2 f_equal. lia.
    - replace (0 <? Z.of_nat (length (v :: services)))%Z with true
        by (symmetry; apply Z.ltb_lt; simpl; lia).
      rewrite number_rows_ok; [reflexivity|].
      eapply Forall_impl; [|exact Hs]. simpl. intros; lia. }
  rewrite Es. cbn [bind fst snd]. rewrite numbered_length. reflexivity.
Qed.

(** C3: with [n] host rows and [m] service rows listed, a rejected entry
    (not an integer, or outside [1, n+m]) leads to a new prompt by a
    nested call.  While the calls fit on the stack, the first accepted
    entry [k] selects host row [k] when [k <= n] and service row [k - n]
    otherwise, and an interrupt ends the selection with nothing but a
    blank line written and no row chosen.  Once as many entries have been
    rejected as calls fit, the next prompt is not made: the selection
    raises [RecursionError] whatever is typed after them, so entries are
    not rejected and asked for again without end. *)
Theorem acknowledge_selection (depth : nat)
        (hosts services : list (list string))
        (bad rest : list user_input) :
  let n := Z.of_nat (length hosts) in
  let m := Z.of_nat (length services) in
  Forall (fun r => (5 <= length r)%nat) hosts ->
  Forall (fun r => (6 <= length r)%nat) services ->
  (1 <= n + m)%Z ->
  Forall (rejected (n + m)) bad ->
  ((length bad < depth)%nat ->
   (forall s k,
       int s = Some k -> (1 <= k <= n)%Z ->
       exists row,
         nth_error hosts (Z.to_nat (k - 1)) = Some row
         /\ acknowledge depth hosts services (bad ++ Line s :: rest)
            = (sent <- fst (prompt_acknowledge_problem
                              (Nat.pred depth)
                              (nth 0 row "") (nth 1 row "") None
                              (nth 3 row "") rest) ;;
               Ok (HostChosen (nth 0 row "") (nth 1 row "")
                              (nth 3 row "") sent)))
   /\ (forall s k,
          int s = Some k -> (n < k <= n + m)%Z ->
          exists row,
            nth_error services (Z.to_nat (k - n - 1)) = Some row
            /\ acknowledge depth hosts services (bad ++ Line s :: rest)
               = (sent <- fst (prompt_acknowledge_problem
                                 (Nat.pred depth)
                                 (nth 0 row "") (nth 1 row "")
                                 (Some (nth 2 row "")) (nth 3 row "")
                                 rest) ;;
                  Ok (ServiceChosen (nth 0 row "") (nth 1 row "")
                                    (nth 2 row "") (nth 3 row "") sent)))
   /\ (forall ack,
          get_problem_id depth ack (n + m) (bad ++ Interrupt :: rest)
          = mkRun (Ok None)
                  (repeat (Asked (problem_id_prompt ack (n + m)))
                          (S (length bad))
                   ++ [Printed ""])
                  rest)
   /\ acknowledge depth hosts services (bad ++ Interrupt :: rest)
      = Ok NoAction)
  /\ ((depth <= length bad)%nat ->
      (forall ack,
          value (get_problem_id depth ack (n + m) (bad ++ rest))
          = Raise RecursionError)
      /\ acknowledge depth hosts services (bad ++ rest)
         = Raise RecursionError).
Proof.
  intros n m Hh Hs Htot Hbad. split.
  2:{ intros Hlen. split.
      - intros ack. now apply get_problem_id_overflow.
      - rewrite acknowledge_numbered by assumption. cbv zeta. fold n m.
        now rewrite get_problem_id_overflow. }
  intros Hlen.
  destruct depth as [|depth]; [lia|].
  assert (Ed : S depth = (length bad + S (depth - length bad))%nat)
    by lia.
  assert (Hint : forall ack,
             get_problem_id (S depth) ack (n + m)
                            (bad ++ Interrupt :: rest)
             = mkRun (Ok None)
                     (repeat (Asked (problem_id_prompt ack (n + m)))
                             (S (length bad))
                      ++ [Printed ""])
                     rest).
  { intros ack. rewrite Ed.
    destruct (get_problem_id_skip (S (depth - length bad)) ack (n + m)
                                  bad (Interrupt :: rest) Hbad)
      as [E1 [E2 E3]].
    destruct (get_problem_id (length bad + S (depth - length bad)) ack
                             (n + m) (bad ++ Interrupt :: rest))
      as [v t p]. cbn [value pending trace] in *. subst v p t.
    cbn [Prompt.get_problem_id trace].
    f_equal.
    change (S (length bad)) with (1 + length bad)%nat.
    rewrite Nat.add_comm, repeat_app, <- app_assoc. reflexivity. }
  assert (Hval : forall s k,
             int s = Some k -> (1 <= k <= n + m)%Z ->
             value (get_problem_id (S depth) true (n + m)
                                   (bad ++ Line s :: rest))
             = Ok (Some k)
             /\ pending (get_problem_id (S depth) true (n + m)
                                        (bad ++ Line s :: rest))
                = rest).
  { intros s k E Hk. rewrite Ed.
    destruct (get_problem_id_skip (S (depth - length bad)) true (n + m)
                                  bad (Line s :: rest) Hbad)
      as [E1 [E2 _]].
    rewrite E1, E2,
      (get_problem_id_accept (depth - length bad) true (n + m) s k rest
                             E Hk).
    now split. }
  repeat split.
  - intros s k E Hk.
    destruct (nth_error hosts (Z.to_nat (k - 1))) as [row|] eqn:Hrow.
    2:{ apply nth_error_None in Hrow. lia. }
    exists row. split; [reflexivity|].
    rewrite acknowledge_numbered by assumption. cbv zeta. fold n m.
    destruct (Hval s k E ltac:(lia)) as [Ev Ep]. rewrite Ev, Ep.
    cbn [bind].
    replace (k =? 0)%Z with false by (symmetry; apply Z.eqb_neq; lia).
    replace (k <=? n)%Z with true by (symmetry; apply Z.leb_le; lia).
    rewrite (getitem_at (numbered 4 0 hosts) (k - 1)
               (numbered_row 4 (0 + Z.of_nat (Z.to_nat (k - 1))) row))
      by (lia || now apply numbered_nth).
    cbn [bind].
    assert (Hrl : (5 <= length row)%nat).
    { rewrite Forall_forall in Hh. apply Hh.
      eapply nth_error_In. exact Hrow. }
    destruct (numbered_host_row_cells
                (0 + Z.of_nat (Z.to_nat (k - 1))) row Hrl)
      as [C1 [C2 C4]].
    rewrite C1. cbn [bind]. rewrite C2. cbn [bind]. rewrite C4.
    reflexivity.
  - intros s k E Hk.
    destruct (nth_error services (Z.to_nat (k - n - 1))) as [row|] eqn:Hrow.
    2:{ apply nth_error_None in Hrow. lia. }
    exists row. split; [reflexivity|].
    rewrite acknowledge_numbered by assumption. cbv zeta. fold n m.
    destruct (Hval s k E ltac:(lia)) as [Ev Ep]. rewrite Ev, Ep.
    cbn [bind].
    replace (k =? 0)%Z with false by (symmetry; apply Z.eqb_neq; lia).
    replace (k <=? n)%Z with false by (symmetry; apply Z.leb_gt; lia).
    rewrite (getitem_at (numbered 5 n services) (k - n - 1)
               (numbered_row 5 (n + Z.of_nat (Z.to_nat (k - n - 1))) row))
      by (lia || now apply numbered_nth).
    cbn [bind].
    assert (Hrl : (6 <= length row)%nat).
    { rewrite Forall_forall in Hs. apply Hs.
      eapply nth_error_In. exact Hrow. }
    destruct (numbered_service_row_cells
                (n + Z.of_nat (Z.to_nat (k - n - 1))) row Hrl)
      as [C1 [C2 [C3 C4]]].
    rewrite C1. cbn [bind]. rewrite C2. cbn [bind]. rewrite C3.
    cbn [bind]. rewrite C4. reflexivity.
  - exact Hint.
  - rewrite acknowledge_numbered by assumption. cbv zeta. fold n m.
    rewrite (Hint true). reflexivity.
Qed.

End WithInt.

Lemma acknowledge_selection_witness :
  (exists row,
      nth_error Sample.service_table 1 = Some row
      /\ Prompt.acknowledge Sample.int 996 Sample.host_table
           Sample.service_table
           [Line "two"; Line "0"; Line "4"; Line " 3 ";
            Line "disk; swap"; Line "y"]
         = (sent <- fst (prompt_acknowledge_problem
                           995 (nth 0 row "") (nth 1 row "")
                           (Some (nth 2 row "")) (nth 3 row "")
                           [Line "disk; swap"; Line "y"]) ;;
            Ok (ServiceChosen (nth 0 row "") (nth 1 row "")
                              (nth 2 row "") (nth 3 row "") sent)))
  /\ Prompt.acknowledge Sample.int 996 Sample.host_table
       Sample.service_table (repeat (Line "x") 996 ++ [Line "1"])
     = Raise RecursionError.
Proof.
  split.
  - refine (proj1 (proj2 (proj1 (acknowledge_selection Sample.int 996
                                   Sample.host_table Sample.service_table
                                   [Line "two"; Line "0"; Line "4"]
                                   [Line "disk; swap"; Line "y"] _ _ _ _)
                                _))
                  " 3 " 3%Z _ _).
    + repeat constructor.
    + repeat constructor.
    + simpl. lia.
    + repeat constructor.
      * exists "two". split; [reflexivity|]. left. reflexivity.
      * exists "0". split; [reflexivity|]. right. exists 0%Z.
        split; [reflexivity|]. left. lia.
      * exists "4". split; [reflexivity|]. right. exists 4%Z.
        split; [reflexivity|]. right. simpl. lia.
    + apply Nat.ltb_lt. reflexivity.
    + reflexivity.
    + simpl. lia.
  - refine (proj2 (proj2 (acknowledge_selection Sample.int 996
                            Sample.host_table Sample.service_table
                            (repeat (Line "x") 996) [Line "1"] _ _ _ _)
                         _)).
    + repeat constructor.
    + repeat constructor.
    + simpl. lia.
    + apply Forall_forall. intros u Hu. apply repeat_spec in Hu.
      exists "x". split; [exact Hu|]. left. reflexivity.
    + rewrite repeat_length. apply Nat.le_refl.
Defined.

(** *** The acknowledgement comment *)

Lemma is_space_sub (c : ascii) :
  is_space (if Ascii.eqb c ";" then ":"%char else c) = is_space c.
Proof.
  destruct (Ascii.eqb_spec c ";") as [->|_]; reflexivity.
Qed.

Lemma sub_semicolon_empty (s : string) :
  (sub_semicolon s =? "") = (s =? "").
Proof. destruct s; reflexivity. Qed.

Lemma lstrip_sub (s : string) :
  lstrip (sub_semicolon s) = sub_semicolon (lstrip s).
Proof.
  induction s as [|c s IH]; [reflexivity|].
  cbn [sub_semicolon lstrip]. rewrite is_space_sub.
  destruct (is_space c); [exact IH | reflexivity].
Qed.

Lemma rstrip_sub (s : string) :
  rstrip (sub_semicolon s) = sub_semicolon (rstrip s).
Proof.
  induction s as [|c s IH]; [reflexivity|].
  cbn [sub_semicolon rstrip].
  rewrite is_space_sub, IH, sub_semicolon_empty.
  destruct (is_space c && (rstrip s =? "")); reflexivity.
Qed.

Lemma rstrip_idem (s : string) : rstrip (rstrip s) = rstrip s.
Proof.
  induction s as [|c s IH]; [reflexivity|].
  cbn [rstrip].
  destruct (is_space c && (rstrip s =? "")) eqn:E; [reflexivity|].
  cbn [rstrip]. rewrite IH, E. reflexivity.
Qed.

Lemma lstrip_rstrip_lstrip (s : string) :
  lstrip (rstrip (lstrip s)) = rstrip (lstrip s).
Proof.
  induction s as [|c s IH]; [reflexivity|].
  cbn [lstrip]. destruct (is_space c) eqn:E; [exact IH|].
  cbn [rstrip]. rewrite E. cbn [andb lstrip]. now rewrite E.
Qed.

Lemma strip_idem (s : string) : strip (strip s) = strip s.
Proof.
  unfold strip. now rewrite lstrip_rstrip_lstrip, rstrip_idem.
Qed.

Lemma strip_sub (s : string) :
  strip (sub_semicolon s) = sub_semicolon (strip s).
Proof.
  unfold strip. now rewrite lstrip_sub, rstrip_sub.
Qed.

Lemma sub_semicolon_clean (s : string) :
  forall n, get n (sub_semicolon s) <> Some ";"%char.
Proof.
  induction s as [|c s IH]; intros n; [destruct n; discriminate|].
  destruct n as [|n]; cbn [sub_semicolon get]; [|apply IH].
  destruct (Ascii.eqb_spec c ";") as [->|N]; [discriminate | congruence].
Qed.

Lemma get_acknowledge_comment_value (depth : nat) :
  forall (tty : list user_input) (comment : string),
    value (get_acknowledge_comment depth tty) = Ok (Some comment) ->
    exists s, strip s <> "" /\ comment = sub_semicolon (strip s).
Proof.
  induction depth as [|depth IH]; intros tty comment;
    cbn [get_acknowledge_comment value]; [discriminate|].
  destruct tty as [|[s|] tty]; cbn [value]; try discriminate.
  destruct (String.eqb_spec (strip s) "") as [E|N]; cbn [negb value].
  - apply IH.
  - intros H. injection H as <-. now exists s.
Qed.

(** A run of blank lines takes one call each. *)
Lemma get_acknowledge_comment_blank (depth : nat) (blank : list string)
      (rest : list user_input) :
  Forall (fun b => strip b = "") blank ->
  get_acknowledge_comment (length blank + depth) (map Line blank ++ rest)
  = mkRun (value (get_acknowledge_comment depth rest))
          (repeat (Asked comment_prompt) (length blank)
           ++ trace (get_acknowledge_comment depth rest))
          (pending (get_acknowledge_comment depth rest)).
Proof.
  induction 1 as [|b blank Hb _ IH].
  - cbn [map app length repeat Nat.add].
    now destruct (get_acknowledge_comment depth rest).
  - cbn [map app length Nat.add get_acknowledge_comment].
    rewrite Hb, IH. reflexivity.
Qed.

(** As many blank lines as calls fit end in [RecursionError]. *)
Lemma get_acknowledge_comment_overflow :
  forall (depth : nat) (blank : list string) (rest : list user_input),
    Forall (fun b => strip b = "") blank ->
    (depth <= length blank)%nat ->
    value (get_acknowledge_comment depth (map Line blank ++ rest))
    = Raise RecursionError.
Proof.
  induction depth as [|depth IH]; intros blank rest Hb Hlen;
    [reflexivity|].
  destruct Hb as [|b blank Hb0 Hb]; simpl in Hlen; [lia|].
  cbn [map app get_acknowledge_comment]. rewrite Hb0.
  cbn [String.eqb negb value]. apply IH; [exact Hb | lia].
Qed.

(** C10: a comment returned by the prompt is not empty, has no white
    space left to strip and holds no semicolon: it is the stripped line
    with every [;] turned into [:].  A line that is empty once stripped
    leads to a new prompt by a nested call, and while the calls fit on
    the stack an interrupt returns no comment and
    [prompt_acknowledge_problem] then sends nothing.  Once as many blank
    lines have come as calls fit, the next prompt is not made:
    [RecursionError] is raised, through [prompt_acknowledge_problem]
    too. *)
Theorem get_acknowledge_comment_clean :
  (forall depth tty comment,
      value (get_acknowledge_comment depth tty) = Ok (Some comment) ->
      comment <> ""
      /\ strip comment = comment
      /\ (forall n, get n comment <> Some ";"%char))
  /\ (forall depth blank s rest,
         Forall (fun b => strip b = "") blank ->
         strip s <> "" ->
         (length blank < depth)%nat ->
         get_acknowledge_comment depth (map Line blank ++ Line s :: rest)
         = mkRun (Ok (Some (sub_semicolon (strip s))))
                 (repeat (Asked comment_prompt) (S (length blank)))
                 rest)
  /\ (forall depth blank rest,
         Forall (fun b => strip b = "") blank ->
         (length blank < depth)%nat ->
         value (get_acknowledge_comment
                  depth (map Line blank ++ Interrupt :: rest)) = Ok None
         /\ forall state host service detail,
             prompt_acknowledge_problem depth state host service detail
               (map Line blank ++ Interrupt :: rest)
             = (Ok None, rest))
  /\ (forall depth blank rest,
         Forall (fun b => strip b = "") blank ->
         (depth <= length blank)%nat ->
         value (get_acknowledge_comment depth (map Line blank ++ rest))
         = Raise RecursionError
         /\ forall state host service detail,
             fst (prompt_acknowledge_problem
                    depth state host service detail
                    (map Line blank ++ rest))
             = Raise RecursionError).
Proof.
  split; [|split; [|split]].
  - intros depth tty comment H.
    destruct (get_acknowledge_comment_value depth tty comment H)
      as [s [N ->]].
    split; [|split].
    + destruct (strip s); [now elim N | discriminate].
    + now rewrite strip_sub, strip_idem.
    + apply sub_semicolon_clean.
  - intros depth blank s rest Hb N Hlen.
    replace depth with (length blank + S (depth - S (length blank)))%nat
      by lia.
    rewrite get_acknowledge_comment_blank by exact Hb.
    cbn [get_acknowledge_comment].
    destruct (String.eqb_spec (strip s) "") as [E|_]; [now elim N|].
    cbn [negb value trace pending]. f_equal.
    change (S (length blank)) with (1 + length blank)%nat.
    now rewrite Nat.add_comm, repeat_app.
  - intros depth blank rest Hb Hlen.
    assert (E : get_acknowledge_comment
                  depth (map Line blank ++ Interrupt :: rest)
                = mkRun (Ok None)
                        (repeat (Asked comment_prompt) (length blank)
                         ++ [Asked comment_prompt; Printed ""])
                        rest).
    { replace depth with (length blank + S (depth - S (length blank)))%nat
        by lia.
      now rewrite get_acknowledge_comment_blank by exact Hb. }
    split.
    + now rewrite E.
    + intros state host service detail.
      unfold prompt_acknowledge_problem. now rewrite E.
  - intros depth blank rest Hb Hlen.
    pose proof (get_acknowledge_comment_overflow depth blank rest Hb Hlen)
      as E.
    split; [exact E|].
    intros state host service detail.
    unfold prompt_acknowledge_problem. now rewrite E.
Qed.

Lemma get_acknowledge_comment_clean_witness :
  get_acknowledge_comment 996 [Line "   "; Line ""; Line " disk; swap "]
  = mkRun (Ok (Some "disk: swap")) (repeat (Asked comment_prompt) 3) []
  /\ "disk: swap" <> ""
  /\ strip "disk: swap" = "disk: swap"
  /\ prompt_acknowledge_problem 996 "DOWN" "web1" None "no route to host"
       [Line " "; Interrupt; Line "y"]
     = (Ok None, [Line "y"])
  /\ value (get_acknowledge_comment
              996 (map Line (repeat "" 996) ++ [Line "on it"]))
     = Raise RecursionError.
Proof.
  split; [|split; [|split; [|split]]].
  - refine (proj1 (proj2 get_acknowledge_comment_clean)
                  996%nat ["   "; ""] " disk; swap " [] _ _ _).
    + repeat constructor.
    + discriminate.
    + apply Nat.ltb_lt. reflexivity.
  - refine (proj1 (proj1 get_acknowledge_comment_clean 1%nat
                         [Line " disk; swap "] "disk: swap" _)).
    reflexivity.
  - refine (proj1 (proj2 (proj1 get_acknowledge_comment_clean 1%nat
                                [Line " disk; swap "] "disk: swap" _))).
    reflexivity.
  - refine (proj2 (proj1 (proj2 (proj2 get_acknowledge_comment_clean))
                         996%nat [" "] [Line "y"] _ _)
                  "DOWN" "web1" None "no route to host").
    + repeat constructor.
    + apply Nat.ltb_lt. reflexivity.
  - refine (proj1 (proj2 (proj2 (proj2 get_acknowledge_comment_clean))
                         996%nat (repeat "" 996) [Line "on it"] _ _)).
    + apply Forall_forall. intros b Hb. apply repeat_spec in Hb.
      now subst b.
    + rewrite repeat_length. apply Nat.le_refl.
Defined.

End PromptFacts.


(** ** Downtime requests *)

Module DowntimeFacts.
Import Py Downtime.

Section WithServer.

Variable fg : string -> string.
Variable attr : string -> string.
Variable print_colour : bool.
Variable quote : string -> string.
Variable request_view : string -> string.

Local Abbreviation downtime_add_minutes :=
  (downtime_add_minutes fg attr print_colour quote request_view).
Local Abbreviation downtime_remove :=
  (downtime_remove fg attr print_colour quote request_view).

(** C8 fails for adding a downtime: when the response lacks the success
    marker, [downtime_add_minutes] prints nothing at all, whereas
    [downtime_remove] prints its "could not remove downtime" line. *)
Theorem downtime_failure_report (hostname : string)
        (service : option string) (comment : string) (minutes : Z) :
  (forall url, contains success_marker (request_view url) = false) ->
  downtime_add_minutes hostname service comment minutes = []
  /\ exists line,
      downtime_remove hostname service = [line]
      /\ prefix "could not remove downtime on " line = true.
Proof.
  intros Hfail. split.
  - unfold Downtime.downtime_add_minutes. now rewrite Hfail.
  - unfold Downtime.downtime_remove. rewrite Hfail.
    destruct (truthy_opt service); eexists; split; reflexivity.
Qed.

End WithServer.

Lemma downtime_failure_report_witness :
  Downtime.downtime_add_minutes Sample.fg Sample.attr true Sample.quote
    (fun _ => "ERROR: no such host") "nohost" None "ops: maintenance" 30
  = [].
Proof.
  refine (proj1 (downtime_failure_report Sample.fg Sample.attr true
                   Sample.quote (fun _ => "ERROR: no such host")
                   "nohost" None "ops: maintenance" 30 _)).
  intros url. reflexivity.
Defined.

(** When the marker is there, the success line is printed. *)
Example downtime_add_minutes_success :
  Downtime.downtime_add_minutes Sample.fg Sample.attr false Sample.quote
    (fun _ => "MESSAGE: Successfully sent 1 commands.") "web1" None
    "ops: maintenance" 30
  = ["host web1 successfully placed in downtime for 30 minutes"].
Proof. reflexivity. Qed.

End DowntimeFacts.


(** ** More on the scraper: what [feed] keeps, when it raises, text
    between tags, and the site check *)

Module SitesFacts.
Import Py Scraper Sites PyFacts ScraperFacts.

Lemma set_nth_length {A} (l : list A) :
  forall k x, length (set_nth l k x) = length l.
Proof.
  induction l as [|h t IH]; intros k x; [reflexivity|].
  destruct k; simpl; [reflexivity | now rewrite IH].
Qed.

Lemma append_at_length {A} (l l' : list (list A)) (i : Z) (x : A) :
  append_at l i x = Ok l' -> length l' = length l.
Proof.
  unfold append_at. destruct (norm_index l i) as [k|]; [|discriminate].
  destruct (nth_error l k); [|discriminate].
  intros H. injection H as <-. apply set_nth_length.
Qed.

Lemma append_at_nonempty {A} (l : list (list A)) (x : A) :
  l <> [] ->
  exists l', append_at l (Z.of_nat (length l) - 1) x = Ok l'.
Proof.
  intros Hne. destruct (exists_last Hne) as [out [acc ->]].
  rewrite length_app. simpl.
  replace (Z.of_nat (length out + 1) - 1)%Z with (Z.of_nat (length out))
    by lia.
  eexists. apply append_at_last.
Qed.

Lemma handle_data_collects (p : parser) (data : string) :
  handle_data p data
  = if collects (column_index p) then append_data p data else Ok p.
Proof.
  unfold handle_data, collects.
  destruct (column_index p =? 2)%Z; [reflexivity|].
  destruct (column_index p =? 3)%Z; [reflexivity|].
  destruct (column_index p =? 4)%Z; reflexivity.
Qed.

Lemma step_consistent (p p' : parser) (e : event) :
  consistent p -> step p e = Ok p' ->
  consistent p' /\ (output p <> [] -> output p' <> []).
Proof.
  intros Hp Hs. pose proof Hp as [Hr [Hc Hh]].
  destruct e as [tag attrs|tag|data]; simpl in Hs.
  - injection Hs as <-. unfold handle_starttag.
    destruct (header_found p) eqn:Ef; simpl.
    + assert (Hne : output p ++ [[]] <> [])
        by (destruct (output p); discriminate).
      destruct (tag =? "tr"), (tag =? "td"); unfold consistent; simpl;
        rewrite ?length_app; simpl;
        (split; [split; [lia | split; [lia | congruence]] | auto]).
    + split; [exact Hp | auto].
  - injection Hs as <-. unfold handle_endtag.
    destruct (tag =? "table"); [|split; [exact Hp | auto]].
    destruct (header_found p) eqn:Ef; simpl.
    + split; [exact Hp | auto].
    + split; [|auto]. unfold consistent; simpl.
      split; [exact Hr | split; [exact Hc | discriminate]].
  - rewrite handle_data_collects in Hs.
    destruct (collects (column_index p)) eqn:Ec.
    + unfold append_data in Hs.
      destruct (append_at (output p) (row_index p) data) as [out|x] eqn:Ea;
        [|discriminate Hs].
      injection Hs as <-. pose proof (append_at_length _ _ _ _ Ea) as Hl.
      unfold consistent; simpl. rewrite Hl.
      split.
      * split; [exact Hr | split; [exact Hc|]].
        intros Ef. destruct (Hh Ef) as [_ E0]. rewrite E0 in Ec.
        discriminate Ec.
      * intros Hne Ho. rewrite Ho in Hl. destruct (output p);
          [now apply Hne | discriminate Hl].
    + injection Hs as <-. split; [exact Hp | auto].
Qed.

Lemma feed_keeps_consistent (evs : list event) :
  forall p p',
    consistent p -> feed p evs = Ok p' ->
    consistent p' /\ (output p <> [] -> output p' <> []).
Proof.
  induction evs as [|e evs IH]; intros p p' Hc Hf; simpl in Hf.
  - injection Hf as <-. auto.
  - destruct (step p e) as [q|x] eqn:Es; [|discriminate Hf].
    destruct (step_consistent p q e Hc Es) as [Hq Hne].
    destruct (IH q p' Hq Hf) as [Hp' Hne']. auto.
Qed.

Lemma init_consistent : consistent init.
Proof. unfold consistent. simpl. repeat split; lia. Qed.

(** Whatever is fed, a parser that has not raised has [row_index] at the
    last row started, and holds no row and a zero column counter as long
    as no [</table>] was seen. *)
Theorem feed_consistent (evs : list event) (p : parser) :
  feed init evs = Ok p -> consistent p.
Proof.
  intros H. exact (proj1 (feed_keeps_consistent evs init p
                            init_consistent H)).
Qed.

Lemma feed_consistent_witness :
  consistent (collecting [["prod"]] 2).
Proof.
  apply (feed_consistent
           [EndTag "table"; StartTag "tr" []; StartTag "td" [];
            Data "1"; StartTag "td" []; Data "prod"]).
  reflexivity.
Defined.

Lemma step_after_row (p : parser) (e : event) :
  consistent p -> output p <> [] -> exists p', step p e = Ok p'.
Proof.
  intros [Hr _] Hne. destruct e as [tag attrs|tag|data]; simpl; eauto.
  rewrite handle_data_collects.
  destruct (collects (column_index p)); eauto.
  unfold append_data. rewrite Hr.
  destruct (append_at_nonempty (output p) data Hne) as [l' ->].
  simpl. eauto.
Qed.

Lemma feed_after_row (evs : list event) :
  forall p,
    consistent p -> output p <> [] -> exists p', feed p evs = Ok p'.
Proof.
  induction evs as [|e evs IH]; intros p Hc Hne; simpl; eauto.
  destruct (step_after_row p e Hc Hne) as [q Es]. rewrite Es. simpl.
  destruct (step_consistent p q e Hc Es) as [Hq Hne'].
  apply IH; auto.
Qed.

(** Once a row has been started after the header, no further input
    makes [feed] raise. *)
Theorem feed_never_raises_after_row (before after : list event)
        (p : parser) :
  feed init before = Ok p -> output p <> [] ->
  exists p', feed init (before ++ after) = Ok p'.
Proof.
  intros Hf Hne. rewrite feed_app, Hf. simpl.
  apply feed_after_row; [|exact Hne].
  exact (proj1 (feed_keeps_consistent before init p init_consistent Hf)).
Qed.

Lemma feed_never_raises_after_row_witness :
  exists p',
    feed init ([EndTag "table"; StartTag "tr" []]
               ++ [StartTag "td" []; StartTag "td" []; Data "x";
                   EndTag "table"; Data "y"; StartTag "td" []])
    = Ok p'.
Proof.
  apply (feed_never_raises_after_row
           [EndTag "table"; StartTag "tr" []] _ (collecting [[]] 0)).
  - reflexivity.
  - discriminate.
Defined.

Lemma feed_tds (n : nat) :
  forall out column,
    feed (collecting out column) (repeat (StartTag "td" []) n)
    = Ok (collecting out (column + Z.of_nat n)).
Proof.
  induction n as [|n IH]; intros out column.
  - simpl. do 2 f_equal. lia.
  - cbn [repeat feed step bind]. rewrite start_td_collecting, IH.
    do 2 f_equal. lia.
Qed.

(** Text met in column 2, 3 or 4 after the header but before any [<tr>]
    makes [feed] raise [IndexError]: there is no row to append to. *)
Theorem feed_text_before_row_raises (chrome rest : list event)
        (n : nat) (data : string) :
  ~ In (EndTag "table") chrome ->
  (2 <= n <= 4)%nat ->
  feed init (chrome ++ EndTag "table" :: repeat (StartTag "td" []) n
             ++ Data data :: rest)
  = Raise IndexError.
Proof.
  intros Hno Hn. rewrite feed_app.
  rewrite (feed_before_header chrome) by (auto; reflexivity).
  cbn [bind feed step].
  change (handle_endtag init "table") with (collecting [] 0).
  rewrite feed_app, feed_tds. cbn [bind feed step].
  rewrite handle_data_collects. cbn [collecting column_index].
  replace (collects (0 + Z.of_nat n)) with true; [reflexivity|].
  unfold collects.
  destruct n as [|[|[|[|[|n]]]]]; try lia; reflexivity.
Qed.

Lemma feed_text_before_row_raises_witness :
  feed init ([Data "Sites"]
             ++ EndTag "table" :: repeat (StartTag "td" []) 2
             ++ Data "prod" :: [EndTag "td"])
  = Raise IndexError.
Proof.
  apply feed_text_before_row_raises.
  - simpl. intuition discriminate.
  - lia.
Defined.

End SitesFacts.


Module PagesFacts.
Import Py Scraper Sites PyFacts ScraperFacts SitesFacts.

Lemma feed_cells_gap (gap : string) (cells : list cell) :
  forall out acc column,
    feed (collecting (out ++ [acc]) column)
         (flat_map (render_cell_gap gap) cells)
    = Ok (collecting (out ++ [acc ++ kept_gap gap column cells])
                     (column + Z.of_nat (length cells))).
Proof.
  induction cells as [|c cells IH]; intros out acc column.
  - simpl. rewrite app_nil_r. do 2 f_equal. lia.
  - cbn [flat_map]. rewrite feed_app.
    unfold render_cell_gap at 1. rewrite feed_app.
    unfold render_cell. cbn [feed step bind].
    rewrite start_td_collecting, feed_app, feed_text_nodes.
    cbn [feed step bind handle_endtag String.eqb Ascii.eqb Bool.eqb].
    rewrite handle_data_collecting. cbn [bind]. rewrite IH.
    cbn [kept_gap length]. do 2 f_equal.
    + destruct (collects (column + 1)); rewrite <- ?app_assoc;
        reflexivity.
    + lia.
Qed.

Lemma kept_gap_past_4 (gap : string) (cells : list cell) :
  forall column, (4 <= column)%Z -> kept_gap gap column cells = [].
Proof.
  induction cells as [|c cells IH]; intros column H; simpl.
  - reflexivity.
  - rewrite IH by lia. unfold collects.
    replace ((column + 1 =? 2)%Z) with false by (symmetry; lia).
    replace ((column + 1 =? 3)%Z) with false by (symmetry; lia).
    replace ((column + 1 =? 4)%Z) with false by (symmetry; lia).
    reflexivity.
Qed.

Lemma kept_gap_row (gap : string) (r : row) :
  kept_gap gap 0 r = concat (map (fun c => c ++ [gap]) (columns_2_4 r)).
Proof.
  unfold columns_2_4.
  destruct r as [|c1 [|c2 [|c3 [|c4 r]]]]; cbn; rewrite ?app_nil_r;
    try reflexivity.
  rewrite (kept_gap_past_4 gap r 4) by lia. now rewrite app_nil_r.
Qed.

Lemma feed_row_gap (gap : string) (r : row) out column :
  feed (collecting out column) (render_row_gap gap r)
  = Ok (collecting (out ++ [row_text_nodes_gap gap r])
                   (Z.of_nat (length r))).
Proof.
  unfold render_row_gap. cbn [feed step bind].
  rewrite start_tr_collecting, handle_data_collecting. cbn [bind].
  change (collects 0) with false. cbn [app].
  rewrite feed_app, feed_cells_gap. cbn [bind feed step].
  cbn [handle_endtag String.eqb Ascii.eqb Bool.eqb].
  rewrite handle_data_collecting. cbn [bind app Z.add].
  now rewrite kept_gap_row.
Qed.

Lemma feed_rows_gap (gap : string) (t : table) :
  forall out column,
  exists column',
    feed (collecting out column) (flat_map (render_row_gap gap) t)
    = Ok (collecting (out ++ map (row_text_nodes_gap gap) t) column').
Proof.
  induction t as [|r t IH]; intros out column.
  - exists column. simpl. now rewrite app_nil_r.
  - cbn [flat_map]. rewrite feed_app, feed_row_gap. cbn [bind].
    destruct (IH (out ++ [row_text_nodes_gap gap r])
                 (Z.of_nat (length r))) as [c' E].
    exists c'. rewrite E. cbn [map]. now rewrite <- app_assoc.
Qed.

Lemma interior_snoc {A} (l : list A) (x : A) :
  interior (l ++ [x]) = tl l.
Proof. unfold interior. now rewrite removelast_last. Qed.

(** In markup that has a text node after every tag, the rows returned
    hold that text too: after each cell of columns 2 to 4, and once more
    after the row when it ends in one of those columns.  A row of four
    cells comes back with seven strings. *)
Theorem scrape_text_between_tags (gap : string) (chrome : list event)
        (t : table) :
  ~ In (EndTag "table") chrome ->
  (2 <= length t)%nat ->
  scrape (render_page_gap gap chrome t)
  = Ok (map (row_text_nodes_gap gap) (interior t)).
Proof.
  intros Hno Hlen.
  destruct (exists_last (l := t)) as [t0 [r ->]];
    [destruct t; [simpl in Hlen; lia | discriminate]|].
  rewrite length_app in Hlen. simpl in Hlen.
  rewrite interior_snoc.
  unfold scrape, render_page_gap.
  rewrite feed_app. cbn [feed step bind app].
  rewrite feed_app.
  rewrite (feed_before_header chrome) by (auto; reflexivity).
  cbn [feed step bind].
  change (handle_endtag (handle_starttag init "table" []) "table")
    with (collecting [] 0).
  change (handle_data (collecting [] 0) gap) with (Ok (collecting [] 0)).
  cbn [bind]. unfold render_table_gap. cbn [feed step bind].
  change (handle_starttag (collecting [] 0) "table" [])
    with (collecting [] 0).
  change (handle_data (collecting [] 0) gap) with (Ok (collecting [] 0)).
  cbn [bind]. rewrite feed_app.
  destruct (feed_rows_gap gap (t0 ++ [r]) [] 0%Z) as [c E].
  rewrite E. cbn [bind app feed step].
  cbn [handle_endtag String.eqb Ascii.eqb Bool.eqb].
  change (negb (header_found (collecting
            (map (row_text_nodes_gap gap) (t0 ++ [r])) c))) with false.
  cbn iota. rewrite map_app. cbn [map].
  rewrite handle_data_collecting. cbn [bind].
  unfold get_sites. cbn [collecting output].
  destruct t0 as [|r0 t0]; [simpl in Hlen; lia|].
  cbn [map app pop]. rewrite app_comm_cons, removelast_last.
  reflexivity.
Qed.

Lemma scrape_text_between_tags_witness :
  let nl := String (ascii_of_nat 10) "" in
  scrape (render_page_gap nl []
            [ [["id"]; ["site"]; ["alias"]; ["socket"]];
              [["1"]; ["prod"]; ["Production"]; ["tcp:10.0.0.1:6557"]];
              [["footer"]] ])
  = Ok [["prod"; nl; "Production"; nl; "tcp:10.0.0.1:6557"; nl; nl]].
Proof.
  intros nl.
  apply (scrape_text_between_tags nl []
           [ [["id"]; ["site"]; ["alias"]; ["socket"]];
             [["1"]; ["prod"]; ["Production"]; ["tcp:10.0.0.1:6557"]];
             [["footer"]] ]).
  - intros [].
  - simpl. lia.
Defined.

Lemma site_listed_rows (sites : list (list string)) (site : string) :
  Forall (fun i => i <> []) sites ->
  site_listed sites site
  = Ok (existsb (fun i => hd "" i =? site) sites).
Proof.
  induction 1 as [|i sites Hi _ IH]; [reflexivity|].
  destruct i as [|i0 i]; [now elim Hi|].
  cbn [site_listed existsb hd].
  rewrite (getitem_at (i0 :: i) 0 i0) by (lia || reflexivity).
  cbn [bind]. rewrite IH. now destruct (i0 =? site).
Qed.

Lemma existsb_of_map {A B} (f : B -> bool) (g : A -> B) (l : list A) :
  existsb f (map g l) = existsb (fun x => f (g x)) l.
Proof.
  induction l as [|x l IH]; [reflexivity|]. cbn [map existsb].
  now rewrite IH.
Qed.

(** For a sites page whose interior rows all carry text in columns 2 to
    4, [check_site_exists] answers whether the site is the first text
    kept of some interior row (the site id of column 2); the first and the
    last row of the table are never looked at. *)
Theorem check_site_exists_interior (chrome : list event) (t : table)
        (site : string) :
  ~ In (EndTag "table") chrome ->
  (2 <= length t)%nat ->
  Forall (fun r => row_text_nodes r <> []) (interior t) ->
  check_site_exists (render_page chrome t) site
  = Ok (existsb (fun r => hd "" (row_text_nodes r) =? site) (interior t)).
Proof.
  intros Hno Hlen Hrows. unfold check_site_exists, scrape.
  destruct (feed_page chrome t Hno) as [c E]. rewrite E. cbn [bind].
  rewrite get_sites_collecting by (now rewrite length_map).
  cbn [bind]. rewrite interior_map, site_listed_rows.
  - now rewrite existsb_of_map.
  - apply Forall_map. exact Hrows.
Qed.

Lemma check_site_exists_interior_witness :
  let t := [ [["prod"]; ["prod"]; ["alias"]; ["socket"]];
             [["1"]; ["prod"]; ["Production"]; ["tcp:10.0.0.1:6557"]];
             [["2"]; ["test"]; ["Test"]; ["tcp:10.0.0.2:6557"]];
             [["3"]; ["lab"]; ["Lab"]; ["tcp:10.0.0.3:6557"]] ] in
  check_site_exists (render_page [] t) "test" = Ok true
  /\ check_site_exists (render_page [] t) "lab" = Ok false.
Proof.
  intros t. split.
  - apply (check_site_exists_interior [] t "test").
    + intros [].
    + simpl. lia.
    + repeat constructor; discriminate.
  - apply (check_site_exists_interior [] t "lab").
    + intros [].
    + simpl. lia.
    + repeat constructor; discriminate.
Defined.

(** An interior row with no text in columns 2 to 4 (a row of one cell,
    say) makes [check_site_exists] raise [IndexError] when no row before
    it names the site, even if a later row does. *)
Theorem check_site_exists_empty_row (before after : list (list string))
        (site : string) :
  Forall (fun i => i <> [] /\ hd "" i <> site) before ->
  site_listed (before ++ [] :: after) site = Raise IndexError.
Proof.
  induction 1 as [|i before [Hi Hs] _ IH]; [reflexivity|].
  destruct i as [|i0 i]; [now elim Hi|].
  cbn [app site_listed].
  rewrite (getitem_at (i0 :: i) 0 i0) by (lia || reflexivity).
  cbn [bind]. simpl in Hs.
  destruct (String.eqb_spec i0 site) as [E|_]; [now elim Hs | exact IH].
Qed.

Lemma check_site_exists_empty_row_witness :
  check_site_exists
    (render_page []
       [ [["id"]; ["site"]];
         [["1"]; ["prod"]];
         [["separator"]];
         [["2"]; ["test"]];
         [["footer"]] ]) "test"
  = Raise IndexError.
Proof.
  apply (check_site_exists_empty_row [["prod"]] [["test"]] "test").
  repeat constructor; discriminate.
Defined.

End PagesFacts.


(** ** Confirmation and removal of acknowledgements *)

Module ConfirmFacts.
Import Py Prompt Confirm PyFacts PromptFacts.

Lemma yes_no_not_answer (depth : nat) (question line : string)
      (rest : list user_input) :
  answer line = None ->
  yes_no (S depth) question (Line line :: rest)
  = mkRun (value (yes_no depth question rest))
          (Asked (question ++ " [Y/n] ")
           :: trace (yes_no depth question rest))
          (pending (yes_no depth question rest)).
Proof.
  unfold answer. intros H. cbn [yes_no].
  destruct ((substring 0 1 (strip (lower line)) =? "y")
            || (strip (lower line) =? "")); [discriminate H|].
  destruct (substring 0 1 (strip (lower line)) =? "n");
    [discriminate H | reflexivity].
Qed.

Lemma yes_no_answer (depth : nat) (question line : string) (b : bool)
      (rest : list user_input) :
  answer line = Some b ->
  yes_no (S depth) question (Line line :: rest)
  = mkRun (Ok (Some b)) [Asked (question ++ " [Y/n] ")] rest.
Proof.
  unfold answer. intros H. cbn [yes_no].
  destruct ((substring 0 1 (strip (lower line)) =? "y")
            || (strip (lower line) =? "")).
  - now injection H as <-.
  - destruct (substring 0 1 (strip (lower line)) =? "n");
      [now injection H as <- | discriminate H].
Qed.

(** A run of lines that are no answer takes one call each. *)
Lemma yes_no_skip (depth : nat) (question : string)
      (skipped : list string) (rest : list user_input) :
  Forall (fun l => answer l = None) skipped ->
  yes_no (length skipped + depth) question (map Line skipped ++ rest)
  = mkRun (value (yes_no depth question rest))
          (repeat (Asked (question ++ " [Y/n] ")) (length skipped)
           ++ trace (yes_no depth question rest))
          (pending (yes_no depth question rest)).
Proof.
  induction 1 as [|l skipped Hl _ IH].
  - cbn [map app length repeat Nat.add].
    now destruct (yes_no depth question rest).
  - cbn [map app length Nat.add]. rewrite yes_no_not_answer by exact Hl.
    rewrite IH. reflexivity.
Qed.

(** As many lines that are no answer as calls fit end in
    [RecursionError], with one prompt written for each call made. *)
Lemma yes_no_overflow (question : string) :
  forall (depth : nat) (skipped : list string) (rest : list user_input),
    Forall (fun l => answer l = None) skipped ->
    (depth <= length skipped)%nat ->
    yes_no depth question (map Line skipped ++ rest)
    = mkRun (Raise RecursionError)
            (repeat (Asked (question ++ " [Y/n] ")) depth)
            (map Line (skipn depth skipped) ++ rest).
Proof.
  induction depth as [|depth IH]; intros skipped rest Hs Hlen;
    [reflexivity|].
  destruct Hs as [|l skipped Hl Hs]; simpl in Hlen; [lia|].
  cbn [map app]. rewrite yes_no_not_answer by exact Hl.
  rewrite IH by (exact Hs || lia). reflexivity.
Qed.

Lemma repeat_snoc {A} (x : A) (n : nat) :
  repeat x n ++ [x] = repeat x (S n).
Proof.
  induction n as [|n IH]; [reflexivity|]. cbn [repeat app].
  now rewrite IH.
Qed.

(** [yes_no] asks again, by a nested call, after every line that is not
    an answer.  While the calls fit on the stack it returns what the
    first answer says: yes for a line that is empty or starts with y or Y
    once stripped, no for one that starts with n or N; an interrupt, or
    the end of input, returns [None] after a blank line.  Once as many
    lines have been passed over as calls fit, it raises [RecursionError]
    instead of asking again, and reads no further. *)
Theorem yes_no_first_answer (depth : nat) (question : string)
        (skipped : list string) (rest : list user_input) :
  Forall (fun l => answer l = None) skipped ->
  ((length skipped < depth)%nat ->
   (forall line b,
       answer line = Some b ->
       yes_no depth question (map Line skipped ++ Line line :: rest)
       = mkRun (Ok (Some b))
               (repeat (Asked (question ++ " [Y/n] "))
                       (S (length skipped)))
               rest)
   /\ yes_no depth question (map Line skipped ++ Interrupt :: rest)
      = mkRun (Ok None)
              (repeat (Asked (question ++ " [Y/n] ")) (S (length skipped))
               ++ [Printed ""])
              rest
   /\ yes_no depth question (map Line skipped)
      = mkRun (Ok None)
              (repeat (Asked (question ++ " [Y/n] ")) (S (length skipped))
               ++ [Printed ""])
              [])
  /\ ((depth <= length skipped)%nat ->
      yes_no depth question (map Line skipped ++ rest)
      = mkRun (Raise RecursionError)
              (repeat (Asked (question ++ " [Y/n] ")) depth)
              (map Line (skipn depth skipped) ++ rest)).
Proof.
  intros Hs. split; [|now apply yes_no_overflow].
  intros Hlen.
  replace depth with (length skipped + S (depth - S (length skipped)))%nat
    by lia.
  split; [|split].
  - intros line b Hb. rewrite yes_no_skip by exact Hs.
    rewrite (yes_no_answer _ question line b rest Hb).
    cbn [value trace pending]. now rewrite repeat_snoc.
  - rewrite yes_no_skip by exact Hs. cbn [yes_no value trace pending].
    f_equal. rewrite <- repeat_snoc, <- app_assoc. reflexivity.
  - rewrite <- (app_nil_r (map Line skipped)) at 1.
    rewrite yes_no_skip by exact Hs. cbn [yes_no value trace pending].
    f_equal. rewrite <- repeat_snoc, <- app_assoc. reflexivity.
Qed.

Lemma yes_no_first_answer_witness :
  yes_no 996 "proceed?" [Line "maybe"; Line "  "; Line "n"]
  = mkRun (Ok (Some true)) (repeat (Asked "proceed? [Y/n] ") 2)
          [Line "n"]
  /\ yes_no 996 "proceed?" [Line "maybe"; Line " No"]
     = mkRun (Ok (Some false)) (repeat (Asked "proceed? [Y/n] ") 2) []
  /\ yes_no 2 "proceed?" [Line "maybe"; Line "perhaps"; Line "y"]
     = mkRun (Raise RecursionError) (repeat (Asked "proceed? [Y/n] ") 2)
             [Line "y"].
Proof.
  split; [|split].
  - apply (proj1 (proj1 (yes_no_first_answer 996 "proceed?" ["maybe"]
                           [Line "n"] ltac:(repeat constructor))
                        ltac:(apply Nat.ltb_lt; reflexivity))
                 "  " true).
    reflexivity.
  - apply (proj1 (proj1 (yes_no_first_answer 996 "proceed?" ["maybe"] []
                           ltac:(repeat constructor))
                        ltac:(apply Nat.ltb_lt; reflexivity))
                 " No" false).
    reflexivity.
  - apply (proj2 (yes_no_first_answer 2 "proceed?" ["maybe"; "perhaps"]
                    [Line "y"] ltac:(repeat constructor))).
    apply Nat.le_refl.
Defined.

(** Whatever is typed, an acknowledgement that
    [prompt_acknowledge_problem] sends is for the host and service it was
    called with, its comment is not empty, has nothing left to strip and
    holds no semicolon, and the user answered yes to the confirmation. *)
Theorem prompt_acknowledge_problem_sent (depth : nat) (state host : string)
        (service : option string) (detail : string)
        (tty rest : list user_input) (ack : acknowledgement) :
  prompt_acknowledge_problem depth state host service detail tty
  = (Ok (Some ack), rest) ->
  ack_host ack = host
  /\ ack_service ack = service
  /\ value (get_acknowledge_comment depth tty) = Ok (Some (ack_comment ack))
  /\ ack_comment ack <> ""
  /\ strip (ack_comment ack) = ack_comment ack
  /\ (forall n, get n (ack_comment ack) <> Some ";"%char)
  /\ exists question,
      value (yes_no depth question
                    (pending (get_acknowledge_comment depth tty)))
      = Ok (Some true).
Proof.
  unfold prompt_acknowledge_problem. intros H.
  destruct (value (get_acknowledge_comment depth tty))
    as [[comment|]|e] eqn:Ec; try discriminate H.
  destruct (negb (truthy comment)); [discriminate H|].
  match type of H with
  | context [yes_no depth ?q ?t] =>
      destruct (value (yes_no depth q t)) as [[[|]|]|e] eqn:Ey;
        try discriminate H; injection H as <- <-;
        destruct (get_acknowledge_comment_value depth tty comment Ec)
          as [s [N ->]];
        cbn [ack_host ack_service ack_comment];
        repeat split;
        [ destruct (strip s); [now elim N | discriminate]
        | now rewrite strip_sub, strip_idem
        | apply sub_semicolon_clean
        | exists q; exact Ey ]
  end.
Qed.

Lemma prompt_acknowledge_problem_sent_witness :
  prompt_acknowledge_problem 996 "CRIT" "db1" (Some "Disk")
    "95 percent used"
    [Line ""; Line " cleanup; retry "; Line "Y"; Line "later"]
  = (Ok (Some (mkAck "db1" (Some "Disk") "cleanup: retry")),
     [Line "later"])
  /\ strip "cleanup: retry" = "cleanup: retry".
Proof.
  split; [reflexivity|].
  refine (proj1 (proj2 (proj2 (proj2 (proj2
            (prompt_acknowledge_problem_sent
               996 "CRIT" "db1" (Some "Disk") "95 percent used"
               [Line ""; Line " cleanup; retry "; Line "Y"; Line "later"]
               [Line "later"]
               (mkAck "db1" (Some "Disk") "cleanup: retry") _)))))).
  reflexivity.
Defined.

End ConfirmFacts.


Module UnacknowledgeFacts.
Import Py Prompt Confirm PyFacts PromptFacts.

Lemma label_rows_length (rows : list (list string)) :
  forall i,
    length (fst (label_rows i rows)) = length rows
    /\ snd (label_rows i rows) = (i + Z.of_nat (length rows))%Z.
Proof.
  induction rows as [|row rest IH]; intros i; cbn [label_rows fst snd].
  - split; [reflexivity | simpl; lia].
  - destruct (IH (i + 1)%Z) as [E1 E2]. cbn [length]. split; lia.
Qed.

Lemma label_rows_nth (rows : list (list string)) :
  forall i j row,
    nth_error rows j = Some row ->
    nth_error (fst (label_rows i rows)) j
    = Some (row_label (i + Z.of_nat j) :: row).
Proof.
  induction rows as [|r rest IH]; intros i j row H.
  - destruct j; discriminate H.
  - destruct j as [|j]; simpl in H.
    + injection H as ->. simpl. do 3 f_equal. lia.
    + cbn [label_rows fst nth_error]. rewrite (IH (i + 1)%Z j row H).
      do 3 f_equal. lia.
Qed.

Lemma labelled_row_cells (label : string) (row : list string) :
  (4 <= length row)%nat ->
  getitem (label :: row) 1 = Ok (nth 0 row "")
  /\ getitem (label :: row) 2 = Ok (nth 1 row "")
  /\ getitem (label :: row) 3 = Ok (nth 2 row "")
  /\ getitem (label :: row) 4 = Ok (nth 3 row "").
Proof.
  intros H. destruct row as [|a [|b [|c [|d tl]]]]; simpl in H; try lia.
  repeat split; apply getitem_at; (lia || reflexivity).
Qed.

Section WithInt.

Variable int : string -> option Z.

Local Abbreviation unacknowledge := (unacknowledge int).

(** With [n] acknowledged host rows and [m] acknowledged service rows
    listed and the rejected entries fitting on the stack, the accepted
    entry [k] picks host row [k] when [k <= n] and service row [k - n]
    otherwise; the un-acknowledgement is sent for the host (and service)
    of that row only when [yes_no] returns yes, and an interrupt at the
    selection sends nothing.  After as many rejected entries as calls
    fit, [RecursionError] is raised and nothing is selected. *)
Theorem unacknowledge_selection (depth : nat)
        (hosts services : list (list string))
        (bad rest : list user_input) (s : string) (k : Z) :
  let n := Z.of_nat (length hosts) in
  let m := Z.of_nat (length services) in
  Forall (fun r => (4 <= length r)%nat) hosts ->
  Forall (fun r => (4 <= length r)%nat) services ->
  (1 <= n + m)%Z ->
  Forall (rejected int (n + m)) bad ->
  int s = Some k ->
  ((length bad < depth)%nat ->
   ((1 <= k <= n)%Z ->
    exists row,
      nth_error hosts (Z.to_nat (k - 1)) = Some row
      /\ unacknowledge depth hosts services (bad ++ Line s :: rest)
         = (confirmed <-
              value (yes_no
                       depth
                       "do you wish to un-acknowledge this host problem?"
                       rest) ;;
            Ok (match confirmed with
                | Some true => Unacknowledged (nth 1 row "") None
                | _ => Declined
                end)))
   /\ ((n < k <= n + m)%Z ->
       exists row,
         nth_error services (Z.to_nat (k - n - 1)) = Some row
         /\ unacknowledge depth hosts services (bad ++ Line s :: rest)
            = (confirmed <-
                 value (yes_no
                          depth
                          "do you wish to un-acknowledge this service problem?"
                          rest) ;;
               Ok (match confirmed with
                   | Some true =>
                       Unacknowledged (nth 1 row "") (Some (nth 2 row ""))
                   | _ => Declined
                   end)))
   /\ unacknowledge depth hosts services (bad ++ Interrupt :: rest)
      = Ok NoAction)
  /\ ((depth <= length bad)%nat ->
      unacknowledge depth hosts services (bad ++ rest)
      = Raise RecursionError).
Proof.
  intros n m Hh Hs Htot Hbad Ek.
  assert (Eh : (if (0 <? n)%Z then label_rows 0 hosts else (hosts, 0%Z))
               = (fst (label_rows 0 hosts), n)).
  { subst n. destruct hosts as [|h hosts]; [reflexivity|].
    replace (0 <? Z.of_nat (length (h :: hosts)))%Z with true
      by (symmetry; apply Z.ltb_lt; simpl; lia).
    rewrite (surjective_pairing (label_rows 0 (h :: hosts))) at 1.
    f_equal. now rewrite (proj2 (label_rows_length (h :: hosts) 0)). }
  assert (Es : (if (0 <? m)%Z then label_rows n services
                else (services, n))
               = (fst (label_rows n services), (n + m)%Z)).
  { subst m. destruct services as [|v services].
    - simpl. f_equal. lia.
    - replace (0 <? Z.of_nat (length (v :: services)))%Z with true
        by (symmetry; apply Z.ltb_lt; simpl; lia).
      rewrite (surjective_pairing (label_rows n (v :: services))) at 1.
      f_equal. now rewrite (proj2 (label_rows_length (v :: services) n)). }
  assert (U : forall tty,
             unacknowledge depth hosts services tty
             = let r := get_problem_id int depth false (n + m) tty in
               selected <- value r ;;
               match selected with
               | None => Ok NoAction
               | Some problem_id =>
                   if (problem_id =? 0)%Z then Ok NoAction
                   else if (problem_id <=? n)%Z then
                     row <- getitem (fst (label_rows 0 hosts))
                                    (problem_id - 1) ;;
                     state <- getitem row 1 ;;
                     host <- getitem row 2 ;;
                     detail <- getitem row 4 ;;
                     confirmed <-
                       value (yes_no
                                depth
                                "do you wish to un-acknowledge this host problem?"
                                (pending r)) ;;
                     match confirmed with
                     | Some true =>
                         host <- getitem row 2 ;;
                         Ok (Unacknowledged host None)
                     | _ => Ok Declined
                     end
                   else
                     row <- getitem (fst (label_rows n services))
                                    (problem_id - n - 1) ;;
                     state <- getitem row 1 ;;
                     host <- getitem row 2 ;;
                     service <- getitem row 3 ;;
                     detail <- getitem row 4 ;;
                     confirmed <-
                       value (yes_no
                                depth
                                "do you wish to un-acknowledge this service problem?"
                                (pending r)) ;;
                     match confirmed with
                     | Some true =>
                         host <- getitem row 2 ;;
                         service <- getitem row 3 ;;
                         Ok (Unacknowledged host (Some service))
                     | _ => Ok Declined
                     end
               end).
  { intros tty. unfold Confirm.unacknowledge. fold n m.
    replace (n + m =? 0)%Z with false by (symmetry; apply Z.eqb_neq; lia).
    rewrite Eh. cbn [fst snd]. rewrite Es. cbn [fst snd].
    rewrite (proj1 (label_rows_length hosts 0)). fold n. reflexivity. }
  split.
  2:{ intros Hlen. rewrite U. cbv zeta.
      now rewrite (get_problem_id_overflow int false (n + m) depth bad rest
                     Hbad Hlen). }
  intros Hlen.
  remember (depth - S (length bad))%nat as d' eqn:Hd'.
  assert (Ed : depth = (length bad + S d')%nat) by lia.
  clear Hd' Hlen. subst depth.
  assert (Ev : value (get_problem_id int (length bad + S d') false (n + m)
                                     (bad ++ Line s :: rest))
               = (if ((1 <=? k) && (k <=? n + m))%Z
                  then Ok (Some k)
                  else value (get_problem_id int d' false (n + m) rest))
               /\ ((1 <= k <= n + m)%Z ->
                   pending (get_problem_id int (length bad + S d') false
                                           (n + m) (bad ++ Line s :: rest))
                   = rest)).
  { destruct (get_problem_id_skip int (S d') false
                (n + m) bad (Line s :: rest) Hbad) as [E1 [E2 _]].
    rewrite E1, E2. cbn [Prompt.get_problem_id]. rewrite Ek.
    split.
    - now destruct ((1 <=? k) && (k <=? n + m))%Z.
    - intros Hk.
      replace ((1 <=? k) && (k <=? n + m))%Z with true; [reflexivity|].
      symmetry. apply andb_true_iff. split; apply Z.leb_le; lia. }
  destruct Ev as [Ev Ep].
  split; [|split].
  - intros Hk.
    destruct (nth_error hosts (Z.to_nat (k - 1))) as [row|] eqn:Hrow.
    2:{ apply nth_error_None in Hrow. lia. }
    exists row. split; [reflexivity|].
    rewrite U. cbv zeta. rewrite Ev, Ep by lia.
    replace ((1 <=? k) && (k <=? n + m))%Z with true
      by (symmetry; apply andb_true_iff; split; apply Z.leb_le; lia).
    cbn [bind].
    replace (k =? 0)%Z with false by (symmetry; apply Z.eqb_neq; lia).
    replace (k <=? n)%Z with true by (symmetry; apply Z.leb_le; lia).
    rewrite (getitem_at (fst (label_rows 0 hosts)) (k - 1)
               (row_label (0 + Z.of_nat (Z.to_nat (k - 1))) :: row))
      by (lia || now apply label_rows_nth).
    cbn [bind].
    assert (Hrl : (4 <= length row)%nat).
    { rewrite Forall_forall in Hh. apply Hh.
      eapply nth_error_In. exact Hrow. }
    destruct (labelled_row_cells
                (row_label (0 + Z.of_nat (Z.to_nat (k - 1)))) row Hrl)
      as [C1 [C2 [_ C4]]].
    rewrite C1. cbn [bind]. rewrite C2. cbn [bind]. rewrite C4.
    cbn [bind].
    destruct (value (yes_no _ _ rest)) as [[[|]|]|e]; reflexivity.
  - intros Hk.
    destruct (nth_error services (Z.to_nat (k - n - 1))) as [row|]
      eqn:Hrow.
    2:{ apply nth_error_None in Hrow. lia. }
    exists row. split; [reflexivity|].
    rewrite U. cbv zeta. rewrite Ev, Ep by lia.
    replace ((1 <=? k) && (k <=? n + m))%Z with true
      by (symmetry; apply andb_true_iff; split; apply Z.leb_le; lia).
    cbn [bind].
    replace (k =? 0)%Z with false by (symmetry; apply Z.eqb_neq; lia).
    replace (k <=? n)%Z with false by (symmetry; apply Z.leb_gt; lia).
    rewrite (getitem_at (fst (label_rows n services)) (k - n - 1)
               (row_label (n + Z.of_nat (Z.to_nat (k - n - 1))) :: row))
      by (lia || now apply label_rows_nth).
    cbn [bind].
    assert (Hrl : (4 <= length row)%nat).
    { rewrite Forall_forall in Hs. apply Hs.
      eapply nth_error_In. exact Hrow. }
    destruct (labelled_row_cells
                (row_label (n + Z.of_nat (Z.to_nat (k - n - 1)))) row Hrl)
      as [C1 [C2 [C3 C4]]].
    rewrite C1. cbn [bind]. rewrite C2. cbn [bind]. rewrite C3.
    cbn [bind]. rewrite C4. cbn [bind].
    destruct (value (yes_no _ _ rest)) as [[[|]|]|e]; reflexivity.
  - rewrite U. cbv zeta.
    destruct (get_problem_id_skip int (S d') false
                (n + m) bad (Interrupt :: rest) Hbad) as [E1 _].
    rewrite E1. reflexivity.
Qed.

End WithInt.

Lemma unacknowledge_selection_witness :
  Confirm.unacknowledge Sample.int 996
    [ ["DOWN"; "web1"; "10.0.0.5"; "no route to host"; "alice";
       "looking into it"] ]
    [ ["WARN"; "db2"; "Load"; "load 7.5"; "10 m"; "bob"; "known"] ]
    [Line "x"; Line "2"; Line "yes"]
  = Ok (Unacknowledged "db2" (Some "Load"))
  /\ Confirm.unacknowledge Sample.int 1
       [ ["DOWN"; "web1"; "10.0.0.5"; "no route to host"; "alice";
          "looking into it"] ]
       [ ["WARN"; "db2"; "Load"; "load 7.5"; "10 m"; "bob"; "known"] ]
       [Line "x"; Line "2"; Line "yes"]
     = Raise RecursionError.
Proof.
  split.
  - destruct (proj1 (proj2 (proj1 (unacknowledge_selection Sample.int 996
                [ ["DOWN"; "web1"; "10.0.0.5"; "no route to host";
                   "alice"; "looking into it"] ]
                [ ["WARN"; "db2"; "Load"; "load 7.5"; "10 m"; "bob";
                   "known"] ]
                [Line "x"] [Line "yes"] "2" 2%Z
                ltac:(repeat constructor) ltac:(repeat constructor)
                ltac:(simpl; lia)
                ltac:(repeat constructor; exists "x";
                      split; [reflexivity | left; reflexivity])
                eq_refl)
              ltac:(apply Nat.ltb_lt; reflexivity)))
              ltac:(simpl; lia)) as [row [Hrow E]].
    injection Hrow as <-. exact E.
  - exact (proj2 (unacknowledge_selection Sample.int 1
                [ ["DOWN"; "web1"; "10.0.0.5"; "no route to host";
                   "alice"; "looking into it"] ]
                [ ["WARN"; "db2"; "Load"; "load 7.5"; "10 m"; "bob";
                   "known"] ]
                [Line "x"] [Line "2"; Line "yes"] "2" 2%Z
                ltac:(repeat constructor) ltac:(repeat constructor)
                ltac:(simpl; lia)
                ltac:(repeat constructor; exists "x";
                      split; [reflexivity | left; reflexivity])
                eq_refl)
             ltac:(simpl; lia)).
Defined.

End UnacknowledgeFacts.


(** ** Printed listings *)

Module ListingFacts.
Import Py Formatter Listing PyFacts FormatterFacts.

Lemma getitem_short {A} (l : list A) (i : Z) :
  (Z.of_nat (length l) <= i)%Z -> getitem l i = Raise IndexError.
Proof.
  intros H. unfold getitem, norm_index.
  replace ((0 <=? i) && (i <? Z.of_nat (length l)))%Z with false
    by (symmetry; apply andb_false_iff; right; apply Z.ltb_ge; lia).
  replace ((- Z.of_nat (length l) <=? i) && (i <? 0))%Z with false
    by (symmetry; apply andb_false_iff; right; apply Z.ltb_ge; lia).
  reflexivity.
Qed.

Lemma getitem_nth {A} (l : list A) (k : nat) (d : A) :
  (k < length l)%nat -> getitem l (Z.of_nat k) = Ok (nth k l d).
Proof.
  intros H. apply getitem_at; [lia|]. rewrite Nat2Z.id.
  now apply nth_error_nth'.
Qed.

Lemma collect_inv {A B} (f : A -> result (option B)) (l : list A) :
  forall ys, collect f l = Ok ys ->
             Forall (fun x => exists y, f x = Ok y) l.
Proof.
  induction l as [|x l IH]; intros ys H; [constructor|].
  simpl in H. destruct (f x) as [y|e] eqn:Ex; simpl in H;
    [|discriminate H].
  destruct (collect f l) as [zs|e]; simpl in H; [|discriminate H].
  constructor; [eauto | exact (IH zs eq_refl)].
Qed.

Lemma collect_all {A B} (f : A -> result (option B)) (l : list A) :
  (forall x, In x l -> exists b, f x = Ok (Some b)) ->
  forall ys, collect f l = Ok ys -> length ys = length l.
Proof.
  induction l as [|x l IH]; intros Hf ys H; simpl in H.
  - now injection H as <-.
  - destruct (Hf x (or_introl eq_refl)) as [b Eb]. rewrite Eb in H.
    simpl in H. destruct (collect f l) as [zs|e] eqn:Ec; simpl in H;
      [|discriminate H].
    injection H as <-. simpl. f_equal. apply IH; [|reflexivity].
    intros z Hz. apply Hf. now right.
Qed.

Lemma each_map {A B} (f : A -> result B) (g : A -> B) (l : list A) :
  (forall x, In x l -> f x = Ok (g x)) -> each f l = Ok (map g l).
Proof.
  induction l as [|x l IH]; intros H; [reflexivity|].
  cbn [each map]. rewrite (H x (or_introl eq_refl)). cbn [bind].
  rewrite IH; [reflexivity|]. intros z Hz. apply H. now right.
Qed.

Section WithLibraries.

Variable fill : string -> nat -> string.
Variable fg : string -> string.
Variable attr : string -> string.
Variable print_colour : bool.
Variable tabulate : list (list string) -> list string -> string.

Local Abbreviation service_problem_row :=
  (service_problem_row fill fg attr print_colour).
Local Abbreviation get_service_problems_table :=
  (get_service_problems_table fill fg attr print_colour).
Local Abbreviation list_service_problems_table :=
  (list_service_problems_table fill fg attr print_colour tabulate).
Local Abbreviation titled := (titled attr print_colour tabulate).
Local Abbreviation service_problem_table_headers :=
  (service_problem_table_headers attr print_colour).
Local Abbreviation list_service_problems :=
  (list_service_problems fg attr print_colour).
Local Abbreviation service_problem_line :=
  (service_problem_line fg attr print_colour).

Lemma service_problem_row_ok (i : list string) :
  (6 <= length i)%nat ->
  exists row, service_problem_row i = Ok (Some row) /\ length row = 6%nat.
Proof.
  intros H. destruct i as [|a [|b [|c [|d [|e [|f tl]]]]]]; simpl in H;
    try lia.
  unfold Formatter.service_problem_row.
  repeat (erewrite getitem_at by (first [lia | reflexivity]); cbn [bind]).
  eexists. split; reflexivity.
Qed.

Lemma service_problem_row_short (i : list string) :
  (length i < 6)%nat -> service_problem_row i = Raise IndexError.
Proof.
  intros H. unfold Formatter.service_problem_row.
  destruct i as [|a [|b [|c [|d [|e [|f tl]]]]]]; simpl in H; try lia;
    reflexivity.
Qed.

Lemma service_problem_row_shape (i : list string) (y : option (list string)) :
  service_problem_row i = Ok y ->
  (6 <= length i)%nat /\ exists row, y = Some row /\ length row = 6%nat.
Proof.
  intros H. destruct (Nat.lt_ge_cases (length i) 6) as [Hs|Hl].
  - rewrite service_problem_row_short in H by exact Hs. discriminate H.
  - split; [exact Hl|]. destruct (service_problem_row_ok i Hl)
      as [row [E L]]. rewrite E in H. injection H as <-. eauto.
Qed.

(** [get_service_problems_table] returns a table exactly when the
    response has a first row and every row after it has at least six
    cells; the table then has one row of exactly six cells for each of
    those rows.  In every other case it raises. *)
Theorem service_table_shape (r : list (list string)) :
  ((exists t, get_service_problems_table r = Ok t)
   <-> r <> [] /\ Forall (fun i => (6 <= length i)%nat) (tl r))
  /\ (forall t,
         get_service_problems_table r = Ok t ->
         length t = length (tl r)
         /\ Forall (fun row => length row = 6%nat) t).
Proof.
  unfold Formatter.get_service_problems_table.
  destruct r as [|header rows]; cbn [pop0 bind tl].
  - split; [split|].
    + intros [t H]. discriminate H.
    + intros [H _]. now elim H.
    + intros t H. discriminate H.
  - split; [split|].
    + intros [t H]. split; [discriminate|].
      eapply Forall_impl; [|exact (collect_inv _ _ _ H)].
      intros i [y Ey]. exact (proj1 (service_problem_row_shape i y Ey)).
    + intros [_ H]. apply collect_total. intros i Hi.
      rewrite Forall_forall in H.
      destruct (service_problem_row_ok i (H i Hi)) as [row [E _]]. eauto.
    + intros t H. split.
      * apply (collect_all service_problem_row rows); [|exact H].
        intros i Hi. pose proof (collect_inv _ _ _ H) as F.
        rewrite Forall_forall in F. destruct (F i Hi) as [y Ey].
        destruct (service_problem_row_shape i y Ey) as [_ [row [-> _]]].
        eauto.
      * eapply collect_Forall; [|exact H].
        intros i row Ey.
        destruct (service_problem_row_shape i _ Ey) as [_ [row' [E L]]].
        injection E as <-. exact L.
Qed.

Lemma del_last_of_six (row : list string) :
  length row = 6%nat -> del row 5 = Ok (firstn 5 row).
Proof.
  intros H. rewrite del_ok by lia. f_equal.
  rewrite (skipn_all2 row) by lia. apply app_nil_r.
Qed.

(** Given the table the builder returns, [list_service_problems_table]
    never raises.  Asked for all problems it returns and prints the table
    as it is; otherwise it drops the sixth cell, the acknowledgement
    flags, from every row and from the headers.  It prints nothing for an
    empty table. *)
Theorem list_service_problems_table_columns (r : list (list string))
        (t : list (list string)) :
  get_service_problems_table r = Ok t ->
  list_service_problems_table true r
  = Ok ((if (0 <? length t)%nat
         then titled "service problems" t service_problem_table_headers
         else []), t)
  /\ list_service_problems_table false r
     = Ok ((if (0 <? length t)%nat
            then titled "service problems" (map (firstn 5) t)
                        (firstn 5 service_problem_table_headers)
            else []), map (firstn 5) t).
Proof.
  intros H. unfold Listing.list_service_problems_table. rewrite H.
  cbn [bind negb fst snd]. split; [reflexivity|].
  assert (F : Forall (fun row => length row = 6%nat) t).
  { unfold Formatter.get_service_problems_table in H.
    destruct (pop0 r) as [rows|e]; cbn [bind] in H; [|discriminate H].
    eapply collect_Forall; [|exact H].
    intros i row Ey.
    destruct (service_problem_row_shape i _ Ey) as [_ [row' [E L]]].
    injection E as <-. exact L. }
  rewrite (each_map (fun row => del row 5) (firstn 5) t).
  - replace (del service_problem_table_headers 5)
      with (Ok (firstn 5 service_problem_table_headers))
      by reflexivity.
    cbn [bind fst snd]. now rewrite length_map.
  - intros row Hrow. rewrite Forall_forall in F.
    now apply del_last_of_six, F.
Qed.

Lemma service_problem_lines_total (good : list (list string)) :
  Forall (fun i => (6 <= length i)%nat) good ->
  exists lines,
    each service_problem_line good = Ok lines
    /\ length lines = length good.
Proof.
  induction 1 as [|i good Hi _ [lines [E L]]].
  - now exists [].
  - assert (exists line, service_problem_line i = Ok line) as [line El].
    { destruct i as [|a [|b [|c [|d [|e [|f tl]]]]]]; simpl in Hi;
        try lia.
      unfold Listing.service_problem_line.
      repeat (erewrite getitem_at by (first [lia | reflexivity]);
              cbn [bind]).
      eauto. }
    exists (line :: lines). cbn [each]. rewrite El, E. cbn [bind].
    split; [reflexivity | simpl; now rewrite L].
Qed.

Lemma print_service_problems_app (good : list (list string)) :
  forall lines rest,
    each service_problem_line good = Ok lines ->
    Listing.print_service_problems fg attr print_colour (good ++ rest)
    = (lines
       ++ fst (Listing.print_service_problems fg attr print_colour rest),
       snd (Listing.print_service_problems fg attr print_colour rest)).
Proof.
  induction good as [|i good IH]; intros lines rest H; cbn [each] in H.
  - injection H as <-. cbn [app].
    now destruct (Listing.print_service_problems fg attr print_colour rest).
  - destruct (service_problem_line i) as [line|x] eqn:El;
      cbn [bind] in H; [|discriminate H].
    destruct (each service_problem_line good) as [ls|x] eqn:Eg;
      cbn [bind] in H; [|discriminate H].
    injection H as <-.
    cbn [app Listing.print_service_problems]. rewrite El.
    rewrite (IH ls rest eq_refl). reflexivity.
Qed.


Local Abbreviation downtime_list :=
  (downtime_list attr print_colour tabulate).
Local Abbreviation str_bold := (Formatter.str_bold attr print_colour).

Lemma host_columns_ok (row : list string) :
  (10 <= length row)%nat -> host_columns row = Ok (host_kept row).
Proof.
  intros H.
  destruct row as [|c0 [|c1 [|c2 [|c3 [|c4 [|c5 [|c6 [|c7 [|c8 [|c9
                   tl]]]]]]]]]]; simpl in H; try lia.
  reflexivity.
Qed.

Lemma host_columns_short (row : list string) :
  (length row < 10)%nat -> host_columns row = Raise IndexError.
Proof.
  intros H.
  destruct row as [|c0 [|c1 [|c2 [|c3 [|c4 [|c5 [|c6 [|c7 [|c8 [|c9
                   tl]]]]]]]]]]; simpl in H; try lia; reflexivity.
Qed.

Lemma service_columns_ok (row : list string) :
  (10 <= length row)%nat -> service_columns row = Ok (service_kept row).
Proof.
  intros H.
  destruct row as [|c0 [|c1 [|c2 [|c3 [|c4 [|c5 [|c6 [|c7 [|c8 [|c9
                   tl]]]]]]]]]]; simpl in H; try lia.
  reflexivity.
Qed.

Lemma service_columns_short (row : list string) :
  (length row < 10)%nat -> service_columns row = Raise IndexError.
Proof.
  intros H.
  destruct row as [|c0 [|c1 [|c2 [|c3 [|c4 [|c5 [|c6 [|c7 [|c8 [|c9
                   tl]]]]]]]]]]; simpl in H; try lia; reflexivity.
Qed.

Lemma split_downtimes_ok (r : list (list string)) :
  Forall (fun i => (2 <= length i)%nat) r ->
  split_downtimes r
  = Ok (filter about_host r, filter (fun i => negb (about_host i)) r).
Proof.
  induction 1 as [|i r Hi _ IH]; [reflexivity|].
  cbn [split_downtimes filter].
  change (getitem i 1) with (getitem i (Z.of_nat 1)).
  rewrite (getitem_nth i 1 "") by lia. cbn [bind]. rewrite IH.
  cbn [bind fst snd].
  change (about_host i) with (nth 1 i "" =? "").
  now destruct (nth 1 i "" =? "").
Qed.

Lemma split_downtimes_covers (r : list (list string)) :
  forall hs,
    split_downtimes r = Ok hs ->
    forall i, In i r -> In i (fst hs) \/ In i (snd hs).
Proof.
  induction r as [|x r IH]; intros hs H i Hi; [destruct Hi|].
  cbn [split_downtimes] in H.
  destruct (getitem x 1) as [x1|e]; cbn [bind] in H; [|discriminate H].
  destruct (split_downtimes r) as [hs'|e]; cbn [bind] in H;
    [|discriminate H].
  injection H as <-. destruct Hi as [->|Hi].
  - destruct (x1 =? ""); simpl; auto.
  - destruct (IH hs' eq_refl i Hi); destruct (x1 =? ""); simpl; auto.
Qed.

Lemma each_inv {A B} (f : A -> result B) (l : list A) :
  forall ys, each f l = Ok ys -> forall x, In x l -> exists y, f x = Ok y.
Proof.
  induction l as [|a l IH]; intros ys H x Hx; [destruct Hx|].
  cbn [each] in H. destruct (f a) as [y|e] eqn:Ea; cbn [bind] in H;
    [|discriminate H].
  destruct (each f l) as [zs|e]; cbn [bind] in H; [|discriminate H].
  destruct Hx as [<-|Hx]; [eauto | exact (IH zs eq_refl x Hx)].
Qed.

(** For a response whose header and rows have the ten columns of the
    view, [downtime_list] prints the rows with an empty service cell as
    the host table, without columns 1, 2, 7, 8 and 9, and the others as
    the service table, without columns 2, 7, 8 and 9, each in the order
    received.  The host table is printed when it has rows unless only
    services were asked for, the service table likewise; with no flag
    and with both flags both are printed. *)
Theorem downtime_list_tables (hosts services : bool)
        (header : list string) (rows : list (list string)) :
  rows <> [] ->
  (10 <= length header)%nat ->
  Forall (fun i => (10 <= length i)%nat) rows ->
  downtime_list hosts services (header :: rows)
  = Ok ((if (hosts || negb services)
            && (0 <? length (filter about_host rows))%nat
         then titled "host downtimes"
                     (map host_kept (filter about_host rows))
                     (host_kept (map str_bold header))
         else [])
        ++ (if (services || negb hosts)
               && (0 <? length (filter (fun i => negb (about_host i))
                                       rows))%nat
            then titled "service downtimes"
                        (map service_kept
                             (filter (fun i => negb (about_host i)) rows))
                        (service_kept (map str_bold header))
            else [])
        ++ [""]).
Proof.
  intros Hne Hh Hr. unfold Listing.downtime_list.
  rewrite (getitem_at (header :: rows) 0 header) by (lia || reflexivity).
  cbn [bind pop0].
  destruct rows as [|row0 rows']; [now elim Hne|].
  set (rows := row0 :: rows') in *.
  replace (length rows =? 0)%nat with false by reflexivity.
  rewrite split_downtimes_ok
    by (eapply Forall_impl; [|exact Hr]; simpl; intros; lia).
  cbn [bind fst snd].
  rewrite host_columns_ok by (now rewrite length_map). cbn [bind].
  rewrite (each_map host_columns host_kept).
  2:{ intros i Hi. apply host_columns_ok. apply filter_In in Hi.
      rewrite Forall_forall in Hr. now apply Hr. }
  cbn [bind].
  rewrite service_columns_ok by (now rewrite length_map). cbn [bind].
  rewrite (each_map service_columns service_kept).
  2:{ intros i Hi. apply service_columns_ok. apply filter_In in Hi.
      rewrite Forall_forall in Hr. now apply Hr. }
  cbn [bind]. rewrite !length_map.
  destruct hosts, services; reflexivity.
Qed.

(** [downtime_list] raises [IndexError] on an empty response, prints a
    single line when the response holds the header row alone, and
    otherwise returns normally only if the header and every row have at
    least ten cells. *)
Theorem downtime_list_returns (hosts services : bool) :
  downtime_list hosts services [] = Raise IndexError
  /\ (forall header,
         downtime_list hosts services [header]
         = Ok ["there are no hosts or services in downtime"])
  /\ (forall header rows out,
         rows <> [] ->
         downtime_list hosts services (header :: rows) = Ok out ->
         (10 <= length header)%nat
         /\ Forall (fun i => (10 <= length i)%nat) rows).
Proof.
  split; [reflexivity|]. split; [reflexivity|].
  intros header rows out Hne H. unfold Listing.downtime_list in H.
  rewrite (getitem_at (header :: rows) 0 header) in H
    by (lia || reflexivity).
  cbn [bind pop0] in H.
  destruct rows as [|row0 rows']; [now elim Hne|].
  set (rows := row0 :: rows') in *.
  replace (length rows =? 0)%nat with false in H by reflexivity.
  destruct (split_downtimes rows) as [hs|e] eqn:Es; cbn [bind] in H;
    [|discriminate H].
  destruct (Nat.lt_ge_cases (length header) 10) as [Hs|Hl].
  { rewrite host_columns_short in H by (now rewrite length_map).
    discriminate H. }
  split; [exact Hl|].
  destruct (host_columns (map str_bold header)); cbn [bind] in H;
    [|discriminate H].
  destruct (each host_columns (fst hs)) as [hd|e] eqn:Eh; cbn [bind] in H;
    [|discriminate H].
  destruct (service_columns (map str_bold header)); cbn [bind] in H;
    [|discriminate H].
  destruct (each service_columns (snd hs)) as [sd|e] eqn:Ev;
    cbn [bind] in H; [|discriminate H].
  apply Forall_forall. intros i Hi.
  destruct (Nat.lt_ge_cases (length i) 10) as [Hshort|Hlong];
    [exfalso | exact Hlong].
  destruct (split_downtimes_covers rows hs Es i Hi) as [Hin|Hin].
  - destruct (each_inv _ _ _ Eh i Hin) as [y Ey].
    rewrite host_columns_short in Ey by exact Hshort. discriminate Ey.
  - destruct (each_inv _ _ _ Ev i Hin) as [y Ey].
    rewrite service_columns_short in Ey by exact Hshort. discriminate Ey.
Qed.

End WithLibraries.

Lemma service_table_shape_witness :
  length [ ["CRIT"; "host1"; "svcA"; "detail1"; "5m"; "(acknowledged) "] ]
  = length (tl [ ["state"; "host"; "service"; "icons"; "detail"; "age"];
                 Sample.service_row ])
  /\ Forall (fun row => length row = 6%nat)
            [ ["CRIT"; "host1"; "svcA"; "detail1"; "5m";
               "(acknowledged) "] ].
Proof.
  apply (proj2 (service_table_shape Sample.fill Sample.fg Sample.attr
                  false
                  [ ["state"; "host"; "service"; "icons"; "detail"; "age"];
                    Sample.service_row ])).
  reflexivity.
Defined.

Lemma list_service_problems_table_columns_witness :
  Listing.list_service_problems_table Sample.fill Sample.fg Sample.attr
    false Sample.tabulate false
    [ ["state"; "host"; "service"; "icons"; "detail"; "age"];
      Sample.service_row ]
  = Ok ([""; "service problems"; "";
         Sample.tabulate [["CRIT"; "host1"; "svcA"; "detail1"; "5m"]]
           ["state"; "host"; "service"; "detail"; "state age"]],
        [["CRIT"; "host1"; "svcA"; "detail1"; "5m"]]).
Proof.
  apply (proj2 (list_service_problems_table_columns Sample.fill Sample.fg
                  Sample.attr false Sample.tabulate
                  [ ["state"; "host"; "service"; "icons"; "detail"; "age"];
                    Sample.service_row ]
                  [ ["CRIT"; "host1"; "svcA"; "detail1"; "5m";
                     "(acknowledged) "] ]
                  eq_refl)).
Defined.


Lemma downtime_list_tables_witness :
  Listing.downtime_list Sample.attr false Sample.tabulate true false
    (Sample.downtimes_header :: Sample.downtimes_rows)
  = Ok [""; "host downtimes"; "";
        Sample.tabulate [["web1"; "alice"; "1 h"; "now"; "in 30 m"]]
          ["host"; "downtime_author"; "downtime_entry_time";
           "downtime_start_time"; "downtime_end_time"];
        ""].
Proof.
  apply (downtime_list_tables Sample.attr false Sample.tabulate true false
           Sample.downtimes_header Sample.downtimes_rows).
  - discriminate.
  - simpl. lia.
  - repeat constructor.
Defined.

Lemma downtime_list_returns_witness :
  (10 <= length Sample.downtimes_header)%nat
  /\ Forall (fun i => (10 <= length i)%nat) Sample.downtimes_rows.
Proof.
  refine (proj2 (proj2 (downtime_list_returns Sample.attr false
                          Sample.tabulate false false))
                Sample.downtimes_header Sample.downtimes_rows _ _ _).
  - discriminate.
  - reflexivity.
Defined.

End ListingFacts.


(** ** Requests *)

Module RequestsFacts.
Import Py Downtime Requests.

Lemma flat_map_nil {A B} (f : A -> list B) (l : list A) :
  (forall x, In x l -> f x = []) -> flat_map f l = [].
Proof.
  induction l as [|x l IH]; intros H; [reflexivity|].
  cbn [flat_map]. rewrite (H x (or_introl eq_refl)), IH; [reflexivity|].
  intros y Hy. apply H. now right.
Qed.

Lemma flat_map_singletons {A B} (p : A -> bool) (f : A -> list B)
      (l : list A) :
  (forall x, length (f x) = 1%nat) ->
  length (flat_map (fun x => if p x then f x else []) l)
  = length (filter p l).
Proof.
  intros H. induction l as [|x l IH]; [reflexivity|].
  cbn [flat_map filter]. rewrite length_app, IH.
  destruct (p x); [now rewrite H | reflexivity].
Qed.

Section WithServer.

Variable fg : string -> string.
Variable attr : string -> string.
Variable print_colour : bool.
Variable quote : string -> string.
Variable quote_all : string -> string.
Variable request_view : string -> string.
Variable username : string.
Variable fnmatchcase : string -> string -> bool.
Variable datetime : Type.
Variable str_of_datetime : datetime -> string.
Variable date_of : datetime -> string.
Variable strftime : datetime -> string -> string.

Local Abbreviation acknowledge_url := (acknowledge_url quote username).
Local Abbreviation acknowledge_problem :=
  (acknowledge_problem fg attr print_colour quote request_view username).
Local Abbreviation unacknowledge_url := (unacknowledge_url quote).
Local Abbreviation unacknowledge_problem :=
  (unacknowledge_problem fg attr print_colour quote request_view).
Local Abbreviation get_problems := (get_problems fg attr print_colour).
Local Abbreviation downtime_bulk_add :=
  (downtime_bulk_add fg attr print_colour quote_all request_view username
                     fnmatchcase datetime str_of_datetime date_of
                     strftime).

(** [acknowledge_problem] and [unacknowledge_problem] print exactly one
    message whatever the server answers: it starts with "unable to" when
    the response lacks the success marker and does not otherwise. *)
Theorem acknowledgement_always_reported (host : string)
        (service : option string) (comment : string) :
  (exists message,
      acknowledge_problem host service comment = [message]
      /\ prefix "unable to " message
         = negb (contains success_marker
                   (request_view (acknowledge_url host service comment))))
  /\ (exists message,
         unacknowledge_problem host service = [message]
         /\ prefix "unable to " message
            = negb (contains success_marker
                      (request_view (unacknowledge_url host service)))).
Proof.
  split.
  - unfold Requests.acknowledge_problem.
    destruct (contains success_marker _), (truthy_opt service);
      eexists; split; reflexivity.
  - unfold Requests.unacknowledge_problem.
    destruct (contains success_marker _), (truthy_opt service);
      eexists; split; reflexivity.
Qed.

(** A folder given to [get_problems] is appended to the query as
    [&wato_folder=] whether or not it exists; a folder that
    [get_folders] does not list only adds one printed message.  An empty
    folder name is treated like no folder. *)
Theorem get_problems_folder (folders : list string) (ignore_status : bool)
        (problem_type : option string) (folder : string) :
  folder <> "" ->
  snd (get_problems folders ignore_status problem_type (Some folder))
  = (snd (get_problems folders ignore_status problem_type None)
     ++ "&wato_folder=" ++ folder)%string
  /\ (fst (get_problems folders ignore_status problem_type (Some folder))
      = [] <-> In folder folders)
  /\ (length (fst (get_problems folders ignore_status problem_type
                                (Some folder))) <= 1)%nat
  /\ get_problems folders ignore_status problem_type (Some "")
     = get_problems folders ignore_status problem_type None.
Proof.
  intros Hf. unfold Requests.get_problems.
  assert (T : truthy folder = true)
    by (unfold truthy; apply negb_true_iff; now apply String.eqb_neq).
  rewrite T. cbn [truthy String.eqb negb fst snd].
  split; [reflexivity|]. split; [|split; [|reflexivity]].
  - destruct (existsb (String.eqb folder) folders) eqn:E; cbn [negb].
    + split; [intros _|reflexivity].
      apply existsb_exists in E. destruct E as [x [Hx Ex]].
      apply String.eqb_eq in Ex. now subst.
    + split; [discriminate|]. intros Hin. exfalso.
      assert (existsb (String.eqb folder) folders = true)
        by (apply existsb_exists; exists folder; split;
            [exact Hin | apply String.eqb_refl]).
      congruence.
  - destruct (negb (existsb (String.eqb folder) folders)); simpl; lia.
Qed.

(** When the server confirms every request, [downtime_bulk_add] prints
    one line for every host whose name matches the pattern if a non-zero
    duration or a period is given, prints nothing if neither is given,
    and raises [ValueError] if both are. *)
Theorem downtime_bulk_add_lines (hosts : list string) (hostname : string)
        (service : option string) (lazy : bool) (comment : option string)
        (minutes : option Z) (period : option (datetime * datetime)) :
  (forall url, contains success_marker (request_view url) = true) ->
  match truthy_minutes minutes, period with
  | true, Some _ =>
      downtime_bulk_add hosts hostname service lazy comment minutes period
      = Raise ValueError
  | false, None =>
      downtime_bulk_add hosts hostname service lazy comment minutes period
      = Ok []
  | _, _ =>
      exists out,
        downtime_bulk_add hosts hostname service lazy comment minutes
                          period = Ok out
        /\ length out
           = length (filter
                       (fun i => fnmatchcase i (match_string lazy hostname))
                       hosts)
  end.
Proof.
  intros Hsent. unfold Requests.downtime_bulk_add.
  destruct period as [p|].
  - destruct (truthy_minutes minutes); [reflexivity|].
    eexists. split; [reflexivity|].
    apply (flat_map_singletons
             (fun i => fnmatchcase i (match_string lazy hostname))).
    intros i. unfold Requests.downtime_add_period. rewrite Hsent.
    now destruct (truthy_opt service).
  - destruct minutes as [n|]; cbn [truthy_minutes].
    + destruct (negb (n =? 0)%Z).
      * eexists. split; [reflexivity|].
        apply (flat_map_singletons
                 (fun i => fnmatchcase i (match_string lazy hostname))).
        intros i. unfold Downtime.downtime_add_minutes. rewrite Hsent.
        now destruct (truthy_opt service).
      * f_equal. apply flat_map_nil. intros i _.
        now destruct (fnmatchcase i _).
    + f_equal. apply flat_map_nil. intros i _.
      now destruct (fnmatchcase i _).
Qed.

(** [downtime_bulk_add] prints nothing at all when no host name matches
    the pattern, and nothing when the server confirms none of its
    requests: in the second case the failures go unreported for every
    host.  It then either returns with nothing printed or raises the
    [ValueError] of a duration given together with a period. *)
Theorem downtime_bulk_add_silent (hosts : list string) (hostname : string)
        (service : option string) (lazy : bool) (comment : option string)
        (minutes : option Z) (period : option (datetime * datetime)) :
  (forall i, In i hosts ->
             fnmatchcase i (match_string lazy hostname) = false)
  \/ (forall url, contains success_marker (request_view url) = false) ->
  downtime_bulk_add hosts hostname service lazy comment minutes period
  = Ok []
  \/ downtime_bulk_add hosts hostname service lazy comment minutes period
     = Raise ValueError.
Proof.
  unfold Requests.downtime_bulk_add. intros Hsilent.
  destruct period as [p|].
  - destruct (truthy_minutes minutes); [now right|].
    left. f_equal. apply flat_map_nil. intros i Hi.
    destruct Hsilent as [Hno|Hfail].
    + now rewrite (Hno i Hi).
    + destruct (fnmatchcase i _); [|reflexivity].
      unfold Requests.downtime_add_period. now rewrite Hfail.
  - left. f_equal. apply flat_map_nil. intros i Hi.
    destruct Hsilent as [Hno|Hfail].
    + now rewrite (Hno i Hi).
    + destruct (fnmatchcase i _); [|reflexivity].
      destruct minutes as [n|]; [|reflexivity].
      destruct (negb (n =? 0)%Z); [|reflexivity].
      unfold Downtime.downtime_add_minutes. now rewrite Hfail.
Qed.

End WithServer.

Lemma acknowledgement_always_reported_witness :
  exists message,
    Requests.acknowledge_problem Sample.fg Sample.attr false Sample.quote
      (fun _ => "ERROR: no such host") "ops" "nohost" None "on it"
    = [message]
    /\ prefix "unable to " message = true.
Proof.
  exact (proj1 (acknowledgement_always_reported Sample.fg Sample.attr
                  false Sample.quote (fun _ => "ERROR: no such host")
                  "ops" "nohost" None "on it")).
Defined.

Lemma get_problems_folder_witness :
  snd (Requests.get_problems Sample.fg Sample.attr false
         ["/"; "/web"] false (Some "host") (Some "/db"))
  = (snd (Requests.get_problems Sample.fg Sample.attr false
            ["/"; "/web"] false (Some "host") None)
     ++ "&wato_folder=/db")%string.
Proof.
  refine (proj1 (get_problems_folder Sample.fg Sample.attr false
                   ["/"; "/web"] false (Some "host") "/db" _)).
  discriminate.
Defined.

Lemma downtime_bulk_add_lines_witness :
  exists out,
    Requests.downtime_bulk_add Sample.fg Sample.attr false Sample.quote
      (fun _ => "MESSAGE: Successfully sent 1 commands.") "ops"
      Sample.fnmatchcase string (fun d => d) (fun d => d) (fun d _ => d)
      ["db1"; "web1"; "web2"] "web" None false None (Some 30%Z) None
    = Ok out
    /\ length out = 2%nat.
Proof.
  apply (downtime_bulk_add_lines Sample.fg Sample.attr false Sample.quote
           (fun _ => "MESSAGE: Successfully sent 1 commands.") "ops"
           Sample.fnmatchcase string (fun d => d) (fun d => d)
           (fun d _ => d)
           ["db1"; "web1"; "web2"] "web" None false None (Some 30%Z) None).
  intros url. reflexivity.
Defined.

Lemma downtime_bulk_add_silent_witness :
  Requests.downtime_bulk_add Sample.fg Sample.attr false Sample.quote
    (fun _ => "ERROR: no such service") "ops" Sample.fnmatchcase string
    (fun d => d) (fun d => d) (fun d _ => d)
    ["db1"; "web1"; "web2"] "web" (Some "Disk") false None (Some 30%Z)
    None
  = Ok []
  \/ Requests.downtime_bulk_add Sample.fg Sample.attr false Sample.quote
       (fun _ => "ERROR: no such service") "ops" Sample.fnmatchcase string
       (fun d => d) (fun d => d) (fun d _ => d)
       ["db1"; "web1"; "web2"] "web" (Some "Disk") false None (Some 30%Z)
       None
     = Raise ValueError.
Proof.
  apply (downtime_bulk_add_silent Sample.fg Sample.attr false Sample.quote
           (fun _ => "ERROR: no such service") "ops" Sample.fnmatchcase
           string (fun d => d) (fun d => d) (fun d _ => d)).
  right. intros url. reflexivity.
Defined.

End RequestsFacts.


(** ** Acknowledged listings *)

Module AcknowledgedFacts.
Import Py Formatter PyFacts FormatterFacts.

Lemma collect_filter {A B} (f : A -> result (option B)) (p : A -> bool)
      (g : A -> B) (l : list A) :
  (forall x, In x l -> f x = Ok (if p x then Some (g x) else None)) ->
  collect f l = Ok (map g (filter p l)).
Proof.
  induction l as [|x l IH]; intros H; [reflexivity|].
  cbn [collect filter]. rewrite (H x (or_introl eq_refl)). cbn [bind].
  rewrite IH by (intros y Hy; apply H; now right). cbn [bind].
  now destruct (p x).
Qed.

Section WithLibraries.

Variable fill : string -> nat -> string.
Variable fg : string -> string.
Variable attr : string -> string.
Variable print_colour : bool.

Local Abbreviation get_comments := (get_comments fill).
Local Abbreviation get_acknowledged_hosts :=
  (get_acknowledged_hosts fill fg attr print_colour).
Local Abbreviation get_acknowledged_services :=
  (get_acknowledged_services fill fg attr print_colour).

(** When the comments are read and every row of the host listing has at
    least five cells, [get_acknowledged_hosts] lists exactly the rows
    whose icons cell contains [ack], in the order received, one row of
    six cells each: the host name is passed on, and the detail is
    wrapped at 60 columns with its severity prefix left in place. *)
Theorem acknowledged_hosts_listed (host_problems comments_json
                                   : list (list string))
        (comments : list comment) :
  get_comments comments_json = Ok comments ->
  Forall (fun i => (5 <= length i)%nat) host_problems ->
  exists listed,
    get_acknowledged_hosts host_problems comments_json = Ok listed
    /\ map (fun row => nth 1 row "") listed
       = map (fun i => nth 0 i "")
             (filter (fun i => contains "ack" (nth 2 i "")) host_problems)
    /\ map (fun row => nth 3 row "") listed
       = map (fun i => fill (nth 4 i "") 60)
             (filter (fun i => contains "ack" (nth 2 i "")) host_problems)
    /\ Forall (fun row => length row = 6%nat) listed.
Proof.
  intros Hc Hrows. unfold Formatter.get_acknowledged_hosts.
  rewrite Hc. cbn [bind].
  set (g := fun i : list string =>
              [host_state fg attr print_colour (nth 3 i "");
               nth 0 i ""; nth 1 i ""; fill (nth 4 i "") 60;
               fst (author_and_comment fill
                      (get_comment comments (nth 0 i "") None));
               snd (author_and_comment fill
                      (get_comment comments (nth 0 i "") None))]).
  rewrite (collect_filter _ (fun i => contains "ack" (nth 2 i "")) g).
  - eexists. split; [reflexivity|]. rewrite !map_map.
    split; [reflexivity|]. split; [reflexivity|].
    apply Forall_map, Forall_forall. reflexivity.
  - intros i Hi. rewrite Forall_forall in Hrows. specialize (Hrows i Hi).
    destruct i as [|a [|b [|c [|d [|e tl]]]]]; simpl in Hrows; try lia.
    unfold Formatter.acknowledged_host_row.
    repeat (erewrite getitem_at by (first [lia | reflexivity]);
            cbn [bind]).
    cbn [nth]. destruct (contains "ack" c); [|reflexivity].
    unfold g. cbn [nth].
    destruct (author_and_comment fill (get_comment comments a None)).
    reflexivity.
Qed.

(** The same for [get_acknowledged_services], on rows of at least six
    cells whose icons are in cell 3: rows of seven cells, host and
    service passed on. *)
Theorem acknowledged_services_listed (service_problems comments_json
                                      : list (list string))
        (comments : list comment) :
  get_comments comments_json = Ok comments ->
  Forall (fun i => (6 <= length i)%nat) service_problems ->
  exists listed,
    get_acknowledged_services service_problems comments_json = Ok listed
    /\ map (fun row => (nth 1 row "", nth 2 row "")) listed
       = map (fun i => (nth 1 i "", nth 2 i ""))
             (filter (fun i => contains "ack" (nth 3 i ""))
                     service_problems)
    /\ map (fun row => nth 3 row "") listed
       = map (fun i => fill (nth 4 i "") 60)
             (filter (fun i => contains "ack" (nth 3 i ""))
                     service_problems)
    /\ Forall (fun row => length row = 7%nat) listed.
Proof.
  intros Hc Hrows. unfold Formatter.get_acknowledged_services.
  rewrite Hc. cbn [bind].
  set (g := fun i : list string =>
              [service_state fg attr print_colour (nth 0 i "");
               nth 1 i ""; nth 2 i ""; fill (nth 4 i "") 60; nth 5 i "";
               fst (author_and_comment fill
                      (get_comment comments (nth 1 i "")
                                   (Some (nth 2 i ""))));
               snd (author_and_comment fill
                      (get_comment comments (nth 1 i "")
                                   (Some (nth 2 i ""))))]).
  rewrite (collect_filter _ (fun i => contains "ack" (nth 3 i "")) g).
  - eexists. split; [reflexivity|]. rewrite !map_map.
    split; [reflexivity|]. split; [reflexivity|].
    apply Forall_map, Forall_forall. reflexivity.
  - intros i Hi. rewrite Forall_forall in Hrows. specialize (Hrows i Hi).
    destruct i as [|a [|b [|c [|d [|e [|f tl]]]]]]; simpl in Hrows;
      try lia.
    unfold Formatter.acknowledged_service_row.
    repeat (erewrite getitem_at by (first [lia | reflexivity]);
            cbn [bind]).
    cbn [nth]. destruct (contains "ack" d); [|reflexivity].
    unfold g. cbn [nth].
    destruct (author_and_comment fill (get_comment comments b (Some c))).
    reflexivity.
Qed.

End WithLibraries.

Lemma acknowledged_hosts_listed_witness :
  exists listed,
    Formatter.get_acknowledged_hosts Sample.fill Sample.fg Sample.attr
      false
      [ ["host"; "host_address"; "host_icons"; "host_state";
         "host_plugin_output"];
        ["web1"; "10.0.0.5"; "ack"; "DOWN"; "CRIT - no route"];
        ["web2"; "10.0.0.6"; ""; "DOWN"; "CRIT - no route"] ]
      Sample.comments_json
    = Ok listed
    /\ map (fun row => nth 1 row "") listed = ["web1"]
    /\ map (fun row => nth 3 row "") listed = ["CRIT - no route"]
    /\ Forall (fun row => length row = 6%nat) listed.
Proof.
  apply (acknowledged_hosts_listed Sample.fill Sample.fg Sample.attr false
           [ ["host"; "host_address"; "host_icons"; "host_state";
              "host_plugin_output"];
             ["web1"; "10.0.0.5"; "ack"; "DOWN"; "CRIT - no route"];
             ["web2"; "10.0.0.6"; ""; "DOWN"; "CRIT - no route"] ]
           Sample.comments_json [Sample.alice]).
  - reflexivity.
  - repeat constructor.
Defined.

Lemma acknowledged_services_listed_witness :
  exists listed,
    Formatter.get_acknowledged_services Sample.fill Sample.fg Sample.attr
      false
      [ ["service_state"; "host"; "service_description"; "service_icons";
         "svc_plugin_output"; "svc_state_age"];
        ["WARN"; "db1"; "Disk"; "ack downtime"; "WARN - 85 percent";
         "3 h"];
        ["CRIT"; "db2"; "Load"; ""; "CRIT - load 12"; "1 h"] ]
      Sample.comments_json
    = Ok listed
    /\ map (fun row => (nth 1 row "", nth 2 row "")) listed
       = [("db1", "Disk")]
    /\ map (fun row => nth 3 row "") listed = ["WARN - 85 percent"]
    /\ Forall (fun row => length row = 7%nat) listed.
Proof.
  apply (acknowledged_services_listed Sample.fill Sample.fg Sample.attr
           false
           [ ["service_state"; "host"; "service_description";
              "service_icons"; "svc_plugin_output"; "svc_state_age"];
             ["WARN"; "db1"; "Disk"; "ack downtime"; "WARN - 85 percent";
              "3 h"];
             ["CRIT"; "db2"; "Load"; ""; "CRIT - load 12"; "1 h"] ]
           Sample.comments_json [Sample.alice]).
  - reflexivity.
  - repeat constructor.
Defined.

End AcknowledgedFacts.


(** ** Checks before a host is added *)

Module PreflightFacts.
Import Py Scraper Sites Requests Preflight.

Lemma existsb_eqb_In (x : string) (l : list string) :
  existsb (String.eqb x) l = true <-> In x l.
Proof.
  rewrite existsb_exists. split.
  - intros [y [Hy E]]. apply String.eqb_eq in E. now subst.
  - intros H. exists x. split; [exact H | apply String.eqb_refl].
Qed.

Section WithEnvironment.

Variable fg : string -> string.
Variable attr : string -> string.
Variable print_colour : bool.
Variable page : list event.
Variable folders : list string.
Variable resolves : string -> bool.
Variable is_ip : string -> bool.

Local Abbreviation add_host_preflight_check :=
  (add_host_preflight_check fg attr print_colour page folders resolves
                            is_ip).


End WithEnvironment.


End PreflightFacts.


(** ** Refreshing the check configuration of hosts *)

Module RefreshFacts.
Import Py Prompt Requests Preflight Refresh PyFacts.

Local Abbreviation lt := OrdersEx.String_as_OT.lt.
Local Abbreviation StronglySorted := Sorted.StronglySorted.

Lemma set_add_In (x h : string) (s : list string) :
  In h (set_add x s) <-> h = x \/ In h s.
Proof.
  unfold set_add. destruct (existsb (String.eqb x) s) eqn:E.
  - split; [now right|]. intros [->|H]; [|exact H].
    apply existsb_exists in E. destruct E as [y [Hy Exy]].
    apply String.eqb_eq in Exy. now subst.
  - simpl. split; (intros [H|H]; [left; congruence | now right]).
Qed.

Lemma set_add_NoDup (x : string) (s : list string) :
  NoDup s -> NoDup (set_add x s).
Proof.
  intros H. unfold set_add.
  destruct (existsb (String.eqb x) s) eqn:E; [exact H|].
  constructor; [|exact H]. intros Hin.
  assert (existsb (String.eqb x) s = true)
    by (apply existsb_exists; exists x; split;
        [exact Hin | apply String.eqb_refl]).
  congruence.
Qed.

Lemma insert_In (x h : string) (l : list string) :
  In h (insert x l) <-> h = x \/ In h l.
Proof.
  induction l as [|y l IH]; simpl.
  - split; (intros [H|[]]; left; congruence).
  - destruct (OrdersEx.String_as_OT.compare x y); simpl;
      try (split; (intros [H|H]; [left; congruence | now right])).
    rewrite IH. split.
    + intros [H|[H|H]]; [right; now left | now left | right; now right].
    + intros [H|[H|H]]; [right; now left | now left | right; now right].
Qed.

Lemma sorted_In (h : string) (l : list string) :
  In h (sorted l) <-> In h l.
Proof.
  induction l as [|x l IH]; [reflexivity|].
  simpl. rewrite insert_In, IH. split; (intros [H|H]; [left; congruence|now right]).
Qed.

Lemma insert_sorted (x : string) (l : list string) :
  ~ In x l -> StronglySorted lt l -> StronglySorted lt (insert x l).
Proof.
  intros Hx Hl. induction Hl as [|y l Hl IH Hy]; simpl.
  - constructor; constructor.
  - destruct (OrdersEx.String_as_OT.compare_spec x y) as [E|L|G].
    + elim Hx. left. symmetry. exact E.
    + constructor; [now constructor|].
      constructor; [exact L|].
      rewrite Forall_forall in Hy |- *. intros z Hz.
      exact (RelationClasses.transitivity L (Hy z Hz)).
    + constructor.
      * apply IH. intros H. apply Hx. now right.
      * rewrite Forall_forall in Hy |- *. intros z Hz.
        apply insert_In in Hz. destruct Hz as [->|Hz];
          [exact G | exact (Hy z Hz)].
Qed.

Lemma sorted_sorted (l : list string) :
  NoDup l -> StronglySorted lt (sorted l).
Proof.
  induction 1 as [|x l Hx _ IH]; [constructor|].
  simpl. apply insert_sorted; [|exact IH].
  now rewrite sorted_In.
Qed.

Lemma sorted_nil (l : list string) : sorted l = [] -> l = [].
Proof.
  destruct l as [|x l]; [reflexivity|]. intros H.
  assert (Hin : In x (sorted (x :: l)))
    by (apply sorted_In; now left).
  rewrite H in Hin. destruct Hin.
Qed.

Lemma unknown_hosts_ok (problems : list (list string)) :
  Forall (fun alert => (2 <= length alert)%nat) problems ->
  forall acc, NoDup acc ->
  exists hs,
    unknown_hosts problems acc = Ok hs
    /\ NoDup hs
    /\ forall h,
        In h hs
        <-> In h acc
            \/ exists alert,
                In alert problems
                /\ nth 0 alert "" = "UNKN" /\ nth 1 alert "" = h.
Proof.
  induction 1 as [|alert problems Ha _ IH]; intros acc Hacc.
  - exists acc. split; [reflexivity|]. split; [exact Hacc|].
    intros h. split; [now left|]. intros [H|[a [[] _]]]. exact H.
  - destruct alert as [|a [|b tl]]; simpl in Ha; try lia.
    cbn [unknown_hosts].
    rewrite (getitem_at (a :: b :: tl) 0 a) by (lia || reflexivity).
    cbn [bind]. destruct (String.eqb_spec a "UNKN") as [E|N].
    + rewrite (getitem_at (a :: b :: tl) 1 b) by (lia || reflexivity).
      cbn [bind].
      destruct (IH (set_add b acc) (set_add_NoDup b acc Hacc))
        as [hs [E1 [Hn Hin]]].
      exists hs. split; [exact E1|]. split; [exact Hn|].
      intros h. rewrite Hin, set_add_In. split.
      * intros [[->|H]|[x [Hx Hp]]].
        -- right. exists (a :: b :: tl). split; [now left|].
           split; [exact E | reflexivity].
        -- now left.
        -- right. exists x. split; [now right | exact Hp].
      * intros [H|[x [[<-|Hx] [Hs Hh]]]].
        -- left. now right.
        -- left. left. symmetry. exact Hh.
        -- right. exists x. split; [exact Hx|]. now split.
    + destruct (IH acc Hacc) as [hs [E1 [Hn Hin]]].
      exists hs. split; [exact E1|]. split; [exact Hn|].
      intros h. rewrite Hin. split.
      * intros [H|[x [Hx Hp]]]; [now left|].
        right. exists x. split; [now right | exact Hp].
      * intros [H|[x [[<-|Hx] [Hs Hh]]]].
        -- now left.
        -- simpl in Hs. now elim N.
        -- right. exists x. split; [exact Hx|]. now split.
Qed.

Lemma unmonitored_hosts_ok (problems : list (list string)) :
  Forall (fun alert => (5 <= length alert)%nat) problems ->
  forall acc, NoDup acc ->
  exists hs,
    unmonitored_hosts problems acc = Ok hs
    /\ NoDup hs
    /\ forall h,
        In h hs
        <-> In h acc
            \/ exists alert,
                In alert problems
                /\ nth 2 alert "" = "Check_MK inventory"
                /\ matches_unmonitored (nth 4 alert "") = true
                /\ nth 1 alert "" = h.
Proof.
  induction 1 as [|alert problems Ha _ IH]; intros acc Hacc.
  - exists acc. split; [reflexivity|]. split; [exact Hacc|].
    intros h. split; [now left|]. intros [H|[a [[] _]]]. exact H.
  - destruct alert as [|a [|b [|c [|d [|e tl]]]]]; simpl in Ha; try lia.
    cbn [unmonitored_hosts].
    rewrite (getitem_at (a :: b :: c :: d :: e :: tl) 2 c)
      by (lia || reflexivity).
    cbn [bind].
    destruct (String.eqb_spec c "Check_MK inventory") as [E|N].
    + rewrite (getitem_at (a :: b :: c :: d :: e :: tl) 4 e)
        by (lia || reflexivity).
      cbn [bind]. destruct (matches_unmonitored e) eqn:M.
      * rewrite (getitem_at (a :: b :: c :: d :: e :: tl) 1 b)
          by (lia || reflexivity).
        cbn [bind].
        destruct (IH (set_add b acc) (set_add_NoDup b acc Hacc))
          as [hs [E1 [Hn Hin]]].
        exists hs. split; [exact E1|]. split; [exact Hn|].
        intros h. rewrite Hin, set_add_In. split.
        -- intros [[->|H]|[x [Hx Hp]]].
           ++ right. exists (a :: b :: c :: d :: e :: tl).
              split; [now left|]. split; [exact E|].
              split; [exact M | reflexivity].
           ++ now left.
           ++ right. exists x. split; [now right | exact Hp].
        -- intros [H|[x [[<-|Hx] [Hs [Hm Hh]]]]].
           ++ left. now right.
           ++ left. left. symmetry. exact Hh.
           ++ right. exists x. split; [exact Hx|]. now repeat split.
      * destruct (IH acc Hacc) as [hs [E1 [Hn Hin]]].
        exists hs. split; [exact E1|]. split; [exact Hn|].
        intros h. rewrite Hin. split.
        -- intros [H|[x [Hx Hp]]]; [now left|].
           right. exists x. split; [now right | exact Hp].
        -- intros [H|[x [[<-|Hx] [Hs [Hm Hh]]]]].
           ++ now left.
           ++ simpl in Hm. congruence.
           ++ right. exists x. split; [exact Hx|]. now repeat split.
    + destruct (IH acc Hacc) as [hs [E1 [Hn Hin]]].
      exists hs. split; [exact E1|]. split; [exact Hn|].
      intros h. rewrite Hin. split.
      * intros [H|[x [Hx Hp]]]; [now left|].
        right. exists x. split; [now right | exact Hp].
      * intros [H|[x [[<-|Hx] [Hs [Hm Hh]]]]].
        -- now left.
        -- simpl in Hs. now elim N.
        -- right. exists x. split; [exact Hx|]. now repeat split.
Qed.

Lemma refreshes_app (a b : list action) :
  refreshes (a ++ b) = refreshes a ++ refreshes b.
Proof.
  induction a as [|[w|h|] a IH]; simpl; [reflexivity| | |]; now rewrite ?IH.
Qed.

Lemma refreshes_wrote {A} (f : A -> written) (l : list A) :
  refreshes (map (fun x => Wrote (f x)) l) = [].
Proof. induction l as [|x l IH]; [reflexivity | exact IH]. Qed.

Lemma refreshes_refreshed (l : list string) :
  refreshes (map Refreshed l) = l.
Proof. induction l as [|x l IH]; [reflexivity | simpl; now rewrite IH]. Qed.

Lemma not_activated_wrote {A} (f : A -> written) (l : list A) :
  ~ In Activated (map (fun x => Wrote (f x)) l).
Proof. intros H. apply in_map_iff in H. now destruct H as [x [H _]]. Qed.

Lemma not_activated_refreshed (l : list string) :
  ~ In Activated (map Refreshed l).
Proof. intros H. apply in_map_iff in H. now destruct H as [x [H _]]. Qed.

Lemma yes_no_raises (question : string) :
  forall (depth : nat) (tty : list user_input) (e : exn),
    value (yes_no depth question tty) = Raise e -> e = RecursionError.
Proof.
  induction depth as [|depth IH]; intros tty e; cbn [yes_no value].
  - intros H. now injection H as <-.
  - destruct tty as [|[s|] tty]; cbn [value]; try discriminate.
    destruct ((substring 0 1 (strip (lower s)) =? "y")
              || (strip (lower s) =? "")); [discriminate|].
    destruct (substring 0 1 (strip (lower s)) =? "n"); [discriminate|].
    cbn [value]. apply IH.
Qed.

Section WithLibraries.

Variable fg : string -> string.
Variable attr : string -> string.
Variable print_colour : bool.
Variable fnmatchcase : string -> string -> bool.

Local Abbreviation confirm_refresh :=
  (confirm_refresh fg attr print_colour).
Local Abbreviation refresh_bulk :=
  (refresh_bulk fg attr print_colour fnmatchcase).
Local Abbreviation unknown_refresh :=
  (unknown_refresh fg attr print_colour).
Local Abbreviation unmonitored_refresh :=
  (unmonitored_refresh fg attr print_colour).

(** The hosts refreshed once the list is drawn up: all of them, unless
    confirmation is asked for and the answer is not a yes.  The changes
    are activated only after a refresh.  The command returns unless
    [yes_no] raises. *)
Lemma confirm_refresh_ok (depth : nat) (question : string)
      (hs : list string) (confirm activate : bool)
      (tty : list user_input) :
  let r := confirm_refresh depth question hs confirm activate tty in
  refreshes (fst r)
  = (if confirm
     then match value (yes_no depth question tty) with
          | Ok (Some true) => hs
          | _ => []
          end
     else hs)
  /\ (hs <> [] ->
      In Activated (fst r)
      <-> activate = true /\ refreshes (fst r) <> [])
  /\ (snd r = Ok Returned \/ snd r = Raise RecursionError)
  /\ (snd r = Raise RecursionError
      <-> confirm = true
          /\ value (yes_no depth question tty) = Raise RecursionError).
Proof.
  cbv zeta. unfold Refresh.confirm_refresh.
  assert (Go : refreshes (map Refreshed hs
                          ++ (if activate then [Activated] else []))
               = hs).
  { rewrite refreshes_app, refreshes_refreshed.
    destruct activate; simpl; now rewrite app_nil_r. }
  assert (Shown :
            forall t : list written,
              refreshes
                ([Wrote (Printed "")]
                 ++ map (fun i => Wrote (Printed
                                           (Formatter.str_green
                                              fg attr print_colour i))) hs
                 ++ [Wrote (Printed "")] ++ map Wrote t) = []).
  { intros t. rewrite !refreshes_app.
    rewrite (refreshes_wrote
               (fun i => Printed (Formatter.str_green fg attr print_colour
                                                      i))).
    rewrite (refreshes_wrote (fun w => w)). reflexivity. }
  assert (NoAct :
            forall t : list written,
              ~ In Activated
                  ([Wrote (Printed "")]
                   ++ map (fun i => Wrote (Printed
                                             (Formatter.str_green
                                                fg attr print_colour i))) hs
                   ++ [Wrote (Printed "")] ++ map Wrote t)).
  { intros t H. rewrite !in_app_iff in H.
    destruct H as [[H|[]]|[H|[[H|[]]|H]]]; try discriminate H.
    - now apply (not_activated_wrote
                   (fun i => Printed (Formatter.str_green
                                        fg attr print_colour i))) in H.
    - now apply (not_activated_wrote (fun w => w)) in H. }
  assert (GoAct :
            In Activated (map Refreshed hs
                          ++ (if activate then [Activated] else []))
            <-> activate = true).
  { rewrite in_app_iff. split.
    - intros [H|H]; [now apply not_activated_refreshed in H|].
      destruct activate; [reflexivity | destruct H].
    - intros ->. right. now left. }
  destruct confirm.
  - destruct (value (yes_no depth question tty)) as [[[|]|]|e] eqn:Ey;
      cbn [fst snd].
    + rewrite refreshes_app, Shown, Go. split; [reflexivity|].
      split; [|split; [now left|]].
      * intros Hne. rewrite in_app_iff, GoAct. split.
        -- intros [H|H]; [now apply NoAct in H | now split].
        -- intros [H _]. now right.
      * split; [discriminate | intros [_ H]; discriminate H].
    + rewrite Shown. split; [reflexivity|].
      split; [|split; [now left|]].
      * intros _. split.
        -- intros H. now apply NoAct in H.
        -- intros [_ H]. now elim H.
      * split; [discriminate | intros [_ H]; discriminate H].
    + rewrite Shown. split; [reflexivity|].
      split; [|split; [now left|]].
      * intros _. split.
        -- intros H. now apply NoAct in H.
        -- intros [_ H]. now elim H.
      * split; [discriminate | intros [_ H]; discriminate H].
    + rewrite (yes_no_raises question depth tty e Ey).
      rewrite Shown. split; [reflexivity|].
      split; [|split; [now right|]].
      * intros _. split.
        -- intros H. now apply NoAct in H.
        -- intros [_ H]. now elim H.
      * split; [now split | reflexivity].
  - cbn [fst snd]. rewrite Go. split; [reflexivity|].
    split; [|split; [now left|]].
    + intros Hne. rewrite GoAct.
      split; [now split | now intros [H _]].
    + split; [discriminate | intros [H _]; discriminate H].
Qed.

(** [unknown_refresh], on rows of at least two cells, refreshes every
    host that has a service in state [UNKN] exactly once, however many
    of its services are unknown, and in ascending order of the host
    names; with [confirm] set it refreshes nothing unless the answer is
    a yes, and it activates the changes only when [activate] is set and
    hosts were refreshed.  It returns, unless the confirmation is asked
    for and [yes_no] raises [RecursionError]. *)
Theorem unknown_refresh_hosts (depth : nat)
        (problems : list (list string))
        (confirm activate : bool) (tty : list user_input) :
  Forall (fun alert => (2 <= length alert)%nat) problems ->
  exists hs acts ending,
    unknown_refresh depth problems confirm activate tty = (acts, ending)
    /\ StronglySorted lt hs
    /\ (forall h,
           In h hs
           <-> exists alert,
               In alert problems
               /\ nth 0 alert "" = "UNKN" /\ nth 1 alert "" = h)
    /\ refreshes acts
       = (if confirm
          then match value (yes_no depth refresh_question tty) with
               | Ok (Some true) => hs
               | _ => []
               end
          else hs)
    /\ (In Activated acts <-> activate = true /\ refreshes acts <> [])
    /\ (ending = Ok Returned \/ ending = Raise RecursionError)
    /\ (ending = Raise RecursionError
        <-> confirm = true /\ hs <> []
            /\ value (yes_no depth refresh_question tty)
               = Raise RecursionError).
Proof.
  intros Hrows.
  destruct (unknown_hosts_ok problems Hrows [] (NoDup_nil _))
    as [found [E [Hn Hin]]].
  unfold Refresh.unknown_refresh. rewrite E.
  exists (sorted found). destruct found as [|x found].
  - do 2 eexists. split; [reflexivity|]. split; [constructor|].
    split; [|split; [|split; [|split; [now left|]]]].
    + intros h. rewrite sorted_In, Hin. split.
      * intros [[]|H]. exact H.
      * intros H. now right.
    + now destruct confirm, (value (yes_no depth refresh_question tty))
        as [[[|]|]|e].
    + split.
      * intros [H|[]]. discriminate H.
      * intros [_ H]. now elim H.
    + split; [discriminate | intros [_ [H _]]; now elim H].
  - cbn [length Nat.eqb].
    pose proof (confirm_refresh_ok depth refresh_question
                  (sorted (x :: found)) confirm activate tty) as C.
    cbv zeta in C. destruct C as [C1 [C2 [C3 C4]]].
    assert (Hne : sorted (x :: found) <> []).
    { intros H. apply sorted_nil in H. discriminate H. }
    destruct (confirm_refresh depth refresh_question
                (sorted (x :: found)) confirm activate tty)
      as [acts ending] eqn:Er.
    cbn [fst snd] in *.
    exists acts, ending. split; [reflexivity|].
    split; [now apply sorted_sorted|].
    split; [|split; [exact C1|split; [exact (C2 Hne)|split; [exact C3|]]]].
    + intros h. rewrite sorted_In, Hin. split.
      * intros [[]|H]. exact H.
      * intros H. now right.
    + rewrite C4. split; [intros [H1 H2]; now repeat split|].
      intros [H1 [_ H2]]. now split.
Qed.

(** [unmonitored_refresh], on rows of at least five cells, refreshes
    every host with a [Check_MK inventory] service whose output has the
    word unmonitored in its first line, exactly once and in ascending
    order of the host names, under the same confirmation. *)
Theorem unmonitored_refresh_hosts (depth : nat)
        (problems : list (list string))
        (confirm activate : bool) (tty : list user_input) :
  Forall (fun alert => (5 <= length alert)%nat) problems ->
  exists hs acts ending,
    unmonitored_refresh depth problems confirm activate tty
    = (acts, ending)
    /\ StronglySorted lt hs
    /\ (forall h,
           In h hs
           <-> exists alert,
               In alert problems
               /\ nth 2 alert "" = "Check_MK inventory"
               /\ matches_unmonitored (nth 4 alert "") = true
               /\ nth 1 alert "" = h)
    /\ refreshes acts
       = (if confirm
          then match value (yes_no depth refresh_question tty) with
               | Ok (Some true) => hs
               | _ => []
               end
          else hs)
    /\ (In Activated acts <-> activate = true /\ refreshes acts <> [])
    /\ (ending = Ok Returned \/ ending = Raise RecursionError)
    /\ (ending = Raise RecursionError
        <-> confirm = true /\ hs <> []
            /\ value (yes_no depth refresh_question tty)
               = Raise RecursionError).
Proof.
  intros Hrows.
  destruct (unmonitored_hosts_ok problems Hrows [] (NoDup_nil _))
    as [found [E [Hn Hin]]].
  unfold Refresh.unmonitored_refresh. rewrite E.
  exists (sorted found). destruct found as [|x found].
  - do 2 eexists. split; [reflexivity|]. split; [constructor|].
    split; [|split; [|split; [|split; [now left|]]]].
    + intros h. rewrite sorted_In, Hin. split.
      * intros [[]|H]. exact H.
      * intros H. now right.
    + now destruct confirm, (value (yes_no depth refresh_question tty))
        as [[[|]|]|e].
    + split.
      * intros [H|[]]. discriminate H.
      * intros [_ H]. now elim H.
    + split; [discriminate | intros [_ [H _]]; now elim H].
  - cbn [length Nat.eqb].
    pose proof (confirm_refresh_ok depth refresh_question
                  (sorted (x :: found)) confirm activate tty) as C.
    cbv zeta in C. destruct C as [C1 [C2 [C3 C4]]].
    assert (Hne : sorted (x :: found) <> []).
    { intros H. apply sorted_nil in H. discriminate H. }
    destruct (confirm_refresh depth refresh_question
                (sorted (x :: found)) confirm activate tty)
      as [acts ending] eqn:Er.
    cbn [fst snd] in *.
    exists acts, ending. split; [reflexivity|].
    split; [now apply sorted_sorted|].
    split; [|split; [exact C1|split; [exact (C2 Hne)|split; [exact C3|]]]].
    + intros h. rewrite sorted_In, Hin. split.
      * intros [[]|H]. exact H.
      * intros H. now right.
    + rewrite C4. split; [intros [H1 H2]; now repeat split|].
      intros [H1 [_ H2]]. now split.
Qed.

(** [refresh_bulk] exits with status 0, refreshing nothing, exactly when
    no host name matches the pattern; otherwise it refreshes the
    matching hosts in the order [get_hosts] gave them, all of them or,
    when confirmation is asked for and the answer is not a yes, none,
    and returns unless [yes_no] raises [RecursionError]. *)
Theorem refresh_bulk_hosts (depth : nat) (hosts : list string)
        (hostname : string) (confirm activate lazy : bool)
        (tty : list user_input) :
  let matching :=
    filter (fun i => fnmatchcase i (match_string lazy hostname)) hosts in
  let r := refresh_bulk depth hosts hostname confirm activate lazy tty in
  (snd r = Ok (Exited 0) <-> matching = [])
  /\ (snd r = Ok Returned
      <-> matching <> []
          /\ ~ (confirm = true
                /\ value (yes_no depth refresh_bulk_question tty)
                   = Raise RecursionError))
  /\ (snd r = Raise RecursionError
      <-> matching <> [] /\ confirm = true
          /\ value (yes_no depth refresh_bulk_question tty)
             = Raise RecursionError)
  /\ refreshes (fst r)
     = (if confirm
        then match value (yes_no depth refresh_bulk_question tty) with
             | Ok (Some true) => matching
             | _ => []
             end
        else matching)
  /\ (In Activated (fst r)
      <-> activate = true /\ refreshes (fst r) <> []).
Proof.
  cbv zeta. unfold Refresh.refresh_bulk.
  destruct (filter (fun i => fnmatchcase i (match_string lazy hostname))
                   hosts) as [|x matching].
  - cbn [length Nat.eqb fst snd]. split; [now split|].
    split; [split; [discriminate | intros [H _]; now elim H]|].
    split; [split; [discriminate | intros [H _]; now elim H]|].
    split.
    + now destruct confirm,
        (value (yes_no depth refresh_bulk_question tty)) as [[[|]|]|e].
    + split.
      * intros [H|[]]. discriminate H.
      * intros [_ H]. now elim H.
  - cbn [length Nat.eqb].
    pose proof (confirm_refresh_ok depth refresh_bulk_question
                  (x :: matching) confirm activate tty) as C.
    cbv zeta in C. destruct C as [C1 [C2 [C3 C4]]].
    destruct (confirm_refresh depth refresh_bulk_question
                (x :: matching) confirm activate tty)
      as [acts ending] eqn:Er.
    cbn [fst snd] in *.
    split; [|split; [|split; [|split; [exact C1|]]]].
    + split; [|discriminate]. intros H.
      destruct C3 as [C3|C3]; rewrite C3 in H; discriminate H.
    + split.
      * intros H. split; [discriminate|]. intros H'.
        apply C4 in H'. rewrite H' in H. discriminate H.
      * intros [_ H]. destruct C3 as [C3|C3]; [exact C3|].
        elim H. now apply C4.
    + rewrite C4. split; [intros H; split; [discriminate | exact H]|].
      now intros [_ H].
    + apply C2. discriminate.
Qed.

End WithLibraries.

Lemma unknown_refresh_hosts_witness :
  exists hs acts ending,
    Refresh.unknown_refresh Sample.fg Sample.attr false 996
      [ ["service_state"; "host"; "service_description"];
        ["UNKN"; "web2"; "Disk"];
        ["CRIT"; "db1"; "Load"];
        ["UNKN"; "web1"; "Memory"];
        ["UNKN"; "web2"; "Uptime"] ]
      true true [Line "maybe"; Line "Yes"]
    = (acts, ending)
    /\ StronglySorted lt hs
    /\ (forall h,
           In h hs
           <-> exists alert,
               In alert
                  [ ["service_state"; "host"; "service_description"];
                    ["UNKN"; "web2"; "Disk"];
                    ["CRIT"; "db1"; "Load"];
                    ["UNKN"; "web1"; "Memory"];
                    ["UNKN"; "web2"; "Uptime"] ]
               /\ nth 0 alert "" = "UNKN" /\ nth 1 alert "" = h)
    /\ refreshes acts = hs
    /\ (In Activated acts <-> true = true /\ refreshes acts <> [])
    /\ (ending = Ok Returned \/ ending = Raise RecursionError)
    /\ (ending = Raise RecursionError
        <-> true = true /\ hs <> []
            /\ Ok (Some true) = Raise RecursionError).
Proof.
  apply (unknown_refresh_hosts Sample.fg Sample.attr false 996
           [ ["service_state"; "host"; "service_description"];
             ["UNKN"; "web2"; "Disk"];
             ["CRIT"; "db1"; "Load"];
             ["UNKN"; "web1"; "Memory"];
             ["UNKN"; "web2"; "Uptime"] ]
           true true [Line "maybe"; Line "Yes"]).
  repeat constructor.
Defined.

Lemma unmonitored_refresh_hosts_witness :
  exists hs acts ending,
    Refresh.unmonitored_refresh Sample.fg Sample.attr false 996
      [ ["service_state"; "host"; "service_description"; "service_icons";
         "svc_plugin_output"];
        ["WARN"; "web2"; "Check_MK inventory"; "";
         "WARN - 2 unmonitored services"];
        ["WARN"; "web1"; "Check_MK inventory"; "";
         "WARN - 1 unmonitored services"];
        ["CRIT"; "db1"; "Disk"; ""; "CRIT - unmonitored"] ]
      false false []
    = (acts, ending)
    /\ StronglySorted lt hs
    /\ (forall h,
           In h hs
           <-> exists alert,
               In alert
                  [ ["service_state"; "host"; "service_description";
                     "service_icons"; "svc_plugin_output"];
                    ["WARN"; "web2"; "Check_MK inventory"; "";
                     "WARN - 2 unmonitored services"];
                    ["WARN"; "web1"; "Check_MK inventory"; "";
                     "WARN - 1 unmonitored services"];
                    ["CRIT"; "db1"; "Disk"; ""; "CRIT - unmonitored"] ]
               /\ nth 2 alert "" = "Check_MK inventory"
               /\ matches_unmonitored (nth 4 alert "") = true
               /\ nth 1 alert "" = h)
    /\ refreshes acts = hs
    /\ (In Activated acts <-> false = true /\ refreshes acts <> [])
    /\ (ending = Ok Returned \/ ending = Raise RecursionError)
    /\ (ending = Raise RecursionError
        <-> false = true /\ hs <> []
            /\ value (yes_no 996 refresh_question [])
               = Raise RecursionError).
Proof.
  apply (unmonitored_refresh_hosts Sample.fg Sample.attr false 996
           [ ["service_state"; "host"; "service_description";
              "service_icons"; "svc_plugin_output"];
             ["WARN"; "web2"; "Check_MK inventory"; "";
              "WARN - 2 unmonitored services"];
             ["WARN"; "web1"; "Check_MK inventory"; "";
              "WARN - 1 unmonitored services"];
             ["CRIT"; "db1"; "Disk"; ""; "CRIT - unmonitored"] ]
           false false []).
  repeat constructor.
Defined.

End RefreshFacts.


(** ** The host problem table *)

Module HostsFacts.
Import Py Formatter Listing Hosts PyFacts.

Lemma each_total {A B} (f : A -> result B) (l : list A) :
  Forall (fun x => exists y, f x = Ok y) l -> exists ys, each f l = Ok ys.
Proof.
  induction 1 as [|x l [y Ey] _ [ys Eys]]; [now exists []|].
  exists (y :: ys). cbn [each]. now rewrite Ey, Eys.
Qed.

Lemma each_Forall2 {A B} (f : A -> result B) (l : list A) :
  forall ys, each f l = Ok ys -> Forall2 (fun x y => f x = Ok y) l ys.
Proof.
  induction l as [|x l IH]; intros ys H; cbn [each] in H.
  - injection H as <-. constructor.
  - destruct (f x) as [y|e] eqn:Ex; cbn [bind] in H; [|discriminate H].
    destruct (each f l) as [zs|e]; cbn [bind] in H; [|discriminate H].
    injection H as <-. constructor; [exact Ex | now apply IH].
Qed.

Lemma each_rows {A B} (f : A -> result B) (g : A -> B) (l : list A) :
  (forall x, In x l -> f x = Ok (g x)) -> each f l = Ok (map g l).
Proof.
  induction l as [|x l IH]; intros H; [reflexivity|].
  cbn [each map]. rewrite (H x (or_introl eq_refl)). cbn [bind].
  rewrite IH; [reflexivity|]. intros z Hz. apply H. now right.
Qed.

Section WithLibraries.

Variable fill : string -> nat -> string.
Variable fg : string -> string.
Variable attr : string -> string.
Variable print_colour : bool.
Variable int : string -> option Z.
Variable tabulate : list (list cell) -> list string -> string.

Local Abbreviation host_problem_row :=
  (host_problem_row fill fg attr print_colour int).
Local Abbreviation get_host_problems_table :=
  (get_host_problems_table fill fg attr print_colour int).
Local Abbreviation list_host_problems_table :=
  (list_host_problems_table fill fg attr print_colour int tabulate).
Local Abbreviation host_problem_table_headers :=
  (host_problem_table_headers attr print_colour).
Local Abbreviation readable := (readable int).

(** What a row of the table looks like, next to the row of the response
    it was built from. *)
Local Abbreviation built i row :=
  (length row = 10%nat
   /\ (forall k, (k < 5)%nat -> exists s, nth k row (Number 0) = Text s)
   /\ (forall k,
          (5 <= k < 10)%nat ->
          exists n,
            int (nth k i "") = Some n
            /\ if ((0 <? n)%Z && (k <? 9)%nat)%bool
               then exists s, nth k row (Number 0) = Text s
               else nth k row (Text "") = Number n)).

Lemma host_problem_row_spec (i : list string) :
  (readable i /\ exists row, host_problem_row i = Ok row /\ built i row)
  \/ (~ readable i /\ exists e, host_problem_row i = Raise e).
Proof.
  destruct (Nat.lt_ge_cases (length i) 10) as [Hs|Hl].
  - right. split; [intros [H _]; lia|].
    unfold Hosts.host_problem_row, to_int.
    destruct i as [|a [|b [|c [|d [|e [|f [|g [|h [|j [|k tl]]]]]]]]]];
      simpl in Hs; try lia;
      simpl;
      repeat match goal with
             | |- context [int ?x] => destruct (int x); simpl
             end;
      eexists; reflexivity.
  - destruct i as [|a [|b [|c [|d [|e [|f [|g [|h [|j [|k tl]]]]]]]]]];
      simpl in Hl; try lia.
    unfold Hosts.host_problem_row, to_int.
    repeat (erewrite getitem_at by (first [lia | reflexivity]);
            cbn [bind]).
    destruct (int f) as [nf|] eqn:Ef; cbn [bind];
      [|right; split; [intros [_ H]; apply (H 5%nat); [lia | exact Ef]
                      |eexists; reflexivity]].
    repeat (erewrite getitem_at by (first [lia | reflexivity]);
            cbn [bind]).
    destruct (int g) as [ng|] eqn:Eg; cbn [bind];
      [|right; split; [intros [_ H]; apply (H 6%nat); [lia | exact Eg]
                      |eexists; reflexivity]].
    repeat (erewrite getitem_at by (first [lia | reflexivity]);
            cbn [bind]).
    destruct (int h) as [nh|] eqn:Eh; cbn [bind];
      [|right; split; [intros [_ H]; apply (H 7%nat); [lia | exact Eh]
                      |eexists; reflexivity]].
    repeat (erewrite getitem_at by (first [lia | reflexivity]);
            cbn [bind]).
    destruct (int j) as [nj|] eqn:Ej; cbn [bind];
      [|right; split; [intros [_ H]; apply (H 8%nat); [lia | exact Ej]
                      |eexists; reflexivity]].
    repeat (erewrite getitem_at by (first [lia | reflexivity]);
            cbn [bind]).
    destruct (int k) as [nk|] eqn:Ek; cbn [bind];
      [|right; split; [intros [_ H]; apply (H 9%nat); [lia | exact Ek]
                      |eexists; reflexivity]].
    left. split.
    + split; [simpl; lia|]. intros n Hn.
      do 10 (destruct n as [|n]; [try lia; simpl; congruence|]). lia.
    + eexists. split; [reflexivity|]. split; [reflexivity|]. split.
      * intros n Hn. do 5 (destruct n as [|n]; [simpl; eauto|]). lia.
      * intros n Hn. unfold count_cell.
        do 5 (destruct n as [|n]; [lia|]).
        do 5 (destruct n as [|n];
              [eexists; split; [eassumption|];
               cbn [nth Nat.ltb Nat.leb andb];
               match goal with
               | |- context [(0 <? ?z)%Z] =>
                   destruct (0 <? z)%Z; cbn [andb nth]; eauto
               end|]).
        lia.
Qed.

Lemma host_table_built (rows : list (list string)) (t : list (list cell)) :
  each host_problem_row rows = Ok t ->
  Forall2 (fun i row => built i row) rows t.
Proof.
  intros H. eapply Forall2_impl; [|exact (each_Forall2 _ _ _ H)].
  intros i row E.
  destruct (host_problem_row_spec i) as [[_ [row' [E' B]]]|[_ [e Ee]]];
    [|congruence].
  assert (row' = row) as <- by congruence. exact B.
Qed.

Lemma host_table_rows_ten (rows : list (list string))
      (t : list (list cell)) :
  each host_problem_row rows = Ok t ->
  forall row, In row t -> length row = 10%nat.
Proof.
  intros H. pose proof (host_table_built rows t H) as F. clear H.
  induction F as [|i row l l' B _ IH].
  - intros row [].
  - intros x [<-|Hx]; [exact (proj1 B) | exact (IH x Hx)].
Qed.

(** [get_host_problems_table] returns a table exactly when the response
    has a first row and every row after it has at least ten cells of
    which cells 5 to 9 are integers; otherwise it raises.  The table has
    one row of ten cells for each of those rows, in order: five texts,
    then the counts, where a count above zero in cells 5 to 8 has become
    a coloured text and every other count is left a number. *)
Theorem host_table_shape (r : list (list string)) :
  ((exists t, get_host_problems_table r = Ok t)
   <-> r <> [] /\ Forall readable (tl r))
  /\ (forall t,
         get_host_problems_table r = Ok t ->
         Forall2 (fun i row => built i row) (tl r) t).
Proof.
  unfold Hosts.get_host_problems_table.
  destruct r as [|header rows]; cbn [pop0 bind tl].
  - split; [split|].
    + intros [t H]. discriminate H.
    + intros [H _]. now elim H.
    + intros t H. discriminate H.
  - split; [split|].
    + intros [t H]. split; [discriminate|].
      apply Forall_forall. intros i Hi.
      destruct (ListingFacts.each_inv _ _ _ H i Hi) as [y Ey].
      destruct (host_problem_row_spec i) as [[Hr _]|[_ [e Ee]]];
        [exact Hr | congruence].
    + intros [_ H]. apply each_total.
      eapply Forall_impl; [|exact H]. intros i Hi.
      destruct (host_problem_row_spec i) as [[_ [row [E _]]]|[Hn _]];
        [eauto | now elim Hn].
    + intros t H. now apply host_table_built.
Qed.

(** Given the table the builder returns, [list_host_problems_table]
    never raises.  Asked for all problems it returns and prints the
    table as it is; otherwise it drops the fifth cell, the
    acknowledgement flags, from every row and from the headers, and no
    other cell.  It prints nothing for an empty table. *)
Theorem list_host_problems_table_columns (r : list (list string))
        (t : list (list cell)) :
  get_host_problems_table r = Ok t ->
  list_host_problems_table true r
  = Ok ((if (0 <? length t)%nat
         then [""; Formatter.str_bold attr print_colour "host problems";
               ""; tabulate t host_problem_table_headers]
         else []), t)
  /\ list_host_problems_table false r
     = Ok ((if (0 <? length t)%nat
            then [""; Formatter.str_bold attr print_colour "host problems";
                  "";
                  tabulate (map without_acknowledged t)
                           (without_acknowledged
                              host_problem_table_headers)]
            else []), map without_acknowledged t).
Proof.
  intros H. unfold Hosts.list_host_problems_table. rewrite H.
  cbn [bind negb fst snd]. split; [reflexivity|].
  assert (F : forall row, In row t -> length row = 10%nat).
  { unfold Hosts.get_host_problems_table in H.
    destruct (pop0 r) as [rows|e]; cbn [bind] in H; [|discriminate H].
    exact (host_table_rows_ten rows t H). }
  rewrite (each_rows (fun row => del row 4) without_acknowledged t).
  - replace (del host_problem_table_headers 4)
      with (Ok (without_acknowledged host_problem_table_headers))
      by reflexivity.
    cbn [bind fst snd]. now rewrite length_map.
  - intros row Hrow. unfold without_acknowledged.
    apply del_ok. rewrite (F row Hrow). lia.
Qed.

End WithLibraries.

Lemma list_host_problems_table_columns_witness :
  exists lines,
    Hosts.list_host_problems_table
      Sample.fill Sample.fg Sample.attr false Sample.int
      (fun rows headers =>
         Sample.tabulate
           (map (map (fun c => match c with
                               | Text s => s
                               | Number n => Prompt.str_of_int n
                               end)) rows)
           headers)
      false
      [ ["host"; "host_address"; "host_icons"; "host_state";
         "host_plugin_output"; "num_services_ok"; "num_services_warn";
         "num_services_crit"; "num_services_unknown";
         "num_services_pending"];
        ["web1"; "10.0.0.5"; "ack"; "DOWN"; "CRIT - no route to host";
         "3"; "0"; "2"; "0"; "1"] ]
    = Ok (lines,
          [ [Text "DOWN"; Text "web1"; Text "10.0.0.5";
             Text "no route to host"; Text "3"; Number 0; Text "2";
             Number 0; Number 1] ]).
Proof.
  eexists.
  exact (proj2
           (list_host_problems_table_columns
              Sample.fill Sample.fg Sample.attr false Sample.int
              (fun rows headers =>
                 Sample.tabulate
                   (map (map (fun c => match c with
                                       | Text s => s
                                       | Number n => Prompt.str_of_int n
                                       end)) rows)
                   headers)
              [ ["host"; "host_address"; "host_icons"; "host_state";
                 "host_plugin_output"; "num_services_ok";
                 "num_services_warn"; "num_services_crit";
                 "num_services_unknown"; "num_services_pending"];
                ["web1"; "10.0.0.5"; "ack"; "DOWN";
                 "CRIT - no route to host"; "3"; "0"; "2"; "0"; "1"] ]
              [ [Text "DOWN"; Text "web1"; Text "10.0.0.5";
                 Text "no route to host"; Text "(acknowledged) ";
                 Text "3"; Number 0; Text "2"; Number 0; Number 1] ]
              eq_refl)).
Defined.

End HostsFacts.
